(* ===== verification/_CoqProject ===== *)
-Q . S2P
Prelude.v
JsString.v
Url.v
Country.v
Button.v
PdfExport.v
Sections.v
Forms.v
Templates.v
Preview.v
Tips.v
Builder.v
Site.v
Marketing.v
Navigation.v
