(* ===== verification/Prelude.v ===== *)
(** * A verification development for the Resume-Builder web application

    The program (TypeScript/React, [src/src]) lets a user pick a
    country-specific resume template, fill in form sections, watch a live
    preview and export it to PDF.  Its parts and how they interact:

    - [utils/pdfExport.ts]: the export pipeline.  [getRecommendedPageSize]
      maps a country to a page size, [generateATSFilename] builds the
      download name from the profile, [exportResumeToPDF] looks the preview
      element up in the DOM, clones it, computes the dated file name and
      hands the clone to the html2pdf rasteriser, turning a rasteriser
      failure into a [{success: false, error}] record.
    - [components/builder/SectionReorder.tsx]: the registry of resume
      sections (order and visibility); each handler updates the component
      state and calls [onSectionsChange] with the whole new list.
    - [components/builder/sections]: the section editors (profile,
      experience, education, skills), each keeping a local copy of its slice
      and reporting it through [onChange].
    - [components/builder/TemplateSelection.tsx]: the template catalogue
      per country.
    - [components/builder/ResumePreview.tsx]: the country dispatch and the
      templates rendering the form data with placeholders.
    - [pages/ResumeBuilder.tsx]: the orchestrator owning country, template
      id, form data, sections and the dirty flag, wiring editors to the
      preview and the export action to the pipeline.
    - [pages/Templates.tsx]: a second template catalogue whose cards link
      into the builder with [?template=..&country=..]; [Layout.tsx],
      [Pricing.tsx] and [Contact.tsx]: the theme flag, the pricing page
      and the contact form around the builder; [Header.tsx]: the menu.
    - [pages/Index.tsx] and [components/home], [Footer.tsx]: the home
      page (hero with its country pills, feature cards, testimonials,
      call to action, the last two loaded lazily behind the
      [LoadingState] placeholder of [components/ui/loading-state.tsx])
      and the footer's links; [components/templates/TemplatePreview.tsx]:
      the thumbnail of each card of the Templates page.

    Files of this development (in dependency order):
    - [Prelude.v] (this file): the [resume_scope] notations (JS truthiness
      [||] on optional strings), the [resume] hint database, the [invc] and
      [case_bool] tactics and the generic list and decision lemmas shared
      by the others.
    - [JsString.v]: the JavaScript string built-ins the code calls, on
      8-bit strings: the regular-expression class [[^a-zA-Z0-9]] and the
      global [replace] over it, [trim], [includes], first-occurrence
      [replace], [toLowerCase], [Array.prototype.splice], and
      [Array.from({length: n}, f)] with ECMAScript's [ToLength].  These are
      JS semantics, not repository code; their lemmas carry the component
      proofs.
    - [Url.v]: [Module Url], the query string as [URLSearchParams]
      writes and reads it (the [application/x-www-form-urlencoded]
      serializer and parser of the URL standard, [get], and the split of
      a link into path and search string); browser semantics, proved to
      round-trip on every list of pairs.
    - [Country.v]: the six-value [CountryType], its string codes and the
      check [ResumeBuilder] applies to the [country] URL parameter; the
      class of the flag icon of [CountryIcon.tsx] ([Module CountryIcon]).
    - [Button.v]: [Module Button], the button of [components/ui]: the
      base class, the variant and size tables with their defaults, the
      [cva] lookup and the element rendered, with [tailwind-merge] as the
      section parameter [twMerge].
    - [PdfExport.v]: [Module PdfExport], the page-size and file-name
      helpers, the dated file-name computation and the whole
      [exportResumeToPDF] over an explicit DOM store (a heap of elements
      and an id table), with the rasteriser as the [Html2Pdf] type class.
      The store makes the aliasing of the source visible: the rasteriser
      may mutate the element it receives, and the theorems show that the
      element the preview shows is never the one mutated.
    - [Sections.v]: [Module SectionReorder], its state record, the
      [SectionType] enum, the default list and every handler with the
      notification it emits; [enabled] says which events the rendered
      component offers, [reachable] is its step relation.
    - [Forms.v]: [Module Forms], the four section editors.  The list
      editors share one generic model (the [Entry] type class and the
      [ListEditor] section); each editor is its local state, its handlers
      with their [onChange] calls, and the events of its JSX.
    - [Templates.v]: the builder's template selector (catalogue, tabs,
      the two callbacks, the highlighted card), the card thumbnails
      ([Module TemplatePreview]: the style table as a [gmap] with its
      fallback) and the public Templates page with its links into the
      builder and the cards of its selected tab.
    - [Preview.v]: [Module Preview], the preview as a tree of text
      nodes: the country dispatch [generatePreview] and the seven
      templates, with their placeholders.
    - [Tips.v]: [Module Tips], the country tips of the four editors as
      [gmap]s keyed by the country code, with the JavaScript lookups and
      their fallbacks ([?.], [||]) and the hint under the experience
      description.
    - [Builder.v]: [Module Builder], the orchestrator: every [useState]
      of [ResumeBuilder] in one [State] record with the URL parameters,
      the persistence slot, the mounted tab content (an editor's local
      state), the selector's own tab and the DOM.  [step] runs one user
      event through the child that receives it and the parent callback it
      calls; [enabled] says which events the page offers; [reachable] is
      a session from the mount on any URL.
    - [Site.v]: the pages around the builder: the theme flag of
      [Layout.tsx] ([Module Theme]), the pricing page of [Pricing.tsx]
      ([Module Pricing]: the plan table, the annual switch, the cards and
      the numbers as a template literal prints them), the contact form of [Contact.tsx]
      ([Module Contact]), whose submit handler is cut at its [await] so
      that typing can interleave with the send, its contact cards and FAQ
      ([Module ContactPage]), the header's menu ([Module Header]), and the
      layout composing the theme with the header, whose theme button
      calls the layout's [toggleTheme] ([Module Layout]).
    - [Marketing.v]: the home page and the footer: the links of the
      footer and of the sections ([Module Links]), the hero's country
      pills ([Module Hero]), the feature cards and their animation delays
      as IEEE doubles, Rocq's primitive floats ([Module Features]), the
      testimonials and their stars ([Module Testimonials]), the loading
      placeholder ([Module LoadingState]) and the page with its lazy
      sections ([Module Index]).
    - [Navigation.v]: [Module Navigation], the pages composed through
      URLs: the builder mounted on a link ([open_builder]), the URL it
      writes ([builder_url]) and the card its selector marks.

    Theorems, by group (the claims are listed in PROJECT.json):
    - page size and file name: functional on every country and on the
      character classes, with bounds on the name's length; the name is stripped of every non-alphanumeric
      character, which also removes the separator between last and first
      name, a divergence from the spec;
    - export: a missing element rejects before any work, a rasteriser
      failure is a value, success returns the dated name, and the
      element the preview shows is unchanged whatever the rasteriser does;
    - sections: reorder refines an abstract [move]; a toggle flips the
      visibility of exactly the sections with its id, keeps the rest, and
      a second toggle undoes it; add leaves the state untouched exactly on
      blank titles; the country recommendation sets visibility to
      membership; every reachable state has unique ids when the clock
      gives fresh values and keeps the eight built-in ids, and from any
      state two adds in the same millisecond append two sections with one
      id, which a single toggle then hides together;
    - editors: a profile edit sets its field and keeps the others; the
      education editor and the page stay equal, the
      experience editor does not report adds and removes; removal keeps
      an entry; skills add and remove functionally, and each badge the
      skills editor shows removes its own skill from its own list;
    - catalogues and preview: the Templates page links six unknown ids,
      the selector cannot reach EU, the country templates render the
      profile only and Germany prints a fixed birth date; every tip table
      covers the six countries and the fields the editors ask about; every card of
      the Templates page gets its own thumbnail style, and on every tab
      the page can reach the cards carry their tab's code, never [eu];
    - builder: the executable session check [run_enabled] is equivalent
      to the reachability relation and the document stays a well-formed
      store (supporting lemmas, not claims); the exported element is always the current preview (what
      you see is what you export); the URL always shows the selection; the page refines the
      spec's session machine ([Idle -> Editing -> Saved -> Editing], export
      changing nothing), so a clear dirty flag means the content is the
      mounted one or the saved one; the mounted
      profile, education and skills editors hold the page's slice; export
      keeps the page status and sends the page size and name the code
      computes; the default template of a country change is a card only
      for three countries; a tab switch drops an unreported experience
      entry, and reopening the section tab resets the section list; the
      persistence slot is never read (sessions from two slots differ in
      the slot only); a
      deep link leaves the selector on the USA tab; sections never reach
      the preview; on a clean page a change of country or template
      neither sets the dirty flag nor writes the slot, so it is not saved;
    - site: the theme class follows the flag and a toggle is read back on
      the next visit; the annual prices save between 20% and 21% and the
      cards print the prices and yearly bills the browser shows (the
      double products checked with primitive floats); the contact form's
      validation branch is dead, a send in progress always completes
      (liveness), and text typed during a send is lost, since the
      fields stay enabled while the button is disabled; the header's menu survives a change of layout; the theme
      button's label and icon follow the document's [dark] class in every
      state of the layout, a click flips the class and the next visit
      mounts in the mode it stored; of the pricing page's controls only the switch
      has a handler;
    - home page and footer: eight footer links and the five country
      pills lead to paths the header does not link (routing is outside
      [src], so this is a lemma, not a claim about the code); each pill's variant, icon and
      target name one country; the fourth feature card's delay is the
      double [3 * 0.1], not [0.3]; the copyright line carries a stray
      U+00C2; the placeholder is repeated [count] times, none for a count
      of zero or below; until the testimonials load, three card
      placeholders stand in their place; the page claims 60+ countries
      where the program knows six, and 24/7 support where the contact
      page offers weekday hours; header and footer name the site
      differently; each pill's variant and size are entries of the
      button's tables;
    - navigation: the query string round-trips through the serializer
      and the parser; a reload of the builder restores its country and
      template id from the URL it wrote; following a card of the
      Templates page opens the builder on that card's country and id,
      but the selector marks the card for Modern American only.

    Assumptions of the model: tab contents of the Radix [Tabs] component
    are mounted only while their tab is active and a click on the active
    tab does nothing; after every event React has committed the preview
    into the element [resume-preview-content] (the [Render] class says how
    a preview tree becomes a document node); an export runs to its end before the next event (the
    page writes nothing of its state after the pipeline's [await]); the
    document the page starts from is any well-formed store.

    Bounds and fuel: no definition needs fuel; every recursion is
    structural on a list or a string; the contact page's timer is
    one-shot (a firing clears it and only a submit sets it).  Clock values ([Date.now()]) are
    inputs of the events that read them.  Numbers are kept as the code
    has them: integer counts as [Z] with ECMAScript's [ToLength] where
    [Array.from] reads them, prices as integer cents printed as a
    template literal prints the double, and the double products of the
    code ([7.99 * 12], [index * 0.1]) as Rocq's primitive IEEE floats.

    Not modelled: the headings, paragraphs, images and decorative
    elements of the home page and the fixed bars of the template
    thumbnails (static markup); [tailwind-merge]'s resolution of
    conflicting classes, a library the button calls (the parameter
    [twMerge]); routing, which lives outside [src] (the pages'
    paths are those the header links); the html2pdf library itself, which is the
    [Html2Pdf] interface; the browser's e-mail syntax check, a parameter of
    [Module Contact]; CSS classes of the templates. *)

From stdpp Require Export base list strings gmap.

Declare Scope resume_scope.
Delimit Scope resume_scope with resume.
Open Scope stdpp_scope.

(** JavaScript truthiness of an optional string: [undefined] and [""] are
    falsy, so [x || d] (written [x ?|| d] here) yields [d] on both. *)
Definition js_or (o : option string) (d : string) : string :=
  match o with
  | Some s => if bool_decide (s = "") then d else s
  | None => d
  end.

(** The same on a plain string (a field that is always present). *)
Definition js_or_s (s d : string) : string :=
  if bool_decide (s = "") then d else s.

Notation "o ?|| d" := (js_or o d) (at level 50, left associativity) : resume_scope.
Notation "s ~|| d" := (js_or_s s d) (at level 50, left associativity) : resume_scope.

Create HintDb resume discriminated.
Create Rewrite HintDb resume.

Ltac invc H := inversion H; clear H; subst.

(** Case on a boolean scrutinee of the goal, keeping its equation. *)
Ltac case_bool :=
  match goal with
  | |- context [if ?b then _ else _] =>
      let E := fresh "E" in destruct b eqn:E
  end.

Section GenericLists.
Context {A : Type}.

Lemma js_or_some_nonempty (s d : string) :
  s <> "" -> js_or (Some s) d = s.
Proof. intros H. unfold js_or. by rewrite bool_decide_false. Qed.

Lemma js_or_s_nonempty (s d : string) :
  s <> "" -> js_or_s s d = s.
Proof. intros H. unfold js_or_s. by rewrite bool_decide_false. Qed.

Lemma map_id_pointwise (f : A -> A) (l : list A) :
  (forall x, In x l -> f x = x) -> List.map f l = l.
Proof.
  induction l as [|x l IH]; intros H; simpl; [done|].
  rewrite H by (left; done). f_equal. apply IH. intros y Hy. apply H. by right.
Qed.

Lemma map_map_pointwise (f g : A -> A) (l : list A) :
  List.map f (List.map g l) = List.map (fun x => f (g x)) l.
Proof. by rewrite List.map_map. Qed.

Lemma filter_all_true (p : A -> bool) (l : list A) :
  (forall x, In x l -> p x = true) -> List.filter p l = l.
Proof.
  induction l as [|x l IH]; intros H; simpl; [done|].
  rewrite H by (left; done). f_equal. apply IH. intros y Hy. apply H. by right.
Qed.
Lemma filter_all_false (p : A -> bool) (l : list A) :
  (forall x, In x l -> p x = false) -> List.filter p l = [].
Proof.
  induction l as [|x l IH]; intros H; simpl; [done|].
  rewrite H by (left; done). apply IH. intros y Hy. apply H. by right.
Qed.
(** Two decidable propositions whose deciders agree are equivalent; this
    turns a finite case analysis computed by [reflexivity] into an [<->]. *)
Lemma bool_decide_iff (P Q : Prop) `{Decision P, Decision Q} :
  bool_decide P = bool_decide Q -> P <-> Q.
Proof. case_bool_decide; case_bool_decide; naive_solver. Qed.

End GenericLists.

#[export] Hint Resolve js_or_some_nonempty js_or_s_nonempty : resume.
