(* ===== verification/JsString.v ===== *)
(** * JavaScript string and array built-ins called by the sources

    Strings are 8-bit [string]s (code units 0-255, the Latin-1 range of a
    JS string).  The regular expression [/[^a-zA-Z0-9]/g] of
    [pdfExport.ts], [String.prototype.trim], [includes], [replace] with a
    string pattern (first occurrence only), [toLowerCase] and
    [Array.prototype.splice] are given their ECMAScript meaning on that
    range.  The lemmas are the facts the component proofs use. *)

From S2P Require Import Prelude.
From Stdlib Require Import Ascii.

Module JsString.

(** ** Character classes *)

Definition code (c : ascii) : nat := nat_of_ascii c.

(** The class [[a-zA-Z0-9]]. *)
Definition is_alnum (c : ascii) : bool :=
  let n := code c in
  ((48 <=? n) && (n <=? 57)) || ((65 <=? n) && (n <=? 90)) || ((97 <=? n) && (n <=? 122)).

(** ECMAScript WhiteSpace and LineTerminator code units below 256:
    TAB, LF, VT, FF, CR, SPACE and NO-BREAK SPACE. *)
Definition is_js_space (c : ascii) : bool :=
  let n := code c in
  ((9 <=? n) && (n <=? 13)) || (n =? 32) || (n =? 160).

(** [toLowerCase] on one code unit: A-Z and the Latin-1 capitals
    (192-222 except the multiplication sign 215) move up by 32. *)
Definition lower_char (c : ascii) : ascii :=
  let n := code c in
  if ((65 <=? n) && (n <=? 90)) || ((192 <=? n) && (n <=? 222) && negb (n =? 215))
  then ascii_of_nat (n + 32) else c.

(** ** String functions *)

Fixpoint all_chars (p : ascii -> bool) (s : string) : bool :=
  match s with
  | EmptyString => true
  | String c s' => p c && all_chars p s'
  end.

(** [s.replace(/[^a-zA-Z0-9]/g, r)] where [r] is the replacement text
    (a string without [$], so it is inserted literally). *)
Fixpoint replace_non_alnum (r : string) (s : string) : string :=
  match s with
  | EmptyString => EmptyString
  | String c s' =>
      if is_alnum c then String c (replace_non_alnum r s')
      else r +:+ replace_non_alnum r s'
  end.

Fixpoint toLowerCase (s : string) : string :=
  match s with
  | EmptyString => EmptyString
  | String c s' => String (lower_char c) (toLowerCase s')
  end.

Fixpoint trim_start (s : string) : string :=
  match s with
  | EmptyString => EmptyString
  | String c s' => if is_js_space c then trim_start s' else s
  end.

(** [s.trim()]: leading and trailing white space removed. *)
Definition trim (s : string) : string :=
  String.rev (trim_start (String.rev (trim_start s))).

Fixpoint sdrop (n : nat) (s : string) : string :=
  match n, s with
  | 0, _ => s
  | S n', String _ s' => sdrop n' s'
  | S _, EmptyString => EmptyString
  end.

(** [s.includes(pat)]. *)
Fixpoint includes (s pat : string) : bool :=
  String.prefix pat s ||
  match s with
  | EmptyString => false
  | String _ s' => includes s' pat
  end.

(** [s.replace(pat, r)] with a string pattern: the first occurrence only. *)
Fixpoint replace_first (s pat r : string) : string :=
  if String.prefix pat s then r +:+ sdrop (String.length pat) s
  else match s with
       | EmptyString => EmptyString
       | String c s' => String c (replace_first s' pat r)
       end.

(** ** [Array.prototype.splice(start, deleteCount, ...items)]

    For a non-negative [start]: the actual start is [min start len], at
    most [len - start] elements are removed.  Returns the removed elements
    and the new array. *)
Definition splice {A} (l : list A) (start dc : nat) (items : list A) : list A * list A :=
  let st := Nat.min start (length l) in
  let n := Nat.min dc (length l - st) in
  (take n (drop st l), take st l ++ items ++ drop (st + n) l).

(** [ToLength] on an integral number: negative lengths become 0 and
    lengths above [2^53 - 1] are cut there. *)
Definition to_length (n : Z) : nat := Z.to_nat (Z.min n (2 ^ 53 - 1)).

(** [Array.from({ length: n }, (_, i) => f i)]. *)
Definition array_from_length {A} (n : Z) (f : nat -> A) : list A :=
  List.map f (seq 0 (to_length n)).

(** ** Lemmas *)

Lemma array_from_length_length {A} (n : Z) (f : nat -> A) :
  length (array_from_length n f) = to_length n.
Proof. unfold array_from_length. by rewrite length_map, length_seq. Qed.

(** A non-positive length gives the empty array. *)
Lemma array_from_length_nonpos {A} (n : Z) (f : nat -> A) :
  (n <= 0)%Z -> array_from_length n f = [].
Proof. intros Hn. unfold array_from_length, to_length. by rewrite Z2Nat.nonpos by lia. Qed.

(** An array length in range is taken as it is. *)
Lemma to_length_in_range (n : Z) : (0 <= n <= 2 ^ 53 - 1)%Z -> Z.of_nat (to_length n) = n.
Proof. intros Hn. unfold to_length. rewrite Z.min_l by lia. lia. Qed.

Lemma sapp_nil_l s : EmptyString +:+ s = s.
Proof. done. Qed.

Lemma sapp_cons c s1 s2 : String c s1 +:+ s2 = String c (s1 +:+ s2).
Proof. done. Qed.

Lemma sapp_assoc s1 s2 s3 : s1 +:+ (s2 +:+ s3) = (s1 +:+ s2) +:+ s3.
Proof. induction s1 as [|c s1 IH]; [done|]. rewrite !sapp_cons. by rewrite IH. Qed.

#[export] Hint Rewrite sapp_nil_l sapp_cons : resume.

Lemma all_chars_app p s1 s2 :
  all_chars p (s1 +:+ s2) = all_chars p s1 && all_chars p s2.
Proof.
  induction s1 as [|c s1 IH]; autorewrite with resume; simpl; [done|].
  rewrite IH. apply andb_assoc.
Qed.

Lemma all_chars_impl (p q : ascii -> bool) s :
  (forall c, p c = true -> q c = true) -> all_chars p s = true -> all_chars q s = true.
Proof.
  intros Hpq. induction s as [|c s IH]; simpl; [done|].
  intros [Hc Hs]%andb_prop. by rewrite Hpq, IH.
Qed.

Lemma replace_non_alnum_app r s1 s2 :
  replace_non_alnum r (s1 +:+ s2) = replace_non_alnum r s1 +:+ replace_non_alnum r s2.
Proof.
  induction s1 as [|c s1 IH]; autorewrite with resume; simpl; [done|].
  rewrite IH. destruct (is_alnum c); [done|]. apply sapp_assoc.
Qed.

(** With an alphanumeric replacement (in particular the empty one), the
    result has no character of the class [[^a-zA-Z0-9]]. *)
Lemma replace_non_alnum_all r s :
  all_chars is_alnum r = true -> all_chars is_alnum (replace_non_alnum r s) = true.
Proof.
  intros Hr. induction s as [|c s IH]; simpl; [done|].
  destruct (is_alnum c) eqn:E; simpl.
  - by rewrite E, IH.
  - by rewrite all_chars_app, Hr, IH.
Qed.

(** More generally, the result satisfies any class that holds on the
    alphanumerics and on the replacement. *)
Lemma replace_non_alnum_class (q : ascii -> bool) r s :
  (forall c, is_alnum c = true -> q c = true) ->
  all_chars q r = true -> all_chars q (replace_non_alnum r s) = true.
Proof.
  intros Hq Hr. induction s as [|c s IH]; simpl; [done|].
  destruct (is_alnum c) eqn:E; simpl.
  - by rewrite Hq, IH.
  - by rewrite all_chars_app, Hr, IH.
Qed.

(** The filter leaves an alphanumeric string unchanged. *)
Lemma replace_non_alnum_id r s :
  all_chars is_alnum s = true -> replace_non_alnum r s = s.
Proof.
  induction s as [|c s IH]; simpl; [done|].
  intros [Hc Hs]%andb_prop. by rewrite Hc, IH.
Qed.

(** Replacing by one character keeps the length. *)
Lemma replace_non_alnum_length c s :
  String.length (replace_non_alnum (String c EmptyString) s) = String.length s.
Proof.
  induction s as [|d s IH]; simpl; [done|].
  destruct (is_alnum d); autorewrite with resume; simpl; by rewrite IH.
Qed.

Lemma length_sapp s1 s2 : String.length (s1 +:+ s2) = String.length s1 + String.length s2.
Proof. induction s1 as [|c s1 IH]; simpl; [done|]. by rewrite IH. Qed.

#[export] Hint Rewrite length_sapp : resume.

(** Removing the class never lengthens a string. *)
Lemma replace_non_alnum_nil_length s :
  String.length (replace_non_alnum EmptyString s) <= String.length s.
Proof. induction s as [|d s IH]; simpl; [lia|]. destruct (is_alnum d); autorewrite with resume; simpl; lia. Qed.

Lemma all_chars_rev_app p s1 s2 :
  all_chars p (String.rev_app s1 s2) = all_chars p s1 && all_chars p s2.
Proof.
  revert s2. induction s1 as [|c s1 IH]; intros s2; simpl; [done|].
  rewrite IH. simpl. by rewrite andb_assoc, (andb_comm (all_chars p s1) (p c)), <- andb_assoc.
Qed.

Lemma all_chars_rev p s : all_chars p (String.rev s) = all_chars p s.
Proof. unfold String.rev. rewrite all_chars_rev_app. apply andb_true_r. Qed.

Lemma trim_start_blank s :
  trim_start s = EmptyString <-> all_chars is_js_space s = true.
Proof.
  induction s as [|c s IH]; simpl; [done|].
  destruct (is_js_space c); simpl; [done|]. split; discriminate.
Qed.

(** What [trim_start] leaves is empty or starts with a non-space. *)
Lemma trim_start_all_blank s :
  all_chars is_js_space (trim_start s) = true -> trim_start s = EmptyString.
Proof.
  induction s as [|c s IH]; simpl; [done|].
  destruct (is_js_space c) eqn:E; [done|]. simpl. by rewrite E.
Qed.

Lemma rev_app_empty s1 s2 :
  String.rev_app s1 s2 = EmptyString <-> s1 = EmptyString /\ s2 = EmptyString.
Proof.
  revert s2. induction s1 as [|c s1 IH]; intros s2; simpl; [naive_solver|].
  rewrite IH. naive_solver.
Qed.

Lemma rev_empty s : String.rev s = EmptyString <-> s = EmptyString.
Proof. unfold String.rev. rewrite rev_app_empty. naive_solver. Qed.

(** [!s.trim()] holds exactly on strings made of white space. *)
Lemma trim_blank s : trim s = EmptyString <-> all_chars is_js_space s = true.
Proof.
  unfold trim. rewrite rev_empty, trim_start_blank, all_chars_rev.
  split; intros H.
  - by apply trim_start_blank, trim_start_all_blank.
  - apply trim_start_blank in H. by rewrite H.
Qed.

Lemma prefix_app_l p s : String.prefix p (p +:+ s) = true.
Proof.
  induction p as [|c p IH]; [by destruct s|].
  rewrite sapp_cons. simpl. destruct (ascii_dec c c); [done|congruence].
Qed.

Lemma sapp_nil_r s : s +:+ EmptyString = s.
Proof. induction s as [|c s IH]; [done|]. rewrite sapp_cons. by rewrite IH. Qed.

Lemma sdrop_app p s : sdrop (String.length p) (p +:+ s) = s.
Proof. induction p as [|c p IH]; [done|]. rewrite sapp_cons. apply IH. Qed.

Lemma prefix_refl p : String.prefix p p = true.
Proof. pose proof (prefix_app_l p EmptyString) as H. by rewrite sapp_nil_r in H. Qed.

Lemma replace_first_here s pat r :
  String.prefix pat s = true -> replace_first s pat r = r +:+ sdrop (String.length pat) s.
Proof. intros H. destruct s; cbn [replace_first]; by rewrite H. Qed.

(** A pattern found at the end of a string that does not contain its first
    character is found there first. *)
Lemma includes_suffix c0 p stem :
  includes (stem +:+ String c0 p) (String c0 p) = true.
Proof.
  induction stem as [|c stem IH].
  - rewrite sapp_nil_l. cbn [includes]. by rewrite prefix_refl.
  - rewrite sapp_cons. simpl. rewrite IH. apply orb_true_r.
Qed.

Lemma replace_first_suffix c0 p stem r :
  all_chars (fun c => negb (bool_decide (c = c0))) stem = true ->
  replace_first (stem +:+ String c0 p) (String c0 p) r = stem +:+ r.
Proof.
  induction stem as [|c stem IH]; intros Hs.
  - rewrite !sapp_nil_l, replace_first_here by apply prefix_refl.
    pose proof (sdrop_app (String c0 p) EmptyString) as H. rewrite sapp_nil_r in H.
    rewrite H. apply sapp_nil_r.
  - simpl in Hs. apply andb_prop in Hs as [Hc Hs].
    rewrite sapp_cons. simpl.
    destruct (ascii_dec c0 c) as [->|Hne]; [by rewrite bool_decide_true in Hc|].
    rewrite IH by done. done.
Qed.

(** [items.splice(i, 1)] on an index in range removes exactly that item. *)
Lemma splice_remove_one {A} (l : list A) i x :
  l !! i = Some x -> splice l i 1 [] = ([x], delete i l).
Proof.
  intros Hx. pose proof (lookup_lt_Some _ _ _ Hx) as Hlt. unfold splice.
  replace (Nat.min i (length l)) with i by lia.
  replace (Nat.min 1 (length l - i)) with 1 by lia.
  rewrite (drop_S l x i Hx), delete_take_drop, Nat.add_1_r. done.
Qed.

(** [items.splice(j, 0, x)] inserts [x] before position [j], or at the end
    when [j] is past it. *)
Lemma splice_insert {A} (l : list A) j x :
  splice l j 0 [x] = ([], take j l ++ x :: drop j l).
Proof.
  unfold splice. rewrite Nat.min_0_l, Nat.add_0_r. simpl. f_equal.
  destruct (decide (j <= length l)).
  - by replace (Nat.min j (length l)) with j by lia.
  - replace (Nat.min j (length l)) with (length l) by lia.
    by rewrite take_ge, drop_ge, (take_ge l j), (drop_ge l j) by lia.
Qed.

(** Past the end, [splice(i, 1)] removes nothing. *)
Lemma splice_remove_none {A} (l : list A) i :
  length l <= i -> splice l i 1 [] = ([], l).
Proof.
  intros Hi. unfold splice.
  replace (Nat.min i (length l)) with (length l) by lia.
  replace (Nat.min 1 (length l - length l)) with 0 by lia.
  rewrite Nat.add_0_r, (take_ge l (length l)), (drop_ge l (length l)) by lia.
  simpl. by rewrite app_nil_r.
Qed.

End JsString.
