(* ===== verification/Url.v ===== *)
(** * The query string of a URL, as [URLSearchParams] reads and writes it

    The builder keeps its selection in the URL: it writes it with
    [setSearchParams({country, template})] and reads it with
    [searchParams.get] ([src/src/pages/ResumeBuilder.tsx], lines 40-59),
    and the Templates page links to [/builder?template=..&country=..].
    This file gives the WHATWG URL standard's
    [application/x-www-form-urlencoded] serializer and parser on 8-bit
    strings (the serializer percent-encodes every byte but the ASCII
    alphanumerics and [*-._], and writes a space as [+]; the parser splits
    on [&], cuts each piece at its first [=], turns [+] into a space and
    percent-decodes), [get], and the split of a link into its path and
    its query.  These are browser semantics, not repository code; the
    theorem that matters is the round trip: what the serializer writes the
    parser reads back, for every list of pairs. *)

From S2P Require Import Prelude JsString.
From Stdlib Require Import Ascii.

Module Url.
Import JsString.

Definition amp : ascii := "&"%char.
Definition eqs : ascii := "="%char.
Definition plus : ascii := "+"%char.
Definition pct : ascii := "%"%char.
Definition space : ascii := " "%char.

(** The bytes the serializer leaves alone. *)
Definition url_safe (c : ascii) : bool :=
  let n := nat_of_ascii c in
  ((48 <=? n) && (n <=? 57)) || ((65 <=? n) && (n <=? 90)) || ((97 <=? n) && (n <=? 122)) ||
  bool_decide (c = "*"%char) || bool_decide (c = "-"%char) || bool_decide (c = "."%char) ||
  bool_decide (c = "_"%char).

Definition hex_digit (n : nat) : ascii :=
  if n <? 10 then ascii_of_nat (48 + n) else ascii_of_nat (55 + n).

Definition hex_val (c : ascii) : option nat :=
  let n := nat_of_ascii c in
  if (48 <=? n) && (n <=? 57) then Some (n - 48)
  else if (65 <=? n) && (n <=? 70) then Some (n - 55)
  else if (97 <=? n) && (n <=? 102) then Some (n - 87)
  else None.

(** One byte, percent-encoded with space as plus. *)
Definition enc_byte (c : ascii) : string :=
  if url_safe c then String c EmptyString
  else if bool_decide (c = space) then String plus EmptyString
  else String pct (String (hex_digit (nat_of_ascii c / 16)) (String (hex_digit (nat_of_ascii c mod 16)) EmptyString)).

Fixpoint encode (s : string) : string :=
  match s with
  | EmptyString => EmptyString
  | String c s' => enc_byte c +:+ encode s'
  end.

Fixpoint join (sep : ascii) (l : list string) : string :=
  match l with
  | [] => EmptyString
  | [x] => x
  | x :: l' => x +:+ String sep (join sep l')
  end.

(** The serializer: [name=value] pairs joined by [&]. *)
Definition serialize (l : list (string * string)) : string :=
  join amp (List.map (fun p => encode p.1 +:+ String eqs (encode p.2)) l).

Fixpoint replace_plus (s : string) : string :=
  match s with
  | EmptyString => EmptyString
  | String c s' => String (if bool_decide (c = plus) then space else c) (replace_plus s')
  end.

(** Percent-decoding: [%] followed by two hex digits is the byte they
    write; any other byte, [%] included, is kept. *)
Fixpoint percent_decode (s : string) : string :=
  match s with
  | EmptyString => EmptyString
  | String c s' =>
      if bool_decide (c = pct) then
        match s' with
        | String h (String l r) =>
            match hex_val h, hex_val l with
            | Some a, Some b => String (ascii_of_nat (16 * a + b)) (percent_decode r)
            | _, _ => String c (percent_decode s')
            end
        | _ => String c (percent_decode s')
        end
      else String c (percent_decode s')
  end.

Definition decode (s : string) : string := percent_decode (replace_plus s).

(** The bytes between the separators [c]. *)
Fixpoint split_on (c : ascii) (s : string) : list string :=
  match s with
  | EmptyString => [EmptyString]
  | String d s' =>
      if bool_decide (d = c) then EmptyString :: split_on c s'
      else match split_on c s' with
           | [] => [String d EmptyString]
           | x :: xs => String d x :: xs
           end
  end.

(** The part before the first [c], and the part after it if there is one. *)
Fixpoint split_first (c : ascii) (s : string) : string * option string :=
  match s with
  | EmptyString => (EmptyString, None)
  | String d s' =>
      if bool_decide (d = c) then (EmptyString, Some s')
      else let '(a, b) := split_first c s' in (String d a, b)
  end.

(** The parser: the non-empty pieces between [&], each cut at its
    first [=] (a piece without one is a name with the empty value). *)
Definition parse (q : string) : list (string * string) :=
  List.map (fun piece => let '(n, v) := split_first eqs piece in (decode n, decode (default EmptyString v)))
    (List.filter (fun piece => negb (bool_decide (piece = EmptyString))) (split_on amp q)).

(** [new URLSearchParams(search)] drops a leading [?]. *)
Definition of_search (search : string) : list (string * string) :=
  match search with
  | String "?"%char q => parse q
  | q => parse q
  end.

(** [searchParams.get(name)]: the value of the first pair with that name,
    or [null]. *)
Definition get (name : string) (l : list (string * string)) : option string :=
  snd <$> List.find (fun p => bool_decide (p.1 = name)) l.

(** A link's path and its search string (from the first [?] up to the
    fragment). *)
Definition split_link (url : string) : string * string :=
  let '(path, q) := split_first "?"%char url in
  (path, match q with Some q => String "?"%char (split_first "#"%char q).1 | None => EmptyString end).

(** ** Lemmas *)

Definition no_char (c : ascii) (s : string) : bool := all_chars (fun d => negb (bool_decide (d = c))) s.

Lemma replace_plus_app s1 s2 : replace_plus (s1 +:+ s2) = replace_plus s1 +:+ replace_plus s2.
Proof. induction s1 as [|c s1 IH]; simpl; [done|]. by rewrite IH. Qed.

(** Decoding undoes the encoding of one byte, whatever follows it. *)
Lemma decode_enc_byte (c : ascii) (rest : string) :
  decode (enc_byte c +:+ rest) = String c (decode rest).
Proof. unfold decode. destruct c as [[] [] [] [] [] [] [] []]; reflexivity. Qed.

Lemma decode_encode_app (s rest : string) : decode (encode s +:+ rest) = s +:+ decode rest.
Proof.
  induction s as [|c s IH]; [done|].
  cbn [encode]. rewrite <-sapp_assoc, decode_enc_byte, IH. done.
Qed.

Lemma decode_encode (s : string) : decode (encode s) = s.
Proof. rewrite <-(sapp_nil_r (encode s)), decode_encode_app. apply sapp_nil_r. Qed.

(** An encoded string holds neither [&] nor [=] nor [#]. *)
Lemma enc_byte_no_char (c : ascii) :
  no_char amp (enc_byte c) = true /\ no_char eqs (enc_byte c) = true /\
  no_char "#"%char (enc_byte c) = true.
Proof. destruct c as [[] [] [] [] [] [] [] []]; repeat split; reflexivity. Qed.

Lemma encode_no_char (s : string) :
  no_char amp (encode s) = true /\ no_char eqs (encode s) = true /\ no_char "#"%char (encode s) = true.
Proof.
  induction s as [|c s (IH1 & IH2 & IH3)]; [done|]. cbn [encode].
  destruct (enc_byte_no_char c) as (H1 & H2 & H3). unfold no_char in *.
  by rewrite !all_chars_app, IH1, IH2, IH3, H1, H2, H3.
Qed.

Lemma split_on_no_char (c : ascii) (x y : string) :
  no_char c x = true -> split_on c (x +:+ String c y) = x :: split_on c y.
Proof.
  induction x as [|d x IH]; simpl; intros Hx; [by rewrite bool_decide_true|].
  apply andb_prop in Hx as [Hd Hx]. rewrite IH by done.
  apply negb_true_iff in Hd. by rewrite Hd.
Qed.

Lemma split_on_none (c : ascii) (x : string) : no_char c x = true -> split_on c x = [x].
Proof.
  induction x as [|d x IH]; simpl; intros Hx; [done|].
  apply andb_prop in Hx as [Hd Hx]. rewrite IH by done.
  apply negb_true_iff in Hd. by rewrite Hd.
Qed.

Lemma split_first_no_char (c : ascii) (x y : string) :
  no_char c x = true -> split_first c (x +:+ String c y) = (x, Some y).
Proof.
  induction x as [|d x IH]; simpl; intros Hx; [by rewrite bool_decide_true|].
  apply andb_prop in Hx as [Hd Hx]. rewrite IH by done.
  apply negb_true_iff in Hd. by rewrite Hd.
Qed.

Lemma split_first_none (c : ascii) (x : string) : no_char c x = true -> split_first c x = (x, None).
Proof.
  induction x as [|d x IH]; simpl; intros Hx; [done|].
  apply andb_prop in Hx as [Hd Hx]. rewrite IH by done.
  apply negb_true_iff in Hd. by rewrite Hd.
Qed.

Lemma split_join (c : ascii) (xs : list string) :
  xs <> [] -> Forall (fun x => no_char c x = true) xs -> split_on c (join c xs) = xs.
Proof.
  induction xs as [|x xs IH]; [done|]. intros _ Hall. apply Forall_cons in Hall as [Hx Hxs].
  destruct xs as [|x' xs]; simpl; [by apply split_on_none|].
  rewrite split_on_no_char by done. f_equal. by apply IH.
Qed.

(** The round trip: the parser reads back every list of pairs the
    serializer writes, whatever bytes the names and values hold. *)
Theorem parse_serialize (l : list (string * string)) : parse (serialize l) = l.
Proof.
  unfold parse, serialize. destruct l as [|p l]; [done|].
  rewrite split_join.
  - rewrite filter_all_true.
    + rewrite map_map. transitivity (List.map id (p :: l)); [|apply List.map_id]. apply map_ext.
      intros [n v]. cbn. destruct (encode_no_char n) as (_ & Hn & _).
      rewrite split_first_no_char by done. cbn. f_equal; apply decode_encode.
    + intros x Hx. apply in_map_iff in Hx as ([n v] & <- & _). cbn.
      apply negb_true_iff, bool_decide_eq_false. destruct (encode n); discriminate.
  - done.
  - apply Forall_map, Forall_forall. intros [n v] _. cbn. unfold no_char.
    rewrite all_chars_app. cbn. destruct (encode_no_char n) as (Hn & _), (encode_no_char v) as (Hv & _).
    unfold no_char in Hn, Hv. by rewrite Hn, Hv.
Qed.

End Url.
