(* ===== verification/Country.v ===== *)
(** * The country enumeration shared by the components

    [CountryType] is declared in [pages/ResumeBuilder.tsx],
    [TemplateSelection.tsx], [SectionReorder.tsx], [ResumePreview.tsx],
    [CountryIcon.tsx] and the section editors, always as the same six
    string literals.  This file gives the enum, its string codes, the
    decidable equality the other components case on, and the check the
    orchestrator applies to the [country] URL parameter.
    [Module CountryIcon] gives the class of the flag icon of
    [src/src/components/CountryIcon.tsx]. *)

From S2P Require Import Prelude.

Module Country.

Inductive CountryType := canada | germany | australia | portugal | usa | eu.

#[export] Instance CountryType_eq_dec : EqDecision CountryType.
Proof. solve_decision. Defined.

Definition all_countries : list CountryType := [canada; germany; australia; portugal; usa; eu].

(** The string literal of each constructor. *)
Definition code (c : CountryType) : string :=
  match c with
  | canada => "canada" | germany => "germany" | australia => "australia"
  | portugal => "portugal" | usa => "usa" | eu => "eu"
  end.

(** [["canada", "germany", "australia", "portugal", "usa", "eu"].includes(p)]
    followed by the cast [p as CountryType]: the parameter is accepted only
    when it is one of the six codes, compared exactly (case-sensitive). *)
Definition parse (p : string) : option CountryType :=
  List.find (fun c => bool_decide (code c = p)) all_countries.

Lemma all_countries_complete c : c ∈ all_countries.
Proof. destruct c; set_solver. Qed.

Lemma code_inj c1 c2 : code c1 = code c2 -> c1 = c2.
Proof. destruct c1, c2; simpl; congruence. Qed.

(** Parsing a code gives its country back. *)
Lemma parse_code c : parse (code c) = Some c.
Proof. by destruct c. Qed.

(** A parsed parameter is exactly the code of the country it names. *)
Lemma parse_sound p c : parse p = Some c -> code c = p.
Proof.
  unfold parse. intros H. apply List.find_some in H as [_ H].
  by apply bool_decide_eq_true in H.
Qed.

End Country.

Module CountryIcon.
Import Country.

Inductive Size := sm | md | lg.

(** [sizeClasses], lines 15-19. *)
Definition sizeClasses (s : Size) : string :=
  match s with sm => "h-4 w-4" | md => "h-5 w-5" | lg => "h-6 w-6" end.

(** [getCountryColor], lines 21-31; the [default] branch is unreachable
    on a [CountryCode]. *)
Definition getCountryColor (c : CountryType) : string :=
  match c with
  | canada => "text-canada" | germany => "text-germany" | australia => "text-australia"
  | portugal => "text-portugal" | usa => "text-usa" | eu => "text-blue-500"
  end.

(** [cn] as [clsx] combines it: the non-empty class strings, joined by a
    space.  [tailwind-merge]'s conflict resolution has nothing to resolve
    here: a size class and a colour class never conflict, and no caller
    passes a [className]. *)
Definition cn (l : list string) : string :=
  String.concat " " (List.filter (fun s => negb (String.eqb s "")) l).

(** The class of the [FlagIcon], line 34, with the defaults of line 14. *)
Definition CountryIcon (country : CountryType) (size : option Size) (className : option string) : string :=
  cn [sizeClasses (default md size); getCountryColor country; default "" className].

(** Every country gets its own colour, and the five of the builder
    theirs by name. *)
Lemma country_colors (c : CountryType) :
  NoDup (List.map getCountryColor all_countries) /\
  (c <> eu -> getCountryColor c = "text-" +:+ code c).
Proof.
  split; [apply (bool_decide_unpack _); vm_compute; reflexivity|].
  destruct c; done.
Qed.

End CountryIcon.

#[export] Hint Resolve Country.parse_code Country.code_inj : resume.
