(* ===== verification/Button.v ===== *)
(** * The button of the UI kit

    [src/src/components/ui/button.tsx] builds the class of every button
    of the site with [class-variance-authority]: a base class, a class per
    [variant] and per [size] from two tables, the defaults [default] and
    [default], and the caller's [className]; [cn] then passes the result
    through [tailwind-merge].  The tables and the defaults are the code;
    [cva]'s lookup is modelled as the library defines it (an absent or
    empty prop takes the default, a key the table lacks contributes no
    class, the pieces are joined by spaces), and [tailwind-merge], which
    resolves conflicts between Tailwind class groups, is the parameter
    [twMerge] of the section. *)

From S2P Require Import Prelude.

Module Button.

(** Line 8. *)
Definition base : string :=
  "inline-flex items-center justify-center gap-2 whitespace-nowrap rounded-md text-sm font-medium ring-offset-background transition-all duration-300 focus-visible:outline-none focus-visible:ring-2 focus-visible:ring-ring focus-visible:ring-offset-2 disabled:pointer-events-none disabled:opacity-50 [&_svg]:pointer-events-none [&_svg]:size-4 [&_svg]:shrink-0".

(** Lines 11-36. *)
Definition variants : gmap string string := list_to_map [
  ("default", "bg-primary text-primary-foreground hover:bg-primary-dark shadow-md hover:shadow-lg transform hover:scale-[1.02] active:scale-[0.98]");
  ("destructive", "bg-destructive text-destructive-foreground hover:bg-destructive/90 shadow-md hover:shadow-lg");
  ("outline", "border border-input bg-background hover:bg-accent hover:text-accent-foreground shadow-sm hover:shadow-md");
  ("secondary", "bg-secondary text-secondary-foreground hover:bg-secondary/80 shadow-sm hover:shadow-md");
  ("ghost", "hover:bg-accent hover:text-accent-foreground transition-colors duration-200");
  ("link", "text-primary underline-offset-4 hover:underline transition-colors duration-200");
  ("gradient", "bg-gradient-primary text-white hover:opacity-90 shadow-lg hover:shadow-xl transform hover:scale-[1.02] active:scale-[0.98] font-semibold");
  ("premium", "bg-gradient-hero text-white shadow-glow hover:shadow-xl transform hover:scale-[1.02] active:scale-[0.98] font-semibold animate-glow");
  ("glass", "bg-white/10 backdrop-blur-sm border border-white/20 text-white hover:bg-white/20 shadow-lg");
  ("canada", "bg-canada text-white hover:bg-canada/90 shadow-md hover:shadow-lg transform hover:scale-[1.02]");
  ("germany", "bg-germany text-black hover:bg-germany/90 shadow-md hover:shadow-lg transform hover:scale-[1.02]");
  ("australia", "bg-australia text-white hover:bg-australia/90 shadow-md hover:shadow-lg transform hover:scale-[1.02]");
  ("portugal", "bg-portugal text-white hover:bg-portugal/90 shadow-md hover:shadow-lg transform hover:scale-[1.02]");
  ("usa", "bg-usa text-white hover:bg-usa/90 shadow-md hover:shadow-lg transform hover:scale-[1.02]");
  ("professional", "bg-card border border-border shadow-md hover:shadow-lg transition-all duration-300 hover:border-primary/30");
  ("action", "bg-accent text-accent-foreground hover:bg-accent/80 shadow-md hover:shadow-lg");
  ("success", "bg-success text-success-foreground hover:bg-success/90 shadow-md hover:shadow-lg");
  ("warning", "bg-warning text-warning-foreground hover:bg-warning/90 shadow-md hover:shadow-lg")].

(** Lines 37-47. *)
Definition sizes : gmap string string := list_to_map [
  ("default", "h-10 px-4 py-2");
  ("sm", "h-9 rounded-md px-3 text-sm");
  ("lg", "h-11 rounded-lg px-8 text-base");
  ("xl", "h-14 rounded-lg px-10 text-lg font-semibold");
  ("icon", "h-10 w-10");
  ("icon-sm", "h-8 w-8 [&_svg]:size-3.5");
  ("icon-lg", "h-12 w-12 [&_svg]:size-5");
  ("pill", "h-9 px-6 rounded-full");
  ("pill-lg", "h-11 px-8 rounded-full text-base")].

(** Lines 49-52. *)
Definition defaultVariant : string := "default".
Definition defaultSize : string := "default".

(** [cva]'s class for one variant key: a prop that is [undefined] or
    empty takes the default, and the table's entry for the key, if any. *)
Definition pick (table : gmap string string) (dflt : string) (prop : option string) : option string :=
  table !! (match prop with Some v => if bool_decide (v = "") then dflt else v | None => dflt end).

(** [clsx]: the present, non-empty pieces joined by spaces. *)
Definition cx (l : list (option string)) : string :=
  String.concat " " (List.filter (fun s => negb (bool_decide (s = ""))) (omap id l)).

(** [buttonVariants({ variant, size, className })], lines 7-54. *)
Definition buttonVariants (variant size className : option string) : string :=
  cx [Some base; pick variants defaultVariant variant; pick sizes defaultSize size; className].

Section Render.
Variable twMerge : string -> string.

(** The element [Button] renders, lines 62-73: a [Slot] passing the class
    to its child when [asChild], a [button] otherwise, with
    [cn(buttonVariants(...))] as its class. *)
Definition Button (asChild : bool) (variant size className : option string) : string * string :=
  (if asChild then "Slot" else "button", twMerge (buttonVariants variant size className)).

End Render.

(** ** Lemmas *)

(** Without a variant or a size, a button is a [default] one of the
    [default] size; an empty prop counts as absent. *)
Lemma buttonVariants_defaults (c : option string) :
  buttonVariants None None c = buttonVariants (Some "default") (Some "default") c /\
  buttonVariants (Some "") (Some "") c = buttonVariants None None c.
Proof. done. Qed.

(** Every size has a height class and every variant a class of its own:
    no two variants share a class string. *)
Lemma tables_wf :
  map_Forall (fun _ cls => String.prefix "h-" cls = true) sizes /\
  NoDup (map_to_list variants).*2.
Proof. split; [apply (bool_decide_unpack _)|apply (bool_decide_unpack _)]; vm_compute; reflexivity. Qed.

End Button.
