(* ===== verification/PdfExport.v ===== *)
(** * The export pipeline of [src/src/utils/pdfExport.ts]

    [getRecommendedPageSize], [generateATSFilename] and the whole
    [exportResumeToPDF]: option defaults, the DOM lookup with its thrown
    error, the deep clone, the dated file name and the call to html2pdf
    with its [try]/[catch].  The DOM is an explicit store: an id table
    (what [document.getElementById] reads) and a heap of element values
    addressed by locations, so that the difference between handing the
    rasteriser the element and handing it the clone is a difference of
    locations.  html2pdf is the [Html2Pdf] type class: it receives the
    element value at a location, may return it modified (html2pdf and
    html2canvas adjust styles and layout of the node they render), and
    resolves or rejects. *)

From S2P Require Import Prelude JsString Country.
From Stdlib Require Import Ascii.

Module PdfExport.
Import JsString.

(** ** Data *)

Inductive PageSize := a4 | letter.

#[export] Instance PageSize_eq_dec : EqDecision PageSize.
Proof. solve_decision. Defined.

(** [margin?: number | [number, number, number, number]], in mm. *)
Inductive Margin :=
  | MarginAll (m : Z)
  | MarginSides (top right bottom left : Z).

(** [interface ExportOptions]: every field optional. *)
Record ExportOptions := {
  opt_filename : option string;
  opt_pageSize : option PageSize;
  opt_margin : option Margin;
  opt_includeDate : option bool
}.

(** The options object passed to html2pdf (lines 40-57).  The constant
    parts are kept as the source writes them; the JPEG quality 0.98 is
    written in hundredths. *)
Record PdfOptions := {
  po_margin : Margin;
  po_filename : string;
  po_image_type : string;
  po_image_quality_pct : nat;
  po_scale : nat;
  po_useCORS : bool;
  po_logging : bool;
  po_letterRendering : bool;
  po_unit : string;
  po_format : PageSize;
  po_orientation : string;
  po_compress : bool;
  po_pagebreak_mode : list string
}.

(** A value thrown by html2pdf: an [Error] object with its message, or
    anything else. *)
Inductive Thrown :=
  | ThrownError (message : string)
  | ThrownOther.

(** The object [exportResumeToPDF] returns. *)
Inductive ExportResult :=
  | ExportSuccess (filename : string)
  | ExportFailure (error : string).

(** An async function either resolves with its return value or rejects
    with what it throws. *)
Inductive Outcome :=
  | Resolved (r : ExportResult)
  | Rejected (e : Thrown).

(** The rasteriser interface: [html2pdf().from(el).set(opts).save()] run
    on the element value at hand; it returns the element as it left it and
    [None] on success or [Some] thrown value. *)
Class Html2Pdf (Node : Type) := {
  h2p_save : Node -> PdfOptions -> Node * option Thrown
}.

(** The DOM: ids of attached elements, and the heap of element values. *)
Record Dom (Node : Type) := {
  dom_ids : gmap string positive;
  dom_heap : gmap positive Node;
  dom_next : positive
}.
Arguments dom_ids {_}. Arguments dom_heap {_}. Arguments dom_next {_}.

(** A well-formed store: the fresh-location counter is above every used
    location. *)
Definition dom_wf {Node} (d : Dom Node) : Prop :=
  map_Forall (fun l _ => (l < dom_next d)%positive) (dom_heap d).

(** ** Helpers *)

(** [const letterCountries = ['usa', 'canada'];
     return letterCountries.includes(country.toLowerCase()) ? 'letter' : 'a4';] *)
Definition letterCountries : list string := ["usa"; "canada"].

Definition getRecommendedPageSize (country : string) : PageSize :=
  if bool_decide (toLowerCase country ∈ letterCountries) then letter else a4.

(** [generateATSFilename(firstName, lastName, position = 'Resume')]: the
    default applies when [position] is [undefined]. *)
Definition generateATSFilename (firstName lastName : string) (position : option string) : string :=
  let position := default "Resume" position in
  let cleanName := replace_non_alnum "" (lastName +:+ "_" +:+ firstName) in
  let cleanPosition := replace_non_alnum "_" position in
  cleanName +:+ "_" +:+ cleanPosition +:+ ".pdf".

(** [s.split('T')[0]]: the text before the first [T]. *)
Fixpoint before_T (s : string) : string :=
  match s with
  | EmptyString => EmptyString
  | String c s' => if bool_decide (c = "T"%char) then EmptyString else String c (before_T s')
  end.

(** Lines 31-37; [iso] is [new Date().toISOString()]. *)
Definition dateStr (includeDate : bool) (iso : string) : string :=
  if includeDate then "_" +:+ before_T iso else "".

Definition fullFilename (filename : string) (includeDate : bool) (iso : string) : string :=
  let d := dateStr includeDate iso in
  if includes filename ".pdf" then replace_first filename ".pdf" (d +:+ ".pdf")
  else filename +:+ d +:+ ".pdf".

Definition pdfOptions (margin : Margin) (filename : string) (pageSize : PageSize) : PdfOptions := {|
  po_margin := margin;
  po_filename := filename;
  po_image_type := "jpeg";
  po_image_quality_pct := 98;
  po_scale := 2;
  po_useCORS := true;
  po_logging := false;
  po_letterRendering := true;
  po_unit := "mm";
  po_format := pageSize;
  po_orientation := "portrait";
  po_compress := true;
  po_pagebreak_mode := ["avoid-all"; "css"; "legacy"]
|}.

(** The double-quote character, for the message of line 24. *)
Definition dquote : string := String (ascii_of_nat 34) EmptyString.

Definition not_found_message (elementId : string) : string :=
  "Element with ID " +:+ dquote +:+ elementId +:+ dquote +:+ " not found".

(** [error instanceof Error ? error.message : 'Unknown error'] *)
Definition error_message (e : Thrown) : string :=
  match e with
  | ThrownError m => m
  | ThrownOther => "Unknown error"
  end.

Section Export.
Context {Node : Type} `{Html2Pdf Node}.

(** [document.getElementById]: the location of an attached element. *)
Definition getElementById (d : Dom Node) (id : string) : option positive :=
  l ← dom_ids d !! id;
  _ ← dom_heap d !! l;
  Some l.

(** [element.cloneNode(true)]: a copy of the element value at a fresh,
    detached location. *)
Definition cloneNode (d : Dom Node) (l : positive) : option (Dom Node * positive) :=
  v ← dom_heap d !! l;
  let l' := dom_next d in
  Some ({| dom_ids := dom_ids d; dom_heap := <[l' := v]> (dom_heap d);
           dom_next := Pos.succ l' |}, l').

(** Running html2pdf on the element at location [l]: the element it
    leaves is written back at [l] (it works on the object, not a copy). *)
Definition run_h2p (d : Dom Node) (l : positive) (o : PdfOptions)
    : Dom Node * option Thrown :=
  match dom_heap d !! l with
  | Some v =>
      let '(v', r) := h2p_save v o in
      ({| dom_ids := dom_ids d; dom_heap := <[l := v']> (dom_heap d);
          dom_next := dom_next d |}, r)
  | None => (d, Some ThrownOther)
  end.

(** [exportResumeToPDF(elementId, options)], lines 10-73: the new DOM
    and how the promise settles. *)
Definition exportResumeToPDF (d : Dom Node) (iso : string) (elementId : string)
    (options : ExportOptions) : Dom Node * Outcome :=
  let filename := default "resume.pdf" (opt_filename options) in
  let pageSize := default a4 (opt_pageSize options) in
  let margin := default (MarginAll 10) (opt_margin options) in
  let includeDate := default true (opt_includeDate options) in
  match getElementById d elementId with
  | None => (d, Rejected (ThrownError (not_found_message elementId)))
  | Some el =>
      match cloneNode d el with
      | None => (d, Rejected ThrownOther)
      | Some (d1, clone) =>
          let name := fullFilename filename includeDate iso in
          let '(d2, r) := run_h2p d1 clone (pdfOptions margin name pageSize) in
          match r with
          | None => (d2, Resolved (ExportSuccess name))
          | Some e => (d2, Resolved (ExportFailure (error_message e)))
          end
      end
  end.
End Export.


(** ** Abbreviations for the statements *)

(** The class of characters a generated file-name stem is made of. *)
Definition is_name_char (c : ascii) : bool := is_alnum c || bool_decide (c = "_"%char).

(** The file name and the html2pdf options [exportResumeToPDF] computes
    from its options (lines 14-19, 35-57). *)
Definition export_name (o : ExportOptions) (iso : string) : string :=
  fullFilename (default "resume.pdf" (opt_filename o)) (default true (opt_includeDate o)) iso.

Definition export_pdf_options (o : ExportOptions) (iso : string) : PdfOptions :=
  pdfOptions (default (MarginAll 10) (opt_margin o)) (export_name o iso) (default a4 (opt_pageSize o)).

(** ** A concrete rasteriser and document, used by the witnesses

    Elements are their text; the rasteriser marks the element it renders
    and rejects an empty element with an [Error]. *)
#[local] Instance marking_h2p : Html2Pdf string := {|
  h2p_save v _ := if bool_decide (v = "") then (v, Some (ThrownError "empty element"))
                  else (v +:+ " [rendered]", None)
|}.

Definition sample_dom : Dom string := {|
  dom_ids := {["resume-preview-content" := 1%positive]};
  dom_heap := {[1%positive := "Jane Doe"]};
  dom_next := 2%positive
|}.

Definition sample_options : ExportOptions := {|
  opt_filename := Some "Doe_Jane_Engineer.pdf"; opt_pageSize := Some letter;
  opt_margin := Some (MarginAll 10); opt_includeDate := Some true
|}.

Definition sample_iso : string := "2026-11-09T10:00:00.000Z".

(** ** Page size *)

Lemma lower_char_idem c : lower_char (lower_char c) = lower_char c.
Proof. destruct c as [[] [] [] [] [] [] [] []]; vm_compute; reflexivity. Qed.

Lemma toLowerCase_idem s : toLowerCase (toLowerCase s) = toLowerCase s.
Proof. induction s as [|c s IH]; simpl; [done|]. by rewrite lower_char_idem, IH. Qed.

(** C4. For the six country codes the page size is [letter] exactly for
    [usa] and [canada], [a4] for the four others. *)
Theorem getRecommendedPageSize_country (c : Country.CountryType) :
  getRecommendedPageSize (Country.code c) =
    match c with Country.usa | Country.canada => letter | _ => a4 end.
Proof. destruct c; vm_compute; reflexivity. Qed.

(** The page size ignores case: it depends on [country.toLowerCase()]
    only, so ["USA"] and ["Canada"] also give [letter]. *)
Theorem getRecommendedPageSize_lower (s : string) :
  getRecommendedPageSize (toLowerCase s) = getRecommendedPageSize s.
Proof. unfold getRecommendedPageSize. by rewrite toLowerCase_idem. Qed.

(** ** File name *)

Lemma is_name_char_alnum c : is_alnum c = true -> is_name_char c = true.
Proof. intros Hc. unfold is_name_char. by rewrite Hc. Qed.

Lemma all_chars_name_clean r s :
  all_chars is_name_char r = true -> all_chars is_name_char (replace_non_alnum r s) = true.
Proof. apply replace_non_alnum_class, is_name_char_alnum. Qed.

Lemma name_char_not_dot c : is_name_char c = true -> c <> "."%char.
Proof. intros Hc ->. vm_compute in Hc. discriminate. Qed.

(** C5. The generated name is the last name and then the first name with
    every character outside [[a-zA-Z0-9]] removed, the underscore written
    between them included, then ["_"], the position with each such
    character turned into ["_"], and [".pdf"]. *)
Theorem generateATSFilename_shape (firstName lastName : string) (position : option string) :
  generateATSFilename firstName lastName position =
    replace_non_alnum "" lastName +:+ replace_non_alnum "" firstName +:+ "_" +:+
    replace_non_alnum "_" (default "Resume" position) +:+ ".pdf".
Proof.
  unfold generateATSFilename. rewrite !replace_non_alnum_app.
  change (replace_non_alnum "" "_") with "". rewrite sapp_nil_l.
  by rewrite !sapp_assoc.
Qed.

(** Every generated name is a stem of alphanumerics and underscores
    followed by [".pdf"]. *)
Theorem generateATSFilename_charset (firstName lastName : string) (position : option string) :
  exists stem, generateATSFilename firstName lastName position = stem +:+ ".pdf" /\
               all_chars is_name_char stem = true.
Proof.
  rewrite generateATSFilename_shape.
  eexists. split; [by rewrite !sapp_assoc|].
  rewrite !all_chars_app, !all_chars_name_clean; done.
Qed.

(** C16. Bounds on the generated name: it is at least the position, the
    separator and [.pdf] long, and at most the two names, the position
    and those five characters long (the name part only loses characters,
    the position part keeps its length). *)
Theorem generateATSFilename_length (firstName lastName : string) (position : option string) :
  String.length (default "Resume" position) + 5 <= String.length (generateATSFilename firstName lastName position) <=
    String.length lastName + String.length firstName + String.length (default "Resume" position) + 5.
Proof.
  unfold generateATSFilename. rewrite !replace_non_alnum_app. autorewrite with resume.
  rewrite replace_non_alnum_length. simpl.
  pose proof (replace_non_alnum_nil_length lastName). pose proof (replace_non_alnum_nil_length firstName).
  lia.
Qed.

(** The spec's example: for O'Brien, Ann-Marie, Senior Dev the code
    produces [OBrienAnnMarie_Senior_Dev.pdf]; the spec's
    [OBrien_AnnMarie_Senior_Dev.pdf] is not what the code returns. *)
Theorem generateATSFilename_spec_example :
  generateATSFilename "Ann-Marie" "O'Brien" (Some "Senior Dev") = "OBrienAnnMarie_Senior_Dev.pdf" /\
  generateATSFilename "Ann-Marie" "O'Brien" (Some "Senior Dev") <> "OBrien_AnnMarie_Senior_Dev.pdf".
Proof. split; vm_compute; [reflexivity|discriminate]. Qed.

(** The file the builder exports: the generated stem, then ["_"] and
    the date part of the ISO time stamp inserted before [".pdf"]. *)
Theorem fullFilename_generated (firstName lastName : string) (position : option string) (iso : string) :
  fullFilename (generateATSFilename firstName lastName position) true iso =
    replace_non_alnum "" lastName +:+ replace_non_alnum "" firstName +:+ "_" +:+
    replace_non_alnum "_" (default "Resume" position) +:+ "_" +:+ before_T iso +:+ ".pdf".
Proof.
  rewrite generateATSFilename_shape.
  set (stem := replace_non_alnum "" lastName +:+ replace_non_alnum "" firstName +:+ "_" +:+
               replace_non_alnum "_" (default "Resume" position)).
  assert (Hs : all_chars is_name_char stem = true).
  { unfold stem. by rewrite !all_chars_app, !all_chars_name_clean. }
  transitivity (fullFilename (stem +:+ ".pdf") true iso).
  { unfold stem. by rewrite <- !sapp_assoc. }
  unfold fullFilename. rewrite includes_suffix, replace_first_suffix.
  - unfold stem, dateStr. by rewrite <- !sapp_assoc.
  - eapply all_chars_impl; [|exact Hs]. intros c Hc.
    apply negb_true_iff, bool_decide_eq_false. by apply name_char_not_dot.
Qed.

Section ExportTheorems.
Context {Node : Type} `{Html2Pdf Node}.

Lemma getElementById_Some (d : Dom Node) id l :
  getElementById d id = Some l <-> dom_ids d !! id = Some l /\ is_Some (dom_heap d !! l).
Proof.
  unfold getElementById. split.
  - destruct (dom_ids d !! id) as [l'|]; simpl; [|done].
    destruct (dom_heap d !! l') eqn:E; simpl; [|done]. intros [= ->]. eauto.
  - intros [-> [v Hv]]. simpl. by rewrite Hv.
Qed.

Lemma cloneNode_spec (d : Dom Node) l d1 c :
  cloneNode d l = Some (d1, c) ->
  c = dom_next d /\ dom_ids d1 = dom_ids d /\ dom_next d1 = Pos.succ (dom_next d) /\
  dom_heap d1 !! c = dom_heap d !! l /\
  forall l', l' <> c -> dom_heap d1 !! l' = dom_heap d !! l'.
Proof.
  unfold cloneNode. destruct (dom_heap d !! l) as [v|] eqn:E; simpl; [|done].
  intros [= <- <-]. simpl. rewrite lookup_insert_eq. split_and!; try done.
  intros l' Hl'. by rewrite lookup_insert_ne.
Qed.

Lemma run_h2p_spec (d : Dom Node) c o d2 r :
  run_h2p d c o = (d2, r) ->
  dom_ids d2 = dom_ids d /\ dom_next d2 = dom_next d /\
  (is_Some (dom_heap d2 !! c) <-> is_Some (dom_heap d !! c)) /\
  forall l', l' <> c -> dom_heap d2 !! l' = dom_heap d !! l'.
Proof.
  unfold run_h2p. destruct (dom_heap d !! c) as [v|] eqn:E.
  - destruct (h2p_save v o) as [v' r']. intros [= <- <-]. simpl.
    split_and!; [done|done| |].
    + rewrite lookup_insert_eq. split; intros _; by eexists.
    + intros l' Hl'. by rewrite lookup_insert_ne.
  - intros [= <- <-]. rewrite E. split_and!; done.
Qed.

(** C17. A missing element: the promise rejects with the [Error] of line
    24 and nothing else happens (the DOM is unchanged, html2pdf is not
    called). *)
Theorem export_missing_element (d : Dom Node) iso id o :
  getElementById d id = None ->
  exportResumeToPDF d iso id o = (d, Rejected (ThrownError (not_found_message id))).
Proof. intros Hn. unfold exportResumeToPDF. by rewrite Hn. Qed.

(** C18. An attached element: the promise resolves, never rejects; with
    [{success: true}] and the computed name when html2pdf succeeds on
    the copy of the element, with [{success: false}] and the message
    otherwise. *)
Theorem export_element_found (d : Dom Node) iso id o l v :
  getElementById d id = Some l -> dom_heap d !! l = Some v ->
  snd (exportResumeToPDF d iso id o) =
    Resolved (match snd (h2p_save v (export_pdf_options o iso)) with
              | None => ExportSuccess (export_name o iso)
              | Some e => ExportFailure (error_message e)
              end).
Proof.
  intros Hg Hv. unfold exportResumeToPDF. rewrite Hg.
  unfold cloneNode. rewrite Hv. simpl. unfold run_h2p. simpl.
  rewrite lookup_insert_eq. unfold export_pdf_options, export_name.
  destruct (h2p_save v _) as [v' [e|]]; done.
Qed.

(** C3. Whatever html2pdf does to the node it renders, every element of
    the document keeps its value and the id table is unchanged: the
    rasteriser only ever sees the detached clone. *)
Theorem export_preserves_document (d : Dom Node) iso id o :
  dom_wf d ->
  dom_ids (fst (exportResumeToPDF d iso id o)) = dom_ids d /\
  forall l v, dom_heap d !! l = Some v ->
              dom_heap (fst (exportResumeToPDF d iso id o)) !! l = Some v.
Proof.
  intros Hwf. unfold exportResumeToPDF.
  destruct (getElementById d id) as [el|]; [|done].
  destruct (cloneNode d el) as [[d1 c]|] eqn:Hc; [|done].
  apply cloneNode_spec in Hc as (-> & Hids1 & _ & _ & Hother1).
  destruct (run_h2p d1 _ _) as [d2 r] eqn:Hr.
  apply run_h2p_spec in Hr as (Hids2 & _ & _ & Hother2).
  assert (Hfresh : forall l v, dom_heap d !! l = Some v -> l <> dom_next d).
  { intros l v Hl ->. specialize (Hwf (dom_next d) v Hl). simpl in Hwf. lia. }
  split; [destruct r; simpl; congruence|].
  intros l v Hl. pose proof (Hfresh l v Hl).
  destruct r; simpl; rewrite Hother2, Hother1; done.
Qed.

(** Export keeps the store well formed. *)
Theorem export_wf (d : Dom Node) iso id o :
  dom_wf d -> dom_wf (fst (exportResumeToPDF d iso id o)).
Proof.
  intros Hwf. unfold exportResumeToPDF.
  destruct (getElementById d id) as [el|]; [|done].
  destruct (cloneNode d el) as [[d1 c]|] eqn:Hc; [|done].
  apply cloneNode_spec in Hc as (-> & _ & Hn1 & Hc1 & Hother1).
  destruct (run_h2p d1 _ _) as [d2 r] eqn:Hr.
  apply run_h2p_spec in Hr as (_ & Hn2 & Hc2 & Hother2).
  intros l v Hl. destruct r; simpl in *; rewrite Hn2, Hn1;
  (destruct (decide (l = dom_next d)) as [->|Hne]; [lia|]);
  rewrite Hother2, Hother1 in Hl by done; specialize (Hwf l v Hl); simpl in Hwf; lia.
Qed.
End ExportTheorems.

(** ** Witnesses *)

Lemma export_missing_element_witness :
  getElementById sample_dom "missing" = None /\
  exportResumeToPDF sample_dom sample_iso "missing" sample_options =
    (sample_dom, Rejected (ThrownError (not_found_message "missing"))).
Proof. split; [reflexivity|]. apply export_missing_element. reflexivity. Defined.

Lemma export_element_found_witness :
  getElementById sample_dom "resume-preview-content" = Some 1%positive /\
  dom_heap sample_dom !! 1%positive = Some "Jane Doe" /\
  snd (exportResumeToPDF sample_dom sample_iso "resume-preview-content" sample_options) =
    Resolved (ExportSuccess "Doe_Jane_Engineer_2026-11-09.pdf").
Proof.
  split; [reflexivity|split; [reflexivity|]].
  rewrite (export_element_found sample_dom sample_iso "resume-preview-content" sample_options
             1%positive "Jane Doe") by reflexivity.
  vm_compute. reflexivity.
Defined.

Lemma export_preserves_document_witness :
  dom_wf sample_dom /\
  dom_heap (fst (exportResumeToPDF sample_dom sample_iso "resume-preview-content" sample_options))
    !! 1%positive = Some "Jane Doe".
Proof.
  assert (Hwf : dom_wf sample_dom) by (apply (bool_decide_unpack _); vm_compute; exact I).
  split; [exact Hwf|].
  apply (proj2 (export_preserves_document sample_dom sample_iso "resume-preview-content"
                  sample_options Hwf)).
  reflexivity.
Defined.

Lemma export_wf_witness :
  dom_wf sample_dom /\
  dom_wf (fst (exportResumeToPDF sample_dom sample_iso "resume-preview-content" sample_options)).
Proof.
  assert (Hwf : dom_wf sample_dom) by (apply (bool_decide_unpack _); vm_compute; exact I).
  split; [exact Hwf|]. by apply export_wf.
Defined.

End PdfExport.
