(* ===== verification/Sections.v ===== *)
(** * The section registry of [src/src/components/builder/SectionReorder.tsx]

    The component state ([sections], [customSectionTitle],
    [isAddingCustom]), the [SectionType] union, the default list, and every
    handler: drag-and-drop reordering through two [Array.prototype.splice]
    calls, visibility toggling, removal, adding a custom section (guarded by
    [trim], with the id [custom-${Date.now()}]), and the country
    recommendation.  A handler returns the new state and the argument of
    the [onSectionsChange] call it makes, if it makes one: this is how the
    component talks to the orchestrator.  The events of the component form
    a step relation; [reachable] adds the clock, whose readings are inputs
    of [addCustomSection]. *)

From S2P Require Import Prelude JsString Country.
From stdpp Require Import pretty.

Module SectionReorder.
Import JsString.

(** ** Data *)

Inductive SectionType :=
  | profile | experience | education | skills | certifications
  | projects | languages | interests | custom.

#[export] Instance SectionType_eq_dec : EqDecision SectionType.
Proof. solve_decision. Defined.

(** The string literal of each member of the union. *)
Definition type_code (t : SectionType) : string :=
  match t with
  | profile => "profile" | experience => "experience" | education => "education"
  | skills => "skills" | certifications => "certifications" | projects => "projects"
  | languages => "languages" | interests => "interests" | custom => "custom"
  end.

(** [interface ResumeSection]; the optional fields are [option]s. *)
Record ResumeSection := {
  sec_id : string;
  sec_type : SectionType;
  sec_title : string;
  sec_isVisible : bool;
  sec_isCustom : option bool;
  sec_customTitle : option string
}.

Definition builtin (id : string) (t : SectionType) (title : string) (vis : bool) : ResumeSection :=
  {| sec_id := id; sec_type := t; sec_title := title; sec_isVisible := vis;
     sec_isCustom := None; sec_customTitle := None |}.

Definition defaultSections : list ResumeSection := [
  builtin "profile" profile "Profile" true;
  builtin "experience" experience "Work Experience" true;
  builtin "education" education "Education" true;
  builtin "skills" skills "Skills" true;
  builtin "certifications" certifications "Certifications & Licenses" false;
  builtin "projects" projects "Projects" false;
  builtin "languages" languages "Languages" false;
  builtin "interests" interests "Interests" false
].

Record State := {
  sections : list ResumeSection;
  customSectionTitle : string;
  isAddingCustom : bool
}.

Definition set_sections (l : list ResumeSection) (st : State) : State :=
  {| sections := l; customSectionTitle := customSectionTitle st;
     isAddingCustom := isAddingCustom st |}.

(** [useState([...defaultSections])], [useState("")], [useState(false)]. *)
Definition init : State :=
  {| sections := defaultSections; customSectionTitle := ""; isAddingCustom := false |}.

(** The argument of the [onSectionsChange] call a handler makes, if any. *)
Definition Notify := option (list ResumeSection).

(** The part of react-beautiful-dnd's [DropResult] the handler reads. *)
Record DropResult := {
  source_index : nat;
  destination_index : option nat
}.

(** ** Handlers *)

(** [handleDragEnd], lines 57-66.  When [splice] removes nothing (a source
    index past the end), [reorderedItem] is [undefined] and the code would
    insert [undefined] into the list; the model has no such element and
    returns [None] there.  react-beautiful-dnd only reports indices of
    rendered items, so this branch is not taken in practice. *)
Definition handleDragEnd (r : DropResult) (st : State) : option (State * Notify) :=
  match destination_index r with
  | None => Some (st, None)
  | Some dst =>
      let items := sections st in
      let '(removed, items1) := splice items (source_index r) 1 [] in
      match removed with
      | reorderedItem :: _ =>
          let '(_, items2) := splice items1 dst 0 [reorderedItem] in
          Some (set_sections items2 st, Some items2)
      | [] => None
      end
  end.

(** [toggleSectionVisibility(id)], lines 69-75. *)
Definition toggle (id : string) (s : ResumeSection) : ResumeSection :=
  if bool_decide (sec_id s = id)
  then {| sec_id := sec_id s; sec_type := sec_type s; sec_title := sec_title s;
          sec_isVisible := negb (sec_isVisible s); sec_isCustom := sec_isCustom s;
          sec_customTitle := sec_customTitle s |}
  else s.

Definition toggleSectionVisibility (id : string) (st : State) : State * Notify :=
  let updated := List.map (toggle id) (sections st) in
  (set_sections updated st, Some updated).

(** [removeSection(id)], lines 78-82. *)
Definition removeSection (id : string) (st : State) : State * Notify :=
  let updated := List.filter (fun s => negb (bool_decide (sec_id s = id))) (sections st) in
  (set_sections updated st, Some updated).

(** The id [custom-${Date.now()}]; [now] is the clock reading in ms. *)
Definition custom_id (now : N) : string := "custom-" +:+ pretty now.

(** [addCustomSection], lines 85-102. *)
Definition addCustomSection (now : N) (st : State) : State * Notify :=
  if bool_decide (trim (customSectionTitle st) = "") then (st, None)
  else
    let t := customSectionTitle st in
    let newSection := {| sec_id := custom_id now; sec_type := custom; sec_title := t;
                         sec_isVisible := true; sec_isCustom := Some true;
                         sec_customTitle := Some t |} in
    let updated := sections st ++ [newSection] in
    ({| sections := updated; customSectionTitle := ""; isAddingCustom := false |},
     Some updated).

(** [getCountryRecommendation], lines 105-116: the object literal and its
    [|| [...]] fallback. *)
Definition recommendations : list (string * list string) := [
  ("canada", ["profile"; "experience"; "education"; "skills"; "certifications"]);
  ("germany", ["profile"; "experience"; "education"; "languages"; "skills"]);
  ("australia", ["profile"; "experience"; "education"; "skills"; "projects"]);
  ("portugal", ["profile"; "experience"; "education"; "languages"; "skills"]);
  ("usa", ["profile"; "experience"; "education"; "skills"; "certifications"]);
  ("eu", ["profile"; "experience"; "education"; "languages"; "skills"])
].

Fixpoint lookup_key (k : string) (l : list (string * list string)) : option (list string) :=
  match l with
  | [] => None
  | (k', v) :: l' => if bool_decide (k' = k) then Some v else lookup_key k l'
  end.

Definition getCountryRecommendation (country : Country.CountryType) : list string :=
  default ["profile"; "experience"; "education"; "skills"]
          (lookup_key (Country.code country) recommendations).

(** [applyCountryRecommendations], lines 119-128. *)
Definition recommend (recommended : list string) (s : ResumeSection) : ResumeSection :=
  {| sec_id := sec_id s; sec_type := sec_type s; sec_title := sec_title s;
     sec_isVisible := bool_decide (type_code (sec_type s) ∈ recommended);
     sec_isCustom := sec_isCustom s; sec_customTitle := sec_customTitle s |}.

Definition applyCountryRecommendations (country : Country.CountryType) (st : State) : State * Notify :=
  let recommended := getCountryRecommendation country in
  let updated := List.map (recommend recommended) (sections st) in
  (set_sections updated st, Some updated).

(** ** Events and steps *)

(** Every way the user acts on the component: a drop, the eye and trash
    buttons, typing in the title box, the add/cancel buttons, and the
    country-format button. *)
Inductive Event :=
  | DragEnd (r : DropResult)
  | ToggleVisibility (id : string)
  | Remove (id : string)
  | TypeTitle (t : string)
  | OpenAdd
  | CancelAdd
  | AddCustom (now : N)
  | ApplyCountry.

(** One event on the component mounted with [country]. *)
Definition handle (country : Country.CountryType) (ev : Event) (st : State)
    : option (State * Notify) :=
  match ev with
  | DragEnd r => handleDragEnd r st
  | ToggleVisibility id => Some (toggleSectionVisibility id st)
  | Remove id => Some (removeSection id st)
  | TypeTitle t =>
      Some ({| sections := sections st; customSectionTitle := t;
               isAddingCustom := isAddingCustom st |}, None)
  | OpenAdd =>
      Some ({| sections := sections st; customSectionTitle := customSectionTitle st;
               isAddingCustom := true |}, None)
  | CancelAdd =>
      Some ({| sections := sections st; customSectionTitle := "";
               isAddingCustom := false |}, None)
  | AddCustom now => Some (addCustomSection now st)
  | ApplyCountry => Some (applyCountryRecommendations country st)
  end.

(** The clock an event reads, if it reads one. *)
Definition clock_of (ev : Event) : option N :=
  match ev with AddCustom now => Some now | _ => None end.

(** Which events the rendered component can produce (lines 130-258): a
    drop reports indices of rendered items; every section has an eye
    button; only sections with a truthy [isCustom] have a trash button
    (line 193); the title box and the Add and Cancel buttons exist only
    while [isAddingCustom] (line 222), the "Add Custom Section" button only
    otherwise. *)
Definition ids (l : list ResumeSection) : list string := List.map sec_id l.

Definition enabled (st : State) (ev : Event) : bool :=
  match ev with
  | DragEnd r =>
      bool_decide (source_index r < length (sections st)) &&
      match destination_index r with
      | Some dst => bool_decide (dst < length (sections st))
      | None => true
      end
  | ToggleVisibility id => bool_decide (id ∈ ids (sections st))
  | Remove id =>
      bool_decide (Exists (fun s => sec_id s = id /\ sec_isCustom s = Some true) (sections st))
  | TypeTitle _ | AddCustom _ | CancelAdd => isAddingCustom st
  | OpenAdd => negb (isAddingCustom st)
  | ApplyCountry => true
  end.

(** A sequence of events, as one user session on the component. *)
Fixpoint run (country : Country.CountryType) (evs : list Event) (st : State) : option State :=
  match evs with
  | [] => Some st
  | ev :: evs' =>
      if enabled st ev then
        match handle country ev st with
        | Some (st', _) => run country evs' st'
        | None => None
        end
      else None
  end.

(** Reachable states with the last clock reading: [Date.now()] is read
    only by [addCustomSection], and successive reads increase. *)
Inductive reachable (country : Country.CountryType) : N -> State -> Prop :=
  | reach_init : reachable country 0 init
  | reach_step clk st ev st' n :
      reachable country clk st ->
      enabled st ev = true ->
      handle country ev st = Some (st', n) ->
      (forall now, clock_of ev = Some now -> (clk < now)%N) ->
      reachable country (default clk (clock_of ev)) st'.

(** The invariant: section ids are pairwise distinct, and every id is a
    built-in one or a custom id with a clock value already read. *)

Definition builtin_ids : list string :=
  ["profile"; "experience"; "education"; "skills"; "certifications"; "projects";
   "languages"; "interests"].

Definition id_ok (clk : N) (id : string) : Prop :=
  id ∈ builtin_ids \/ exists n, (n <= clk)%N /\ id = custom_id n.

Definition inv (clk : N) (st : State) : Prop :=
  NoDup (ids (sections st)) /\ Forall (id_ok clk) (ids (sections st)).

(** The second invariant: every built-in id is present, and no section
    marked custom carries a built-in id. *)
Definition builtins_inv (st : State) : Prop :=
  (forall b, b ∈ builtin_ids -> b ∈ ids (sections st)) /\
  Forall (fun s => sec_isCustom s = Some true -> sec_id s ∉ builtin_ids) (sections st).

(** States used by the witnesses: the first five default sections, and
    the default list with a title typed in the add box. *)
Definition five : State := set_sections (take 5 defaultSections) init.

Definition titled : State :=
  {| sections := defaultSections; customSectionTitle := "Awards"; isAddingCustom := true |}.

(** ** The abstract specification of reordering *)

(** Move the element at [i] to position [j] of the list without it. *)
Definition move {A} (i j : nat) (l : list A) : list A :=
  match l !! i with
  | Some x => take j (delete i l) ++ x :: drop j (delete i l)
  | None => l
  end.

(** ** Reordering *)

Lemma move_in_range {A} (l : list A) i j x :
  l !! i = Some x -> move i j l = take j (delete i l) ++ x :: drop j (delete i l).
Proof. unfold move. by intros ->. Qed.

Lemma move_perm {A} (l : list A) i j : move i j l ≡ₚ l.
Proof.
  unfold move. destruct (l !! i) as [x|] eqn:Hx; [|done].
  rewrite <- Permutation_middle, take_drop. symmetry. by apply delete_Permutation.
Qed.

Lemma move_length {A} (l : list A) i j : length (move i j l) = length l.
Proof. apply Permutation_length, move_perm. Qed.

(** C2. Refinement: for a source index of an item of the list, the drop
    handler is [move] (the item leaves its place and is put before position
    [dst] of the remaining list, or at its end), and [onSectionsChange]
    receives exactly the new list. *)
Theorem handleDragEnd_move (st : State) (src dst : nat) :
  src < length (sections st) ->
  handleDragEnd {| source_index := src; destination_index := Some dst |} st =
    Some (set_sections (move src dst (sections st)) st, Some (move src dst (sections st))).
Proof.
  intros Hlt. destruct (lookup_lt_is_Some_2 _ _ Hlt) as [x Hx].
  unfold handleDragEnd. cbn [destination_index source_index].
  rewrite (splice_remove_one _ _ _ Hx), splice_insert.
  by rewrite (move_in_range _ _ _ _ Hx).
Qed.

Lemma handleDragEnd_cases (st : State) r st' n :
  handleDragEnd r st = Some (st', n) ->
  (destination_index r = None /\ st' = st /\ n = None) \/
  (exists dst, destination_index r = Some dst /\ source_index r < length (sections st) /\
               st' = set_sections (move (source_index r) dst (sections st)) st /\
               n = Some (sections st')).
Proof.
  destruct r as [src [dst|]]; simpl; [|intros [= <- <-]; by left].
  intros H. right. exists dst. split; [done|].
  destruct (decide (src < length (sections st))) as [Hlt|Hge].
  - rewrite handleDragEnd_move in H by done. injection H as <- <-. done.
  - unfold handleDragEnd in H. cbn [destination_index source_index] in H.
    rewrite splice_remove_none in H by lia. done.
Qed.

(** A drop never loses, duplicates or invents a section: the new list
    is a permutation of the old one. *)
Theorem handleDragEnd_perm (st : State) r st' n :
  handleDragEnd r st = Some (st', n) -> sections st' ≡ₚ sections st.
Proof.
  intros H. apply handleDragEnd_cases in H
    as [(_ & -> & _)|(dst & _ & _ & -> & _)]; [done|apply move_perm].
Qed.

(** The other sections keep their relative order: removing the moved
    item from the new list at its destination gives the old list without
    it at its source. *)
Theorem handleDragEnd_others_order (st : State) src dst st' n :
  dst < length (sections st) ->
  handleDragEnd {| source_index := src; destination_index := Some dst |} st = Some (st', n) ->
  delete dst (sections st') = delete src (sections st).
Proof.
  intros Hdst H. apply handleDragEnd_cases in H as [(Hn & _)|(d & [= <-] & Hsrc & -> & _)];
    [done|]. simpl in *.
  destruct (lookup_lt_is_Some_2 _ _ Hsrc) as [x Hx]. rewrite (move_in_range _ _ _ _ Hx).
  pose proof (length_delete (sections st) src (mk_is_Some _ _ Hx)).
  rewrite <- (length_take_le (delete src (sections st)) dst) at 1 by lia.
  by rewrite delete_middle, take_drop.
Qed.

(** The moved section lands at its destination. *)
Theorem handleDragEnd_lands (st : State) src dst st' n :
  dst < length (sections st) ->
  handleDragEnd {| source_index := src; destination_index := Some dst |} st = Some (st', n) ->
  sections st' !! dst = sections st !! src.
Proof.
  intros Hdst H. apply handleDragEnd_cases in H as [(Hn & _)|(d & [= <-] & Hsrc & -> & _)];
    [done|]. simpl in *.
  destruct (lookup_lt_is_Some_2 _ _ Hsrc) as [x Hx]. rewrite (move_in_range _ _ _ _ Hx), Hx.
  pose proof (length_delete (sections st) src (mk_is_Some _ _ Hx)).
  rewrite lookup_app_r; rewrite length_take_le by lia; [|lia].
  by rewrite Nat.sub_diag.
Qed.

(** ** Visibility *)

Lemma toggle_toggle id s : toggle id (toggle id s) = s.
Proof.
  destruct s as [i t ti v c ct]. unfold toggle. simpl.
  destruct (decide (i = id)) as [->|Hne].
  - rewrite (bool_decide_true (id = id)) by done. simpl.
    rewrite (bool_decide_true (id = id)) by done. by rewrite negb_involutive.
  - rewrite (bool_decide_false (i = id)) by done. simpl.
    by rewrite (bool_decide_false (i = id)) by done.
Qed.

Lemma toggle_id id s : sec_id (toggle id s) = sec_id s.
Proof. unfold toggle. by case_bool_decide. Qed.

Lemma set_sections_self st : set_sections (sections st) st = st.
Proof. by destruct st. Qed.

#[export] Hint Rewrite toggle_id set_sections_self : resume.

(** The visibility a toggle of [id] leaves on a section. *)
Definition flipped (id : string) (s : ResumeSection) : bool :=
  if bool_decide (sec_id s = id) then negb (sec_isVisible s) else sec_isVisible s.

(** What a section holds besides its visibility. *)
Definition contents (s : ResumeSection) :=
  (sec_id s, sec_type s, sec_title s, sec_isCustom s, sec_customTitle s).

Lemma toggle_visible id s : sec_isVisible (toggle id s) = flipped id s.
Proof. unfold toggle, flipped. by case_bool_decide. Qed.

Lemma toggle_contents id s : contents (toggle id s) = contents s.
Proof. unfold toggle, contents. by case_bool_decide. Qed.

(** C7. [toggleSectionVisibility(id)] flips the visibility of exactly the
    sections with that id, keeps every section's other fields, their order
    and the title box, and notifies the new list; toggling the same id
    twice gives back the state it started from. *)
Theorem toggleSectionVisibility_spec (st : State) id :
  let '(st1, n) := toggleSectionVisibility id st in
  List.map sec_isVisible (sections st1) = List.map (flipped id) (sections st) /\
  List.map contents (sections st1) = List.map contents (sections st) /\
  customSectionTitle st1 = customSectionTitle st /\ isAddingCustom st1 = isAddingCustom st /\
  n = Some (sections st1) /\
  fst (toggleSectionVisibility id st1) = st.
Proof.
  unfold toggleSectionVisibility, set_sections. cbn [sections customSectionTitle isAddingCustom fst].
  rewrite !List.map_map. split; [apply map_ext, toggle_visible|].
  split; [apply map_ext, toggle_contents|]. do 3 (split; [done|]).
  rewrite map_id_pointwise by (intros; apply toggle_toggle). by destruct st.
Qed.

(** Toggling touches one id: sections with another id are unchanged,
    those with this id have only their visibility flipped, and the list of
    ids is the same. *)
Theorem toggle_only_id (st : State) id i s :
  sections st !! i = Some s ->
  sections (fst (toggleSectionVisibility id st)) !! i =
    Some (if bool_decide (sec_id s = id)
          then {| sec_id := sec_id s; sec_type := sec_type s; sec_title := sec_title s;
                  sec_isVisible := negb (sec_isVisible s); sec_isCustom := sec_isCustom s;
                  sec_customTitle := sec_customTitle s |}
          else s).
Proof. intros Hs. simpl. rewrite list_lookup_fmap, Hs. done. Qed.

(** ** Removal *)

Definition keep (id : string) (s : ResumeSection) : bool := negb (bool_decide (sec_id s = id)).

Lemma elem_of_filter_keep id s l :
  s ∈ List.filter (keep id) l <-> s ∈ l /\ sec_id s <> id.
Proof.
  rewrite !list_elem_of_In, List.filter_In. unfold keep.
  rewrite negb_true_iff, bool_decide_eq_false. done.
Qed.

Lemma filter_keep_sublist id l : List.filter (keep id) l `sublist_of` l.
Proof.
  induction l as [|x l IH]; simpl; [done|].
  destruct (keep id x); [by apply sublist_skip|by apply sublist_cons].
Qed.

(** [removeSection] drops exactly the sections with that id (the
    built-in ones included) and keeps the others in their order. *)
Theorem removeSection_spec (st : State) id :
  let l' := sections (fst (removeSection id st)) in
  (forall s, s ∈ l' <-> s ∈ sections st /\ sec_id s <> id) /\ l' `sublist_of` sections st.
Proof.
  simpl. split; [intros s; apply (elem_of_filter_keep id s (sections st))|].
  apply (filter_keep_sublist id (sections st)).
Qed.

(** ** Adding a custom section *)

(** A title that is not blank passes the guard [!customSectionTitle.trim()]. *)
Lemma trim_nonblank t : all_chars is_js_space t = false -> trim t <> "".
Proof. intros Hb. rewrite trim_blank. congruence. Qed.


(** C21. Otherwise the new section is appended, visible, of type custom,
    titled with the text as typed (untrimmed) and identified by the clock;
    the title box is emptied and closed, and the orchestrator gets the
    new list. *)
Theorem addCustomSection_appends (st : State) now :
  all_chars is_js_space (customSectionTitle st) = false ->
  addCustomSection now st =
    (let t := customSectionTitle st in
     let l := sections st ++ [{| sec_id := custom_id now; sec_type := custom; sec_title := t;
                                sec_isVisible := true; sec_isCustom := Some true;
                                sec_customTitle := Some t |}] in
     ({| sections := l; customSectionTitle := ""; isAddingCustom := false |}, Some l)).
Proof.
  intros Hb. unfold addCustomSection. by rewrite bool_decide_false by (by apply trim_nonblank).
Qed.

(** ** Country recommendation *)

Lemma recommend_idem r s : recommend r (recommend r s) = recommend r s.
Proof. done. Qed.

(** C22. After [applyCountryRecommendations] each section, in the same
    place with the same id and type, is visible exactly when its type is
    in the country's list. *)
Theorem apply_visibility (st : State) c i s :
  sections st !! i = Some s ->
  exists s', sections (fst (applyCountryRecommendations c st)) !! i = Some s' /\
    sec_id s' = sec_id s /\ sec_type s' = sec_type s /\
    sec_isVisible s' = bool_decide (type_code (sec_type s) ∈ getCountryRecommendation c).
Proof. intros Hs. simpl. rewrite list_lookup_fmap, Hs. by eexists. Qed.

(** C8. The spec's case: applying the Canadian format shows exactly the
    profile, experience, education, skills and certifications sections
    and hides every other one. *)
Theorem apply_canada (st : State) :
  Forall (fun s => sec_isVisible s = true <->
                   sec_type s ∈ [profile; experience; education; skills; certifications])
         (sections (fst (applyCountryRecommendations Country.canada st))).
Proof.
  simpl. apply Forall_forall. intros s' [s [<- _]]%list_elem_of_In%in_map_iff. simpl.
  rewrite bool_decide_eq_true. destruct (sec_type s); vm_compute; split; intros H;
    solve [exact I | set_solver | inversion H; subst; set_solver].
Qed.

(** Applying a country's format twice is the same as once. *)
Theorem apply_idempotent (st : State) c :
  fst (applyCountryRecommendations c (fst (applyCountryRecommendations c st))) =
  fst (applyCountryRecommendations c st).
Proof. unfold applyCountryRecommendations. simpl. by rewrite List.map_map. Qed.

(** Applying any country's format hides every custom section: no
    country's list names the type ["custom"]. *)
Theorem apply_hides_custom (st : State) c :
  Forall (fun s => sec_type s = custom -> sec_isVisible s = false)
         (sections (fst (applyCountryRecommendations c st))).
Proof.
  simpl. apply Forall_forall. intros s' [s [<- _]]%list_elem_of_In%in_map_iff. simpl. intros ->.
  apply bool_decide_eq_false. destruct c; vm_compute; set_solver.
Qed.

(** ** What the orchestrator is told *)

(** C19. Every handler that calls [onSectionsChange] passes the list it
    stores, and a handler that does not call it leaves the list as it
    was: the orchestrator's copy never lags behind a change. *)
Theorem handle_notify_consistent c ev (st st' : State) n :
  handle c ev st = Some (st', n) ->
  match n with
  | Some l => l = sections st'
  | None => sections st' = sections st
  end.
Proof.
  destruct ev; simpl.
  - intros H. apply handleDragEnd_cases in H
      as [(_ & -> & ->)|(dst & _ & _ & -> & ->)]; done.
  - by intros [= <- <-].
  - by intros [= <- <-].
  - by intros [= <- <-].
  - by intros [= <- <-].
  - by intros [= <- <-].
  - unfold addCustomSection. case_bool_decide; by intros [= <- <-].
  - by intros [= <- <-].
Qed.

(** ** The id invariant *)

Lemma ids_app l1 l2 : ids (l1 ++ l2) = ids l1 ++ ids l2.
Proof. apply List.map_app. Qed.

Lemma ids_toggle id l : ids (List.map (toggle id) l) = ids l.
Proof. unfold ids. rewrite List.map_map. apply List.map_ext, toggle_id. Qed.

Lemma ids_recommend r l : ids (List.map (recommend r) l) = ids l.
Proof. unfold ids. by rewrite List.map_map. Qed.

Lemma ids_sublist l1 l2 : l1 `sublist_of` l2 -> ids l1 `sublist_of` ids l2.
Proof. induction 1; simpl; by constructor. Qed.

Lemma Forall_sublist_l {A} (P : A -> Prop) l1 l2 :
  l1 `sublist_of` l2 -> Forall P l2 -> Forall P l1.
Proof. induction 1; intros HF; [done| |]; inversion HF; subst; auto. Qed.

Lemma id_ok_mono clk clk' id : (clk <= clk')%N -> id_ok clk id -> id_ok clk' id.
Proof. intros Hle [Hb|(n & Hn & ->)]; [by left|right; exists n; split; [lia|done]]. Qed.

Lemma custom_id_inj n m : custom_id n = custom_id m -> n = m.
Proof. unfold custom_id. intros H. apply (inj (String.app "custom-")) in H. by apply (inj pretty). Qed.

Lemma custom_id_not_builtin n : custom_id n ∉ builtin_ids.
Proof.
  unfold custom_id, builtin_ids. rewrite !sapp_cons.
  intros H. repeat (apply elem_of_cons in H as [H|H]; [discriminate|]).
  by apply not_elem_of_nil in H.
Qed.

Lemma inv_same_ids clk (st st' : State) :
  ids (sections st') = ids (sections st) -> inv clk st -> inv clk st'.
Proof. unfold inv. by intros ->. Qed.

Lemma inv_perm clk (st st' : State) :
  sections st' ≡ₚ sections st -> inv clk st -> inv clk st'.
Proof.
  intros Hp [Hnd Hok]. assert (Hi : ids (sections st') ≡ₚ ids (sections st))
    by (by apply Permutation_map).
  split; [by rewrite Hi|]. by rewrite Hi.
Qed.

Lemma inv_sublist clk (st st' : State) :
  sections st' `sublist_of` sections st -> inv clk st -> inv clk st'.
Proof.
  intros Hs [Hnd Hok]. apply ids_sublist in Hs.
  split; [by eapply sublist_NoDup|by eapply Forall_sublist_l].
Qed.

Lemma inv_add clk now (st : State) :
  (clk < now)%N -> inv clk st -> inv now (fst (addCustomSection now st)).
Proof.
  intros Hlt [Hnd Hok]. unfold addCustomSection.
  case_bool_decide; cbn [fst sections].
  - split; [done|]. eapply Forall_impl; [exact Hok|]. intros id. apply id_ok_mono. lia.
  - unfold inv. cbn [sections]. rewrite ids_app. cbn [ids List.map sec_id]. split.
    + apply NoDup_app. split_and!; [done| |by apply NoDup_singleton].
      intros id Hid ->%list_elem_of_singleton.
      rewrite Forall_forall in Hok. destruct (Hok _ Hid) as [Hb|(m & Hm & Heq)].
      * by apply (custom_id_not_builtin now).
      * apply custom_id_inj in Heq. lia.
    + apply Forall_app. split.
      * eapply Forall_impl; [exact Hok|]. intros id. apply id_ok_mono. lia.
      * constructor; [|done]. right. exists now. split; [lia|done].
Qed.

(** C1. In every reachable state of the component the section ids are
    pairwise distinct, given a clock whose successive readings increase:
    toggling or removing by id then acts on one section only. *)
Theorem reachable_inv c clk (st : State) :
  reachable c clk st -> inv clk st.
Proof.
  intros Hreach. induction Hreach as [|clk st ev st' n Hr IH He Hh Hclk].
  - split; [by vm_compute; repeat constructor; set_solver|].
    repeat constructor; left; set_solver.
  - destruct ev; simpl in *.
    + apply handleDragEnd_perm in Hh. by eapply inv_perm.
    + injection Hh as <- <-. eapply inv_same_ids; [|exact IH]. apply ids_toggle.
    + injection Hh as <- <-. eapply inv_sublist; [|exact IH]. apply filter_keep_sublist.
    + by injection Hh as <- <-.
    + by injection Hh as <- <-.
    + by injection Hh as <- <-.
    + injection Hh as Hh. replace st' with (fst (addCustomSection now st)) by (by rewrite Hh).
      apply (inv_add clk); [by apply Hclk|done].
    + injection Hh as <- <-. eapply inv_same_ids; [|exact IH]. apply ids_recommend.
Qed.

(** C20. Without the increasing clock the invariant fails: whatever the
    sections already there, two custom sections added within the same
    millisecond [now] both get the id [custom-<now>], so the list has a
    duplicate id and a later toggle of that id hides both of them. *)
Theorem same_millisecond_duplicate_ids c (st : State) now t1 t2 :
  isAddingCustom st = false ->
  all_chars is_js_space t1 = false -> all_chars is_js_space t2 = false ->
  exists st', run c [OpenAdd; TypeTitle t1; AddCustom now; OpenAdd; TypeTitle t2; AddCustom now] st
                = Some st' /\
    ids (sections st') = ids (sections st) ++ [custom_id now; custom_id now] /\
    ~ NoDup (ids (sections st')) /\
    List.map sec_isVisible (sections (fst (toggleSectionVisibility (custom_id now) st'))) =
      List.map (flipped (custom_id now)) (sections st) ++ [false; false].
Proof.
  intros Ha H1 H2. cbn [run enabled handle]. rewrite Ha. cbn.
  unfold addCustomSection. cbn. rewrite bool_decide_false by (by apply trim_nonblank). cbn.
  rewrite bool_decide_false by (by apply trim_nonblank). eexists. split; [reflexivity|]. cbn.
  rewrite <-app_assoc. cbn. unfold ids. rewrite List.map_app. split; [done|]. split.
  - rewrite NoDup_app. intros (_ & Hd & Hn). apply NoDup_cons in Hn as [Hn _]. set_solver.
  - rewrite !List.map_map, List.map_app. cbn. f_equal; [apply map_ext, toggle_visible|].
    unfold toggle. cbn. by rewrite bool_decide_true.
Qed.

Lemma elem_of_ids b l : b ∈ ids l <-> exists s, s ∈ l /\ sec_id s = b.
Proof.
  unfold ids. rewrite list_elem_of_In, in_map_iff.
  split; intros (s & H1 & H2); exists s; rewrite ?list_elem_of_In in *; done.
Qed.

Lemma builtins_inv_map (f : ResumeSection -> ResumeSection) (st st' : State) :
  sections st' = List.map f (sections st) ->
  (forall s, sec_id (f s) = sec_id s /\ sec_isCustom (f s) = sec_isCustom s) ->
  builtins_inv st -> builtins_inv st'.
Proof.
  intros Heq Hf [Hb Hc]. unfold builtins_inv. rewrite Heq. split.
  - intros b Hbin. destruct (proj1 (elem_of_ids b _) (Hb b Hbin)) as (s & Hs & <-).
    apply elem_of_ids. exists (f s). split; [|apply Hf].
    apply list_elem_of_In, in_map, list_elem_of_In, Hs.
  - apply Forall_forall. intros s' [s [<- Hs]]%list_elem_of_In%in_map_iff.
    rewrite Forall_forall in Hc. destruct (Hf s) as [-> ->]. apply Hc, list_elem_of_In, Hs.
Qed.

Lemma builtins_inv_perm (st st' : State) :
  sections st' ≡ₚ sections st -> builtins_inv st -> builtins_inv st'.
Proof.
  intros Hp [Hb Hc]. split; [|by rewrite Hp].
  intros b Hbin. destruct (proj1 (elem_of_ids b _) (Hb b Hbin)) as (s & Hs & <-).
  apply elem_of_ids. exists s. by rewrite Hp.
Qed.

Lemma builtins_inv_remove id (st : State) :
  Exists (fun s => sec_id s = id /\ sec_isCustom s = Some true) (sections st) ->
  builtins_inv st -> builtins_inv (fst (removeSection id st)).
Proof.
  intros Hex [Hb Hc]. apply Exists_exists in Hex as (s0 & Hs0 & <- & Hcus).
  assert (Hnb : sec_id s0 ∉ builtin_ids) by (rewrite Forall_forall in Hc; by apply Hc).
  split.
  - intros b Hbin. destruct (proj1 (elem_of_ids b _) (Hb b Hbin)) as (s & Hs & <-).
    apply elem_of_ids. exists s. split; [|done]. simpl.
    apply elem_of_filter_keep. split; [done|]. intros Heq. apply Hnb. by rewrite <- Heq.
  - eapply Forall_sublist_l; [apply filter_keep_sublist|exact Hc].
Qed.

Lemma builtins_inv_add now (st : State) :
  builtins_inv st -> builtins_inv (fst (addCustomSection now st)).
Proof.
  intros [Hb Hc]. unfold addCustomSection. case_bool_decide; [done|].
  split; cbn [fst sections].
  - intros b Hbin. rewrite ids_app. apply elem_of_app. left. by apply Hb.
  - apply Forall_app. split; [done|]. constructor; [|done]. intros _. apply custom_id_not_builtin.
Qed.

(** C14. The built-in sections are never removed in a session: the trash
    button that calls [removeSection] is rendered only for custom sections,
    whose ids are never built-in ones, so every reachable state still holds
    the eight default ids. *)
Theorem reachable_builtins c clk (st : State) :
  reachable c clk st -> forall b, b ∈ builtin_ids -> b ∈ ids (sections st).
Proof.
  intros Hreach. enough (builtins_inv st) as [H _] by exact H.
  induction Hreach as [|clk st ev st' n Hr IH He Hh Hclk].
  - split; [intros b Hb; vm_compute; set_solver|].
    repeat constructor; discriminate.
  - destruct ev; simpl in *.
    + apply handleDragEnd_perm in Hh. by eapply builtins_inv_perm.
    + injection Hh as <- <-. eapply builtins_inv_map; [reflexivity| |exact IH].
      intros s. split; [apply toggle_id|]. unfold toggle.
      destruct (bool_decide (sec_id s = id)); reflexivity.
    + injection Hh as <- <-. apply builtins_inv_remove; [|done]. by apply bool_decide_eq_true in He.
    + by injection Hh as <- <-.
    + by injection Hh as <- <-.
    + by injection Hh as <- <-.
    + injection Hh as Hh. replace st' with (fst (addCustomSection now st)) by (by rewrite Hh).
      by apply builtins_inv_add.
    + injection Hh as <- <-. eapply builtins_inv_map; [reflexivity| |exact IH]. done.
Qed.

(** ** Witnesses *)

Lemma handleDragEnd_move_witness :
  2 < length (sections five) /\
  handleDragEnd {| source_index := 2; destination_index := Some 0 |} five =
    Some (set_sections (move 2 0 (sections five)) five, Some (move 2 0 (sections five))).
Proof. split; [simpl; lia|]. apply handleDragEnd_move. simpl; lia. Defined.

Lemma handleDragEnd_perm_witness :
  handleDragEnd {| source_index := 2; destination_index := Some 0 |} five =
    Some (set_sections (move 2 0 (sections five)) five, Some (move 2 0 (sections five))) /\
  move 2 0 (sections five) ≡ₚ sections five.
Proof.
  assert (H : handleDragEnd {| source_index := 2; destination_index := Some 0 |} five =
    Some (set_sections (move 2 0 (sections five)) five, Some (move 2 0 (sections five))))
    by reflexivity.
  split; [exact H|]. exact (handleDragEnd_perm five _ _ _ H).
Defined.

Lemma handleDragEnd_others_order_witness :
  0 < length (sections five) /\
  delete 0 (sections (set_sections (move 2 0 (sections five)) five)) = delete 2 (sections five).
Proof.
  split; [simpl; lia|].
  apply (handleDragEnd_others_order five 2 0 _ (Some (move 2 0 (sections five)))); [simpl; lia|].
  vm_compute. reflexivity.
Defined.

Lemma handleDragEnd_lands_witness :
  0 < length (sections five) /\
  sections (set_sections (move 2 0 (sections five)) five) !! 0 = sections five !! 2.
Proof.
  split; [simpl; lia|].
  apply (handleDragEnd_lands five 2 0 _ (Some (move 2 0 (sections five)))); [simpl; lia|].
  vm_compute. reflexivity.
Defined.

Lemma toggle_only_id_witness :
  sections init !! 0 = Some (builtin "profile" profile "Profile" true) /\
  sections (fst (toggleSectionVisibility "profile" init)) !! 0 =
    Some (builtin "profile" profile "Profile" false).
Proof.
  split; [reflexivity|].
  rewrite (toggle_only_id init "profile" 0 (builtin "profile" profile "Profile" true)) by reflexivity.
  reflexivity.
Defined.

Lemma same_millisecond_duplicate_ids_witness :
  isAddingCustom init = false /\ all_chars is_js_space "Awards" = false /\
  all_chars is_js_space "Hobbies" = false /\
  exists st', run Country.usa [OpenAdd; TypeTitle "Awards"; AddCustom 7; OpenAdd;
                               TypeTitle "Hobbies"; AddCustom 7] init = Some st' /\
    ids (sections st') = ids (sections init) ++ [custom_id 7; custom_id 7] /\
    ~ NoDup (ids (sections st')) /\
    List.map sec_isVisible (sections (fst (toggleSectionVisibility (custom_id 7) st'))) =
      List.map (flipped (custom_id 7)) (sections init) ++ [false; false].
Proof.
  split; [reflexivity|]. split; [reflexivity|]. split; [reflexivity|].
  exact (same_millisecond_duplicate_ids Country.usa init 7 "Awards" "Hobbies" eq_refl eq_refl eq_refl).
Defined.

Lemma addCustomSection_appends_witness :
  all_chars is_js_space (customSectionTitle titled) = false /\
  sections (fst (addCustomSection 7 titled)) =
    defaultSections ++ [{| sec_id := "custom-7"; sec_type := custom; sec_title := "Awards";
                           sec_isVisible := true; sec_isCustom := Some true;
                           sec_customTitle := Some "Awards" |}].
Proof.
  split; [reflexivity|]. rewrite addCustomSection_appends by reflexivity. reflexivity.
Defined.

Lemma apply_visibility_witness :
  sections init !! 4 = Some (builtin "certifications" certifications "Certifications & Licenses" false) /\
  exists s', sections (fst (applyCountryRecommendations Country.usa init)) !! 4 = Some s' /\
             sec_isVisible s' = true.
Proof.
  split; [reflexivity|].
  destruct (apply_visibility init Country.usa 4 _ eq_refl) as (s' & H1 & _ & _ & H4).
  exists s'. split; [exact H1|]. rewrite H4. reflexivity.
Defined.

Lemma handle_notify_consistent_witness :
  handle Country.usa (ToggleVisibility "skills") init = Some (toggleSectionVisibility "skills" init) /\
  List.map (toggle "skills") defaultSections = sections (fst (toggleSectionVisibility "skills" init)).
Proof.
  split; [reflexivity|].
  exact (handle_notify_consistent Country.usa (ToggleVisibility "skills") init
           (fst (toggleSectionVisibility "skills" init)) (snd (toggleSectionVisibility "skills" init))
           eq_refl).
Defined.

Lemma titled_session_reachable :
  reachable Country.usa 7 (fst (addCustomSection 7 titled)).
Proof.
  assert (H0 : reachable Country.usa 0 {| sections := defaultSections; customSectionTitle := "";
                                         isAddingCustom := true |}).
  { apply (reach_step Country.usa 0 init OpenAdd _ None (reach_init Country.usa) eq_refl eq_refl).
    intros now Hn; discriminate Hn. }
  assert (H1 : reachable Country.usa 0 titled).
  { apply (reach_step Country.usa 0 _ (TypeTitle "Awards") titled None H0 eq_refl eq_refl).
    intros now Hn; discriminate Hn. }
  apply (reach_step Country.usa 0 titled (AddCustom 7) _ (snd (addCustomSection 7 titled))
           H1 eq_refl eq_refl).
  intros now Hn. injection Hn as <-. lia.
Qed.

Lemma reachable_inv_witness :
  reachable Country.usa 7 (fst (addCustomSection 7 titled)) /\ inv 7 (fst (addCustomSection 7 titled)).
Proof.
  split; [exact titled_session_reachable|].
  exact (reachable_inv Country.usa 7 _ titled_session_reachable).
Defined.

Lemma reachable_builtins_witness :
  reachable Country.usa 7 (fst (addCustomSection 7 titled)) /\
  "profile" ∈ ids (sections (fst (addCustomSection 7 titled))).
Proof.
  split; [exact titled_session_reachable|].
  apply (reachable_builtins Country.usa 7 _ titled_session_reachable). vm_compute. left.
Defined.

End SectionReorder.
