(* ===== verification/Forms.v ===== *)
(** * The section editors of [src/src/components/builder/sections]

    Each editor keeps a local copy of its slice of the form data and
    reports changes through [onChange].  The experience and education
    editors share the shape of a list editor (add a blank entry with the id
    [Date.now().toString()], remove an entry when more than one is left,
    change one field of the entry with a given id); the [Entry] class states
    what an entry offers to it, and each editor composes the generic
    operations with the [onChange] calls its source makes: the education
    editor reports every change, the experience editor only field edits.
    The skills editor keeps three string lists and a shared input box,
    and renders a panel per list with a badge per skill ([skills_view]);
    the profile editor a record of nine strings.  A handler returns the new
    local state and the argument of its [onChange] call, if any. *)

From S2P Require Import Prelude JsString.
From stdpp Require Import pretty.

Module Forms.
Import JsString.

(** ** The generic list editor *)

(** What the list editor needs of an entry: its id and a blank entry with
    a given id. *)
Class Entry (E : Type) := {
  entry_id : E -> string;
  blank : string -> E
}.

Section ListEditor.
Context {E : Type} `{Entry E}.

(** [[...list, { id: Date.now().toString(), ...blank }]] *)
Definition list_add (now : N) (l : list E) : list E := l ++ [blank (pretty now)].

(** [if (list.length > 1) list.filter(e => e.id !== id)]: [None] when the
    guard fails and the state is left alone. *)
Definition list_remove (id : string) (l : list E) : option (list E) :=
  if bool_decide (1 < length l)
  then Some (List.filter (fun e => negb (bool_decide (entry_id e = id))) l)
  else None.

(** [list.map(e => e.id === id ? { ...e, [field]: value } : e)] *)
Definition list_change (id : string) (f : E -> E) (l : list E) : list E :=
  List.map (fun e => if bool_decide (entry_id e = id) then f e else e) l.

(** [useState(data || [{ id: "1", ...blank }])]: an array, even empty, is
    truthy, so the default entry is used only when [data] is undefined. *)
Definition init_list (data : option (list E)) : list E := default [blank "1"] data.

End ListEditor.

(** The events of a list editor: the add button, a trash button (rendered
    only while the list has more than one entry), and a field edit. *)
Inductive ListEvent (C : Type) :=
  | LAdd (now : N)
  | LRemove (id : string)
  | LChange (id : string) (ch : C).
Arguments LAdd {C}. Arguments LRemove {C}. Arguments LChange {C}.

(** ** Work experience *)

Record Experience := {
  exp_id : string;
  company : string;
  position : string;
  exp_location : string;
  exp_startDate : string;
  exp_endDate : string;
  exp_description : string;
  exp_isPresent : bool
}.

#[export] Instance Experience_Entry : Entry Experience := {|
  entry_id := exp_id;
  blank i := {| exp_id := i; company := ""; position := ""; exp_location := "";
                exp_startDate := ""; exp_endDate := ""; exp_description := "";
                exp_isPresent := false |}
|}.

(** The calls [handleChange(experience.id, field, value)] of the JSX: a
    text input gives a string, the "Current Job" checkbox a boolean. *)
Inductive ExpChange :=
  | ExpCompany (v : string) | ExpPosition (v : string) | ExpLocation (v : string)
  | ExpStartDate (v : string) | ExpEndDate (v : string) | ExpDescription (v : string)
  | ExpPresent (b : bool).

(** [{ ...exp, [field]: value }] *)
Definition apply_exp_change (ch : ExpChange) (e : Experience) : Experience :=
  let '{| exp_id := i; company := c; position := p; exp_location := l; exp_startDate := s;
          exp_endDate := en; exp_description := d; exp_isPresent := pr |} := e in
  match ch with
  | ExpCompany v => {| exp_id := i; company := v; position := p; exp_location := l; exp_startDate := s;
                       exp_endDate := en; exp_description := d; exp_isPresent := pr |}
  | ExpPosition v => {| exp_id := i; company := c; position := v; exp_location := l; exp_startDate := s;
                        exp_endDate := en; exp_description := d; exp_isPresent := pr |}
  | ExpLocation v => {| exp_id := i; company := c; position := p; exp_location := v; exp_startDate := s;
                        exp_endDate := en; exp_description := d; exp_isPresent := pr |}
  | ExpStartDate v => {| exp_id := i; company := c; position := p; exp_location := l; exp_startDate := v;
                         exp_endDate := en; exp_description := d; exp_isPresent := pr |}
  | ExpEndDate v => {| exp_id := i; company := c; position := p; exp_location := l; exp_startDate := s;
                       exp_endDate := v; exp_description := d; exp_isPresent := pr |}
  | ExpDescription v => {| exp_id := i; company := c; position := p; exp_location := l;
                           exp_startDate := s; exp_endDate := en; exp_description := v;
                           exp_isPresent := pr |}
  | ExpPresent b => {| exp_id := i; company := c; position := p; exp_location := l; exp_startDate := s;
                       exp_endDate := en; exp_description := d; exp_isPresent := b |}
  end.

(** [addExperience], lines 46-57: no [onChange] call. *)
Definition addExperience (now : N) (l : list Experience) : list Experience * option (list Experience) :=
  (list_add now l, None).

(** [removeExperience], lines 59-63: no [onChange] call. *)
Definition removeExperience (id : string) (l : list Experience)
    : list Experience * option (list Experience) :=
  (default l (list_remove id l), None).

(** [handleChange], lines 65-71. *)
Definition handleExpChange (id : string) (ch : ExpChange) (l : list Experience)
    : list Experience * option (list Experience) :=
  let updated := list_change id (apply_exp_change ch) l in (updated, Some updated).

Definition experience_handle (ev : ListEvent ExpChange) (l : list Experience)
    : list Experience * option (list Experience) :=
  match ev with
  | LAdd now => addExperience now l
  | LRemove id => removeExperience id l
  | LChange id ch => handleExpChange id ch l
  end.

(** ** Education *)

Record Education := {
  edu_id : string;
  institution : string;
  degree : string;
  field : string;
  edu_location : string;
  edu_startDate : string;
  edu_endDate : string;
  edu_description : string;
  edu_isPresent : bool
}.

#[export] Instance Education_Entry : Entry Education := {|
  entry_id := edu_id;
  blank i := {| edu_id := i; institution := ""; degree := ""; field := ""; edu_location := "";
                edu_startDate := ""; edu_endDate := ""; edu_description := "";
                edu_isPresent := false |}
|}.

(** The education JSX has text inputs only; [isPresent] has no control. *)
Inductive EduChange :=
  | EduInstitution (v : string) | EduLocation (v : string) | EduDegree (v : string)
  | EduField (v : string) | EduStartDate (v : string) | EduEndDate (v : string)
  | EduDescription (v : string).

Definition apply_edu_change (ch : EduChange) (e : Education) : Education :=
  let '{| edu_id := i; institution := ins; degree := dg; field := fd; edu_location := l;
          edu_startDate := s; edu_endDate := en; edu_description := d; edu_isPresent := pr |} := e in
  let mk ins dg fd l s en d :=
    {| edu_id := i; institution := ins; degree := dg; field := fd; edu_location := l;
       edu_startDate := s; edu_endDate := en; edu_description := d; edu_isPresent := pr |} in
  match ch with
  | EduInstitution v => mk v dg fd l s en d
  | EduLocation v => mk ins dg fd v s en d
  | EduDegree v => mk ins v fd l s en d
  | EduField v => mk ins dg v l s en d
  | EduStartDate v => mk ins dg fd l v en d
  | EduEndDate v => mk ins dg fd l s v d
  | EduDescription v => mk ins dg fd l s en v
  end.

(** [addEducation], lines 47-61: reports the new list. *)
Definition addEducation (now : N) (l : list Education) : list Education * option (list Education) :=
  let updated := list_add now l in (updated, Some updated).

(** [removeEducation], lines 63-69: reports the new list when it removes. *)
Definition removeEducation (id : string) (l : list Education)
    : list Education * option (list Education) :=
  match list_remove id l with
  | Some updated => (updated, Some updated)
  | None => (l, None)
  end.

(** [handleChange], lines 71-77. *)
Definition handleEduChange (id : string) (ch : EduChange) (l : list Education)
    : list Education * option (list Education) :=
  let updated := list_change id (apply_edu_change ch) l in (updated, Some updated).

Definition education_handle (ev : ListEvent EduChange) (l : list Education)
    : list Education * option (list Education) :=
  match ev with
  | LAdd now => addEducation now l
  | LRemove id => removeEducation id l
  | LChange id ch => handleEduChange id ch l
  end.

(** ** Skills *)

(** The [{ technical, soft, languages }] object passed to [onChange]. *)
Record SkillsData := {
  sd_technical : list string;
  sd_soft : list string;
  sd_languages : list string
}.

Record SkillsState := {
  activeTab : string;
  newSkill : string;
  technicalSkills : list string;
  softSkills : list string;
  languagesList : list string
}.

(** Lines 22-26; [data?.technical || []] keeps a present (even empty)
    array. *)
Definition init_skills (data : option SkillsData) : SkillsState := {|
  activeTab := "technical"; newSkill := "";
  technicalSkills := default [] (sd_technical <$> data);
  softSkills := default [] (sd_soft <$> data);
  languagesList := default [] (sd_languages <$> data)
|}.

Definition mk_skills (tab nw : string) (t s l : list string) : SkillsState :=
  {| activeTab := tab; newSkill := nw; technicalSkills := t; softSkills := s; languagesList := l |}.

(** [handleAddSkill], lines 28-55: a blank input is ignored; otherwise the
    trimmed text is appended to the list of the active tab (and reported),
    and the input is cleared whatever the tab. *)
Definition handleAddSkill (st : SkillsState) : SkillsState * option SkillsData :=
  if bool_decide (trim (newSkill st) = "") then (st, None)
  else
    let sk := trim (newSkill st) in
    let '(t, so, la) := (technicalSkills st, softSkills st, languagesList st) in
    let tab := activeTab st in
    if bool_decide (tab = "technical") then
      (mk_skills tab "" (t ++ [sk]) so la,
       Some {| sd_technical := t ++ [sk]; sd_soft := so; sd_languages := la |})
    else if bool_decide (tab = "soft") then
      (mk_skills tab "" t (so ++ [sk]) la,
       Some {| sd_technical := t; sd_soft := so ++ [sk]; sd_languages := la |})
    else if bool_decide (tab = "languages") then
      (mk_skills tab "" t so (la ++ [sk]),
       Some {| sd_technical := t; sd_soft := so; sd_languages := la ++ [sk] |})
    else (mk_skills tab "" t so la, None).

(** [arr.filter(s => s !== skill)] *)
Definition drop_skill (skill : string) (l : list string) : list string :=
  List.filter (fun s => negb (bool_decide (s = skill))) l.

(** [handleRemoveSkill(skill, type)], lines 57-77. *)
Definition handleRemoveSkill (skill ty : string) (st : SkillsState) : SkillsState * option SkillsData :=
  let '(t, so, la) := (technicalSkills st, softSkills st, languagesList st) in
  let tab := activeTab st in
  let nw := newSkill st in
  if bool_decide (ty = "technical") then
    (mk_skills tab nw (drop_skill skill t) so la,
     Some {| sd_technical := drop_skill skill t; sd_soft := so; sd_languages := la |})
  else if bool_decide (ty = "soft") then
    (mk_skills tab nw t (drop_skill skill so) la,
     Some {| sd_technical := t; sd_soft := drop_skill skill so; sd_languages := la |})
  else if bool_decide (ty = "languages") then
    (mk_skills tab nw t so (drop_skill skill la),
     Some {| sd_technical := t; sd_soft := so; sd_languages := drop_skill skill la |})
  else (st, None).

(** The events of the skills editor: a tab click, typing, Enter or the
    Add button, and the remove button of a badge. *)
Inductive SkillsEvent :=
  | SetTab (tab : string)
  | TypeSkill (v : string)
  | AddSkill
  | RemoveSkill (skill ty : string).

Definition skills_handle (ev : SkillsEvent) (st : SkillsState) : SkillsState * option SkillsData :=
  match ev with
  | SetTab tab => (mk_skills tab (newSkill st) (technicalSkills st) (softSkills st) (languagesList st), None)
  | TypeSkill v => (mk_skills (activeTab st) v (technicalSkills st) (softSkills st) (languagesList st), None)
  | AddSkill => handleAddSkill st
  | RemoveSkill skill ty => handleRemoveSkill skill ty st
  end.

(** One tab of the editor as rendered (lines 123-289): its trigger's
    value and text, the label and id of its input, the placeholder, a
    badge per skill with the remove event of its [x] button, and the
    message shown for an empty list. *)
Record SkillsPanel := {
  panel_value : string; panel_trigger : string; panel_label : string; panel_input_id : string;
  panel_placeholder : string; panel_badges : list (string * SkillsEvent); panel_empty : option string
}.

Definition panel (value trigger label id placeholder empty : string) (l : list string) : SkillsPanel :=
  {| panel_value := value; panel_trigger := trigger; panel_label := label; panel_input_id := id;
     panel_placeholder := placeholder;
     panel_badges := List.map (fun s => (s, RemoveSkill s value)) l;
     panel_empty := if bool_decide (l = []) then Some empty else None |}.

Definition skills_view (st : SkillsState) : list SkillsPanel := [
  panel "technical" "Technical Skills" "Add Technical Skills" "technical-skill"
        "e.g., JavaScript, React, Python" "No technical skills added yet." (technicalSkills st);
  panel "soft" "Soft Skills" "Add Soft Skills" "soft-skill"
        "e.g., Communication, Leadership, Teamwork" "No soft skills added yet." (softSkills st);
  panel "languages" "Languages" "Add Languages" "language-skill"
        "e.g., English (Fluent), French (Intermediate)" "No languages added yet." (languagesList st)].

(** The panel the [Tabs] show: the one whose value is [activeTab]
    (none for another value). *)
Definition shown_panel (st : SkillsState) : option SkillsPanel :=
  List.find (fun p => bool_decide (panel_value p = activeTab st)) (skills_view st).

(** The button under the tabs, lines 292-294: it has no [onClick], and
    its [type="button"] submits nothing. *)
Definition save_skills_button : string * option SkillsEvent := ("Save Skills", None).

(** ** Profile *)

Record Profile := {
  firstName : string; lastName : string; title : string; email : string; phone : string;
  location : string; website : string; linkedin : string; summary : string
}.

(** The parent's [formData.profile]: starts as [{}], every field optional. *)
Record ProfileData := {
  pd_firstName : option string; pd_lastName : option string; pd_title : option string;
  pd_email : option string; pd_phone : option string; pd_location : option string;
  pd_website : option string; pd_linkedin : option string; pd_summary : option string
}.

Definition empty_profile_data : ProfileData :=
  {| pd_firstName := None; pd_lastName := None; pd_title := None; pd_email := None;
     pd_phone := None; pd_location := None; pd_website := None; pd_linkedin := None;
     pd_summary := None |}.

(** Lines 21-31 and 33-47: [data?.x || ""] for each field. *)
Definition profile_of_data (d : ProfileData) : Profile := {|
  firstName := js_or (pd_firstName d) ""; lastName := js_or (pd_lastName d) "";
  title := js_or (pd_title d) ""; email := js_or (pd_email d) ""; phone := js_or (pd_phone d) "";
  location := js_or (pd_location d) ""; website := js_or (pd_website d) "";
  linkedin := js_or (pd_linkedin d) ""; summary := js_or (pd_summary d) ""
|}.

(** The object [onChange] hands to the parent: every field present. *)
Definition data_of_profile (p : Profile) : ProfileData := {|
  pd_firstName := Some (firstName p); pd_lastName := Some (lastName p);
  pd_title := Some (title p); pd_email := Some (email p); pd_phone := Some (phone p);
  pd_location := Some (location p); pd_website := Some (website p);
  pd_linkedin := Some (linkedin p); pd_summary := Some (summary p)
|}.

(** The [name] attributes of the inputs. *)
Inductive ProfileField :=
  | PFirstName | PLastName | PTitle | PEmail | PPhone | PLocation | PWebsite | PLinkedin | PSummary.

(** [{ ...profile, [name]: value }] *)
Definition set_profile (f : ProfileField) (v : string) (p : Profile) : Profile :=
  let '{| firstName := a; lastName := b; title := c; email := d; phone := e; location := g;
          website := h; linkedin := i; summary := j |} := p in
  match f with
  | PFirstName => Build_Profile v b c d e g h i j
  | PLastName => Build_Profile a v c d e g h i j
  | PTitle => Build_Profile a b v d e g h i j
  | PEmail => Build_Profile a b c v e g h i j
  | PPhone => Build_Profile a b c d v g h i j
  | PLocation => Build_Profile a b c d e v h i j
  | PWebsite => Build_Profile a b c d e g v i j
  | PLinkedin => Build_Profile a b c d e g h v j
  | PSummary => Build_Profile a b c d e g h i v
  end.

Definition get_profile (f : ProfileField) (p : Profile) : string :=
  match f with
  | PFirstName => firstName p | PLastName => lastName p | PTitle => title p
  | PEmail => email p | PPhone => phone p | PLocation => location p
  | PWebsite => website p | PLinkedin => linkedin p | PSummary => summary p
  end.

(** [handleChange], lines 49-54. *)
Definition handleProfileChange (f : ProfileField) (v : string) (p : Profile) : Profile * option Profile :=
  let updated := set_profile f v p in (updated, Some updated).

(** ** An editor beside its parent

    The parent keeps its own copy of the slice and replaces it by what
    [onChange] reports.  [editor_step] runs one event on the pair
    (local list, parent copy). *)
Definition editor_step {E C} (h : ListEvent C -> list E -> list E * option (list E))
    (ev : ListEvent C) (s : list E * list E) : list E * list E :=
  let '(local, parent) := s in
  let '(local', n) := h ev local in
  (local', default parent n).

Fixpoint editor_run {E C} (h : ListEvent C -> list E -> list E * option (list E))
    (evs : list (ListEvent C)) (s : list E * list E) : list E * list E :=
  match evs with
  | [] => s
  | ev :: evs' => editor_run h evs' (editor_step h ev s)
  end.

(** Abbreviations for the statements: the three lists of the skills state,
    and one of them by the tab name that selects it. *)
Definition skills_of (st : SkillsState) : SkillsData :=
  {| sd_technical := technicalSkills st; sd_soft := softSkills st; sd_languages := languagesList st |}.

Definition tab_get (tab : string) (d : SkillsData) : option (list string) :=
  if bool_decide (tab = "technical") then Some (sd_technical d)
  else if bool_decide (tab = "soft") then Some (sd_soft d)
  else if bool_decide (tab = "languages") then Some (sd_languages d)
  else None.

Definition known_tab (tab : string) : Prop := tab = "technical" \/ tab = "soft" \/ tab = "languages".

(** States used by the witnesses. *)
Definition two_schools : list Education := [blank "1"; blank "1700000000000"].

Definition typing_react : SkillsState := mk_skills "technical" " React " [] [] [].

Definition react_twice : SkillsState := mk_skills "technical" "" ["React"; "Go"; "React"] [] [].

(** ** Theorems: list editors and their parents *)

Lemma education_notify ev (l l' : list Education) n :
  education_handle ev l = (l', n) -> default l n = l'.
Proof.
  destruct ev as [now|id|id ch]; simpl.
  - by intros [= <- <-].
  - unfold removeEducation. destruct (list_remove id l); by intros [= <- <-].
  - by intros [= <- <-].
Qed.

(** C24. The education editor and the builder's copy of the education list
    stay equal through any sequence of adds, removals and edits: every
    change of the local list is reported. *)
Theorem education_in_sync (evs : list (ListEvent EduChange)) (l : list Education) :
  fst (editor_run education_handle evs (l, l)) = snd (editor_run education_handle evs (l, l)).
Proof.
  revert l. induction evs as [|ev evs IH]; intros l; simpl; [done|].
  destruct (education_handle ev l) as [l' n] eqn:Hh.
  rewrite (education_notify _ _ _ _ Hh). apply IH.
Qed.

(** The experience editor does not report an added entry: after
    "Add Experience" the local list has the new blank entry and the
    builder's copy does not. *)
Theorem experience_add_unreported (now : N) (l : list Experience) :
  editor_step experience_handle (LAdd now) (l, l) = (l ++ [blank (pretty now)], l).
Proof. done. Qed.

Lemma filter_id_length {E} `{Entry E} id (l : list E) :
  NoDup (List.map entry_id l) ->
  length (List.filter (fun e => negb (bool_decide (entry_id e = id))) l) >= length l - 1.
Proof.
  induction l as [|x l IH]; simpl; [lia|]. intros [Hx Hnd]%NoDup_cons.
  case_bool_decide as Hid; simpl.
  - subst id. rewrite filter_all_true; [lia|].
    intros y Hy. apply negb_true_iff, bool_decide_eq_false. intros Heq.
    apply Hx. rewrite <- Heq. apply list_elem_of_In, in_map, Hy.
  - specialize (IH Hnd). lia.
Qed.

(** C25. With pairwise distinct ids, removing an entry never empties the
    list: the trash button is shown only for two entries or more, and it
    takes away at most one. *)
Theorem list_remove_keeps_entry {E} `{Entry E} id (l l' : list E) :
  NoDup (List.map entry_id l) -> list_remove id l = Some l' -> 1 <= length l'.
Proof.
  intros Hnd. unfold list_remove. case_bool_decide as Hlen; [|done].
  intros [= <-]. pose proof (filter_id_length id l Hnd). lia.
Qed.

(** ** Theorems: skills *)

(** C26. Adding a skill with a non-blank input appends the trimmed text to
    the list of the active tab, leaves the two other lists alone, clears
    the input, and reports the three lists when the tab is one of the
    three. *)
Theorem handleAddSkill_spec (st : SkillsState) :
  all_chars is_js_space (newSkill st) = false ->
  let '(st', n) := handleAddSkill st in
  newSkill st' = "" /\ activeTab st' = activeTab st /\
  (forall tab, tab_get tab (skills_of st') =
     if bool_decide (tab = activeTab st)
     then (fun l => l ++ [trim (newSkill st)]) <$> tab_get tab (skills_of st)
     else tab_get tab (skills_of st)) /\
  (n = Some (skills_of st') <-> known_tab (activeTab st)) /\
  (n = None <-> ~ known_tab (activeTab st)).
Proof.
  intros Hb. unfold handleAddSkill. rewrite bool_decide_false by (rewrite trim_blank; congruence).
  destruct st as [tab nw t so la]; simpl. unfold known_tab.
  repeat case_bool_decide; subst; simpl; split_and!; try done; try naive_solver;
    intros tab'; unfold tab_get; simpl; repeat case_bool_decide; subst; done.
Qed.

(** C27. Removing a skill removes every copy of it from that list (the
    lists admit duplicates) and keeps every other skill and list. *)
Theorem handleRemoveSkill_spec (st : SkillsState) skill ty l :
  tab_get ty (skills_of st) = Some l ->
  let '(st', n) := handleRemoveSkill skill ty st in
  (exists l', tab_get ty (skills_of st') = Some l' /\
     skill ∉ l' /\ forall x, x <> skill -> (x ∈ l' <-> x ∈ l)) /\
  (forall ty', ty' <> ty -> tab_get ty' (skills_of st') = tab_get ty' (skills_of st)) /\
  n = Some (skills_of st').
Proof.
  intros Hl. assert (Hd : forall l0 x, x ∈ drop_skill skill l0 <-> x ∈ l0 /\ x <> skill).
  { intros l0 x. unfold drop_skill. rewrite !list_elem_of_In, List.filter_In.
    rewrite negb_true_iff, bool_decide_eq_false. done. }
  destruct st as [tab nw t so la]. unfold tab_get in Hl. simpl in Hl.
  unfold handleRemoveSkill, tab_get. simpl.
  repeat case_bool_decide; simplify_eq; simpl; split_and!; try done;
    try (eexists; split; [done|]; split; [rewrite Hd; naive_solver|intros x Hx; rewrite Hd; naive_solver]);
    intros ty' Hty'; repeat case_bool_decide; simplify_eq; done.
Qed.

(** Every panel shows one badge per skill of its list, in order, and its
    empty-list message exactly when the list is empty; the [x] of a badge
    removes that skill, every copy of it, from that list, and the editor
    reports the lists. *)
Theorem skills_view_badges (st : SkillsState) :
  Forall (fun p =>
    let l := default [] (tab_get (panel_value p) (skills_of st)) in
    List.map fst (panel_badges p) = l /\ (panel_empty p = None <-> l <> []) /\
    Forall (fun b => let '(st', n) := skills_handle b.2 st in
                     tab_get (panel_value p) (skills_of st') = Some (drop_skill b.1 l) /\
                     n = Some (skills_of st')) (panel_badges p))
    (skills_view st).
Proof.
  assert (forall (l : list string) (e : string),
            (if bool_decide (l = []) then Some e else None) = None <-> l <> []) as Hempty
    by (intros l e; case_bool_decide; split; congruence).
  repeat apply Forall_cons_2; [..|apply Forall_nil_2]; cbn -[drop_skill];
    (split; [rewrite map_map; apply List.map_id|split; [apply Hempty|]]);
    apply Forall_map, Forall_forall; intros s _; done.
Qed.

(** ** Theorems: profile *)

(** Round trip: the builder stores the object the profile editor
    reported, and the editor's effect that re-reads [data] with
    [data.x || ""] gets back exactly the profile it had. *)
Theorem profile_roundtrip (p : Profile) : profile_of_data (data_of_profile p) = p.
Proof.
  destruct p; unfold profile_of_data, data_of_profile, js_or; simpl.
  repeat case_bool_decide; subst; done.
Qed.

(** C35. A profile edit sets the named field, keeps the eight others and
    reports the whole profile. *)
Theorem handleProfileChange_spec (p : Profile) f v :
  let '(p', n) := handleProfileChange f v p in
  get_profile f p' = v /\ (forall g, g <> f -> get_profile g p' = get_profile g p) /\ n = Some p'.
Proof.
  destruct p; simpl. split_and!; [by destruct f|intros g Hg; by destruct f, g|done].
Qed.

(** ** Witnesses *)

Lemma list_remove_keeps_entry_witness :
  NoDup (List.map entry_id two_schools) /\
  list_remove "1" two_schools = Some [blank "1700000000000"] /\ 1 <= length [@blank Education _ "1700000000000"].
Proof.
  assert (Hnd : NoDup (List.map entry_id two_schools)).
  { apply (bool_decide_unpack _). vm_compute. exact I. }
  split; [exact Hnd|]. split; [reflexivity|].
  exact (list_remove_keeps_entry "1" two_schools _ Hnd eq_refl).
Defined.

Lemma handleAddSkill_spec_witness :
  all_chars is_js_space (newSkill typing_react) = false /\
  (let '(st', n) := handleAddSkill typing_react in
   newSkill st' = "" /\ activeTab st' = activeTab typing_react /\
   (forall tab, tab_get tab (skills_of st') =
      if bool_decide (tab = activeTab typing_react)
      then (fun l => l ++ [trim (newSkill typing_react)]) <$> tab_get tab (skills_of typing_react)
      else tab_get tab (skills_of typing_react)) /\
   (n = Some (skills_of st') <-> known_tab (activeTab typing_react)) /\
   (n = None <-> ~ known_tab (activeTab typing_react))).
Proof. split; [reflexivity|]. apply handleAddSkill_spec. reflexivity. Defined.

Lemma handleRemoveSkill_spec_witness :
  tab_get "technical" (skills_of react_twice) = Some ["React"; "Go"; "React"] /\
  (let '(st', n) := handleRemoveSkill "React" "technical" react_twice in
   (exists l', tab_get "technical" (skills_of st') = Some l' /\
      "React" ∉ l' /\ forall x, x <> "React" -> (x ∈ l' <-> x ∈ ["React"; "Go"; "React"])) /\
   (forall ty', ty' <> "technical" ->
      tab_get ty' (skills_of st') = tab_get ty' (skills_of react_twice)) /\
   n = Some (skills_of st')).
Proof. split; [reflexivity|]. apply handleRemoveSkill_spec. reflexivity. Defined.

End Forms.
