(* ===== verification/Templates.v ===== *)
(** * The two template catalogues

    [Module TemplateSelection] models
    [src/src/components/builder/TemplateSelection.tsx]: the country tabs
    and the per-country template lists of the builder, with the two
    callbacks the component makes ([onCountryChange] from a tab,
    [onTemplateChange] from a card) and the highlight of the selected
    card.  [Module TemplatePreview] models the card thumbnails of
    [src/src/components/templates/TemplatePreview.tsx]: the style table,
    its fallback and the layout-specific elements.  [Module TemplatesPage]
    models [src/src/pages/Templates.tsx]: the public catalogue, the cards
    of the selected tab, their links to
    [/builder?template=<id>&country=<code>], and the page's events (a tab
    change, a link) with the tabs the page can reach.  The two catalogues are
    separate data; the theorems compare them, because the page's links are
    read back by the builder. *)

From S2P Require Import Prelude Country.

Module TemplateSelection.
Import Country.

Record Template := {
  tpl_id : string;
  tpl_name : string;
  tpl_description : string;
  tpl_isPremium : bool;
  tpl_thumbnailPath : string
}.

Record CountryInfo := {
  ci_code : CountryType;
  ci_name : string;
  ci_description : string
}.

(** Lines 39-66: the tabs; there is no entry for [eu]. *)
Definition countries : list CountryInfo := [
  {| ci_code := canada; ci_name := "Canada";
     ci_description := "1-page recruiter-style resume with job keywords" |};
  {| ci_code := germany; ci_name := "Germany";
     ci_description := "Lebenslauf format with formal structure" |};
  {| ci_code := australia; ci_name := "Australia";
     ci_description := "STAR-based Experience formatting" |};
  {| ci_code := portugal; ci_name := "Portugal/EU"; ci_description := "Europass layout compliance" |};
  {| ci_code := usa; ci_name := "USA"; ci_description := "Modern ATS-friendly format" |}
].

Definition tpl (i n d : string) (p : bool) : Template :=
  {| tpl_id := i; tpl_name := n; tpl_description := d; tpl_isPremium := p;
     tpl_thumbnailPath := "/templates/" +:+ i +:+ ".png" |}.

(** Lines 69-194: [const templates: Record<CountryType, Template[]>]. *)
Definition templates (c : CountryType) : list Template :=
  match c with
  | canada => [
      tpl "canada-professional" "Professional" "Clean, focused layout prioritizing experience and skills" false;
      tpl "canada-modern" "Modern" "Contemporary design with strategic use of color" false;
      tpl "canada-executive" "Executive" "Elegant format for senior professionals" true]
  | germany => [
      tpl "germany-traditional" "Traditional" "Classic Lebenslauf format with photo" false;
      tpl "germany-modern" "Modern" "Updated Lebenslauf with contemporary styling" false;
      tpl "germany-engineering" "Engineering" "Technical focus with skills emphasis" true]
  | australia => [
      tpl "australia-professional" "Professional" "STAR format with achievement focus" false;
      tpl "australia-modern" "Modern" "Contemporary design with STAR structure" false;
      tpl "australia-executive" "Executive" "Leadership-focused with quantifiable results" true]
  | portugal => [
      tpl "portugal-europass" "Europass" "Standard Europass CV format" false;
      tpl "portugal-modern" "Modern" "Europass-compliant with modern styling" false;
      tpl "portugal-creative" "Creative" "Europass structure with creative elements" true]
  | usa => [
      tpl "usa-professional" "Professional" "ATS-optimized with achievement focus" false;
      tpl "usa-modern" "Modern" "Contemporary design with strategic white space" false;
      tpl "usa-executive" "Executive" "Leadership-focused premium template" true]
  | eu => [
      tpl "eu-europass" "Europass" "Standard EU Europass format" false]
  end.

Definition template_ids (c : CountryType) : list string := List.map tpl_id (templates c).

(** What a click does: a tab reports its country, a card its template id. *)
Inductive Callback :=
  | CountryChange (c : CountryType)
  | TemplateChange (id : string).

#[export] Instance Callback_eq_dec : EqDecision Callback.
Proof. solve_decision. Defined.

(** The clicks the rendered component offers (lines 199-278): a tab per
    entry of [countries], a card per template of each of those countries. *)
Definition callbacks : list Callback :=
  List.map (fun ci => CountryChange (ci_code ci)) countries ++
  List.concat (List.map (fun ci => List.map (fun t => TemplateChange (tpl_id t)) (templates (ci_code ci)))
                        countries).

(** Lines 242-272: the ring and the check mark of a card. *)
Definition is_selected (selectedTemplate : string) (t : Template) : bool :=
  bool_decide (selectedTemplate = tpl_id t).

End TemplateSelection.

Module TemplatePreview.

Record Style := { bg : string; accent : string; layout : string }.

Definition sty (b a l : string) : Style := {| bg := b; accent := a; layout := l |}.

(** Lines 10-23, the object [styles] as a finite map. *)
Definition styles : gmap string Style := list_to_map [
  ("canada-modern", sty "bg-white" "bg-blue-600" "modern");
  ("canada-executive", sty "bg-gray-50" "bg-green-600" "executive");
  ("canada-tech", sty "bg-white" "bg-purple-600" "tech");
  ("usa-classic", sty "bg-white" "bg-red-600" "classic");
  ("usa-modern", sty "bg-gray-50" "bg-blue-500" "modern");
  ("germany-standard", sty "bg-white" "bg-gray-700" "formal");
  ("germany-academic", sty "bg-gray-50" "bg-indigo-600" "academic");
  ("australia-standard", sty "bg-white" "bg-orange-500" "standard");
  ("australia-graduate", sty "bg-blue-50" "bg-blue-600" "graduate");
  ("portugal-europass", sty "bg-white" "bg-green-500" "europass");
  ("portugal-modern", sty "bg-gray-50" "bg-teal-600" "modern");
  ("eu-standard", sty "bg-white" "bg-purple-500" "standard")].

Definition fallback : Style := sty "bg-white" "bg-gray-600" "standard".

(** [styles[id] || fallback], line 25.  The ids passed in come from the
    page's catalogue, so none of them names a property of
    [Object.prototype]; for those the JavaScript lookup would not be a map
    lookup. *)
Definition getTemplateStyle (id : string) : Style := default fallback (styles !! id).

(** The layout-specific elements of lines 75-82. *)
Inductive Extra := Avatar | Rule.

Definition extras (s : Style) : list Extra :=
  (if bool_decide (layout s = "modern") then [Avatar] else []) ++
  (if bool_decide (layout s = "executive") then [Rule] else []).

(** The rendered preview: its style and its extra elements. *)
Definition render (templateId : string) : Style * list Extra :=
  let s := getTemplateStyle templateId in (s, extras s).

End TemplatePreview.

Module TemplatesPage.
Import Country.

Record PageTemplate := {
  pt_id : string;
  pt_name : string;
  pt_description : string;
  pt_isPremium : bool;
  pt_features : list string
}.

(** Lines 23-29: the tabs of the page; no [eu] either. *)
Definition page_countries : list CountryType := [canada; usa; germany; australia; portugal].

Definition pt (i n d : string) (p : bool) (f : list string) : PageTemplate :=
  {| pt_id := i; pt_name := n; pt_description := d; pt_isPremium := p; pt_features := f |}.

(** Lines 31-128. *)
Definition page_templates (c : CountryType) : list PageTemplate :=
  match c with
  | canada => [
      pt "canada-modern" "Canadian Professional" "Clean, modern design optimized for Canadian recruiters" false
         ["Single page format"; "Keyword optimization"; "ATS-friendly"];
      pt "canada-executive" "Executive Canadian" "Premium format for senior positions" true
         ["Professional header"; "Skills highlighting"; "Achievement focus"];
      pt "canada-tech" "Tech Professional" "Specialized for IT and tech roles in Canada" true
         ["Skills matrix"; "Project showcase"; "Certification section"]]
  | usa => [
      pt "usa-classic" "Classic American" "Traditional format favored by US employers" false
         ["Clean layout"; "Action verb focus"; "Quantified achievements"];
      pt "usa-modern" "Modern American" "Contemporary design with subtle styling" true
         ["Modern typography"; "Color accents"; "Professional sections"]]
  | germany => [
      pt "germany-standard" "Standard Lebenslauf" "Traditional German CV format" false
         ["Chronological order"; "Personal details"; "Formal structure"];
      pt "germany-academic" "Academic Lebenslauf" "For research and academic positions" true
         ["Publication list"; "Research focus"; "Academic achievements"]]
  | australia => [
      pt "australia-standard" "Australian Professional" "STAR method optimized format" false
         ["STAR formatting"; "Achievement focus"; "Skills summary"];
      pt "australia-graduate" "Graduate Australian" "Perfect for new graduates" true
         ["Education highlight"; "Internship focus"; "Skills development"]]
  | portugal => [
      pt "portugal-europass" "Europass Format" "Official EU standard format" false
         ["EU compliance"; "Language skills"; "Mobility section"];
      pt "portugal-modern" "Modern Portuguese" "Contemporary design for Portuguese market" true
         ["Clean design"; "Professional layout"; "Skills emphasis"]]
  | eu => [
      pt "eu-standard" "European Standard" "Multi-country European format" false
         ["Multi-language"; "EU compliance"; "Professional structure"]]
  end.

(** A card's link (line 190): the query parameters it hands the builder. *)
Record BuilderLink := { link_template : string; link_country : string }.

#[export] Instance BuilderLink_eq_dec : EqDecision BuilderLink.
Proof. intros [t1 c1] [t2 c2]. destruct (decide (t1 = t2)), (decide (c1 = c2)); [left|right..]; congruence. Defined.

Definition builder_link (c : CountryType) (t : PageTemplate) : BuilderLink :=
  {| link_template := pt_id t; link_country := Country.code c |}.

(** Every link the rendered page shows: the cards of the page's tabs. *)
Definition page_links : list BuilderLink :=
  List.concat (List.map (fun c => List.map (builder_link c) (page_templates c)) page_countries).

(** Line 21: the page starts on Canada and reads no country from its
    URL (a tab click sets [selectedCountry], lines 140-148). *)
Definition initial_tab : CountryType := canada.

(** The cards of the shown tab (lines 150-196): each with its preview, its
    premium badge and its link. *)
Definition shown_cards (selected : CountryType)
    : list (TemplatePreview.Style * list TemplatePreview.Extra * bool * BuilderLink) :=
  List.map (fun t => (TemplatePreview.render (pt_id t), pt_isPremium t, builder_link selected t))
           (page_templates selected).

(** Lines 23-29: each tab's code, name and description. *)
Definition page_tabs : list (CountryType * string * string) := [
  (canada, "Canada", "1-page recruiter-style format");
  (usa, "USA", "Modern ATS-friendly format");
  (germany, "Germany", "Lebenslauf format with precision");
  (australia, "Australia", "STAR-based experience formatting");
  (portugal, "Portugal/EU", "Europass layout compliance")].

(** What the page does: a tab's [onValueChange] (line 140) receives the
    value of a trigger, the code of one of the five tabs, and sets
    [selectedCountry]; a card's link and the closing card's link (line
    212) leave the page for the builder. *)
Inductive PageEvent :=
  | TabChange (c : CountryType)
  | CardLink (lk : BuilderLink)
  | BlankLink.

Definition page_enabled (selected : CountryType) (ev : PageEvent) : bool :=
  match ev with
  | TabChange c => bool_decide (c ∈ List.map (fun x => x.1.1) page_tabs)
  | CardLink lk => bool_decide (lk ∈ List.map (fun x => x.2) (shown_cards selected))
  | BlankLink => true
  end.

(** The page's state after the event, or the URL it navigates to. *)
Definition page_step (ev : PageEvent) (selected : CountryType) : CountryType + string :=
  match ev with
  | TabChange c => inl c
  | CardLink lk => inr ("/builder?template=" +:+ link_template lk +:+ "&country=" +:+ link_country lk)
  | BlankLink => inr "/builder"
  end.

(** The heading and description of the shown tab (lines 152-155). *)
Definition tab_heading (selected : CountryType) : option (string * string) :=
  (fun x => (x.1.2 +:+ " Templates", x.2)) <$> List.find (fun x => bool_decide (x.1.1 = selected)) page_tabs.

Inductive page_reachable : CountryType -> Prop :=
  | page_reach_init : page_reachable initial_tab
  | page_reach_tab s c : page_reachable s -> page_enabled s (TabChange c) = true ->
      page_step (TabChange c) s = inl c -> page_reachable c.

End TemplatesPage.

(** * Theorems on the catalogues *)

Module TemplateTheorems.
Import Country TemplateSelection TemplatesPage.

(** The builder's catalogue of a country, as the card ids a link may name. *)
Definition in_builder_catalogue (lk : BuilderLink) : bool :=
  match Country.parse (link_country lk) with
  | Some c => bool_decide (link_template lk ∈ template_ids c)
  | None => false
  end.

(** Six of the links of the Templates page name a template that the
    builder's selector does not have for that country, so following them
    opens the builder with a template id that no card shows as selected. *)
Theorem page_links_unknown :
  List.filter (fun lk => negb (in_builder_catalogue lk)) page_links =
    [ {| link_template := "canada-tech"; link_country := "canada" |};
      {| link_template := "usa-classic"; link_country := "usa" |};
      {| link_template := "germany-standard"; link_country := "germany" |};
      {| link_template := "germany-academic"; link_country := "germany" |};
      {| link_template := "australia-standard"; link_country := "australia" |};
      {| link_template := "australia-graduate"; link_country := "australia" |} ].
Proof. vm_compute. reflexivity. Qed.

Lemma filter_selected_le1 (s : string) (l : list Template) :
  NoDup (List.map tpl_id l) -> length (List.filter (is_selected s) l) <= 1.
Proof.
  induction l as [|t l IH]; simpl; [lia|]. intros [Ht Hnd]%NoDup_cons.
  unfold is_selected at 1. case_bool_decide as Hs; simpl; [|by apply IH].
  subst s. rewrite filter_all_false; [simpl; lia|].
  intros t' Ht'. unfold is_selected. apply bool_decide_eq_false. intros Heq.
  apply Ht. rewrite Heq. apply list_elem_of_In, in_map, Ht'.
Qed.

(** In every country tab of the selector at most one card is marked
    selected, whatever the selected template id: the ids of a country's
    templates are pairwise distinct. *)
Theorem at_most_one_selected (c : CountryType) (s : string) :
  length (List.filter (is_selected s) (templates c)) <= 1.
Proof.
  apply filter_selected_le1. apply (bool_decide_unpack _). destruct c; vm_compute; exact I.
Qed.

(** The selector has no EU tab: no click on it reports the country
    [eu] or the template [eu-europass], so the EU template can only be
    reached through the URL. *)
Theorem eu_not_selectable :
  (CountryChange eu ∉ callbacks) /\ (TemplateChange "eu-europass" ∉ callbacks).
Proof. split; apply (bool_decide_unpack _); vm_compute; exact I. Qed.

(** Every card of the Templates page gets its own preview style: no
    template id of a shown tab falls back to the default style, and the
    style kept for [eu-standard] is never shown, the page having no EU
    tab. *)
Theorem page_previews_styled :
  Forall (fun c => Forall (fun t => is_Some (TemplatePreview.styles !! pt_id t)) (page_templates c))
         page_countries /\
  Forall (fun c => "eu-standard" ∉ List.map pt_id (page_templates c)) page_countries.
Proof. split; apply (bool_decide_unpack _); vm_compute; exact I. Qed.

(** The "modern" previews carry the avatar element and the executive one
    the rule, on the tab that shows them. *)
Lemma preview_extras :
  List.map (fun x => (x.1.1.2, x.2.(link_template)))
    (List.concat (List.map shown_cards page_countries)) =
  [([TemplatePreview.Avatar], "canada-modern"); ([TemplatePreview.Rule], "canada-executive");
   ([], "canada-tech"); ([], "usa-classic"); ([TemplatePreview.Avatar], "usa-modern");
   ([], "germany-standard"); ([], "germany-academic"); ([], "australia-standard");
   ([], "australia-graduate"); ([], "portugal-europass"); ([TemplatePreview.Avatar], "portugal-modern")].
Proof. vm_compute. reflexivity. Qed.

Lemma page_reachable_tab (s : CountryType) : page_reachable s -> s ∈ page_countries.
Proof.
  induction 1 as [|s c _ _ Hen _]; [set_solver|].
  apply bool_decide_eq_true in Hen. revert Hen. vm_compute. set_solver.
Qed.

(** Whatever tab the user has chosen, the page shows its heading and
    cards whose previews all have a style of their own and whose links
    carry the code of that tab, never [eu]. *)
Theorem page_reachable_cards (s : CountryType) :
  page_reachable s ->
  is_Some (tab_heading s) /\
  Forall (fun x => is_Some (TemplatePreview.styles !! link_template x.2) /\
                   link_country x.2 = Country.code s /\ link_country x.2 <> "eu") (shown_cards s).
Proof.
  intros Hr%page_reachable_tab.
  repeat (apply elem_of_cons in Hr as [->|Hr];
          [split; [eexists; reflexivity|apply (bool_decide_unpack _); vm_compute; exact I]|]).
  set_solver.
Qed.

End TemplateTheorems.
