(* ===== verification/Preview.v ===== *)
(** * The preview of [src/src/components/builder/ResumePreview.tsx]

    [generatePreview] switches on the country string and picks one of seven
    templates; each template maps the form data to markup, writing a
    placeholder for every empty field ([x || "placeholder"]) and, in the
    default template, an italic message for an empty list.  The markup is a
    tree of elements and text nodes ([VNode]); class names and styling are
    left out, the tags and the text are kept as the JSX writes them
    (non-ASCII text is kept as its UTF-8 bytes).  The form data is the
    builder's [formData]: the profile object, the experience and education
    lists and the skills object of [Forms.v]. *)

From S2P Require Import Prelude JsString Country Forms.

Module Preview.
Import Forms.

(** ** Markup *)

Inductive VNode :=
  | VText (s : string)
  | VEl (tag : string) (children : list VNode).

(** The text nodes of a tree, in document order. *)
Fixpoint texts (v : VNode) : list string :=
  match v with
  | VText s => [s]
  | VEl _ ch => (fix go (l : list VNode) : list string :=
                   match l with [] => [] | c :: l' => texts c ++ go l' end) ch
  end.

(** The builder's [formData]. *)
Record FormData := {
  fd_profile : ProfileData;
  fd_experience : list Experience;
  fd_education : list Education;
  fd_skills : SkillsData
}.

Definition t (s : string) : VNode := VText s.

(** [{first || "Your"} {last || "Name"}]: three text nodes. *)
Definition name_nodes (p : ProfileData) : list VNode :=
  [t (js_or (pd_firstName p) "Your"); t " "; t (js_or (pd_lastName p) "Name")].

(** [{x && <tag>{x}</tag>}]: nothing for a falsy [x]. *)
Definition when_truthy (x : option string) (mk : string -> VNode) : list VNode :=
  match x with
  | Some s => if bool_decide (s = "") then [] else [mk s]
  | None => []
  end.

(** ** The default template, lines 78-164 *)

Definition render_experience (e : Experience) : VNode :=
  VEl "div" [
    VEl "div" [
      VEl "h3" [t (js_or_s (position e) "Position Title")];
      VEl "span" [t (js_or_s (exp_startDate e) "Start Date"); t " — ";
                  t (if exp_isPresent e then "Present" else js_or_s (exp_endDate e) "End Date")]];
    VEl "div" [t (js_or_s (company e) "Company Name")];
    VEl "div" [t (js_or_s (exp_location e) "Location")];
    VEl "p" [t (js_or_s (exp_description e) "Experience description will appear here.")]].

Definition render_education (e : Education) : VNode :=
  VEl "div" [
    VEl "div" [
      VEl "h3" [t (js_or_s (degree e) "Degree"); t " in "; t (js_or_s (field e) "Field of Study")];
      VEl "span" [t (js_or_s (edu_startDate e) "Start Date"); t " — ";
                  t (if edu_isPresent e then "Present" else js_or_s (edu_endDate e) "End Date")]];
    VEl "div" [t (js_or_s (institution e) "Institution Name")];
    VEl "div" [t (js_or_s (edu_location e) "Location")];
    VEl "p" [t (js_or_s (edu_description e) "Education details will appear here.")]].

(** [list?.length > 0 ? list.map(render) : <p>message</p>] *)
Definition list_or_message {A} (l : list A) (render : A -> VNode) (message : string) : list VNode :=
  match l with
  | [] => [VEl "p" [t message]]
  | _ => List.map render l
  end.

Definition DefaultTemplate (fd : FormData) : VNode :=
  let p := fd_profile fd in
  VEl "div" [
    VEl "header" [
      VEl "h1" (name_nodes p);
      VEl "p" [t (js_or (pd_title p) "Professional Title")];
      VEl "div" [VEl "span" [t (js_or (pd_email p) "email@example.com")]; VEl "span" [t "•"];
                 VEl "span" [t (js_or (pd_phone p) "(555) 123-4567")]];
      VEl "div" [VEl "span" [t (js_or (pd_location p) "City, Country")]]];
    VEl "section" [
      VEl "h2" [t "Summary"];
      VEl "p" [t (js_or (pd_summary p)
                   "Professional summary will appear here. Add your experience and skills overview.")]];
    VEl "section" (VEl "h2" [t "Experience"] ::
      list_or_message (fd_experience fd) render_experience "Add work experience to see it here.");
    VEl "section" (VEl "h2" [t "Education"] ::
      list_or_message (fd_education fd) render_education "Add education to see it here.");
    VEl "section" [
      VEl "h2" [t "Skills"];
      VEl "div" (list_or_message (sd_technical (fd_skills fd)) (fun s => VEl "badge" [t s])
                   "Add technical skills to see them here.")]].

(** ** The country templates, lines 166-320 *)

Definition CanadaTemplate (fd : FormData) : VNode :=
  let p := fd_profile fd in
  VEl "div" [
    VEl "header" [
      VEl "h1" (name_nodes p);
      VEl "p" [t (js_or (pd_title p) "Professional Title")];
      VEl "div" ([VEl "span" [t (js_or (pd_email p) "email@example.com")];
                  VEl "span" [t (js_or (pd_phone p) "(555) 123-4567")];
                  VEl "span" [t (js_or (pd_location p) "City, Province")]] ++
                 when_truthy (pd_linkedin p) (fun s => VEl "span" [t s]))];
    VEl "section" [
      VEl "h2" [t "Professional Summary"];
      VEl "p" [t (js_or (pd_summary p)
                   "A concise 3-4 sentence summary highlighting your professional background, key achievements, and career focus.")]];
    VEl "section" [VEl "h2" [t "Professional Experience"]]].

Definition GermanyTemplate (fd : FormData) : VNode :=
  let p := fd_profile fd in
  VEl "div" [
    VEl "header" [
      VEl "div" [VEl "h1" (name_nodes p); VEl "p" [t (js_or (pd_title p) "Lebenslauf")]];
      VEl "div" [VEl "span" [t "Foto"]]];
    VEl "section" [
      VEl "h2" [t "Persönliche Daten"];
      VEl "div" [
        VEl "div" [t "Adresse:"]; VEl "div" [t (js_or (pd_location p) "Vollständige Adresse")];
        VEl "div" [t "Telefon:"]; VEl "div" [t (js_or (pd_phone p) "Telefonnummer")];
        VEl "div" [t "E-Mail:"]; VEl "div" [t (js_or (pd_email p) "E-Mail-Adresse")];
        VEl "div" [t "Geburtsdatum:"]; VEl "div" [t "01.01.1990"]]]].

Definition AustraliaTemplate (fd : FormData) : VNode :=
  let p := fd_profile fd in
  VEl "div" [
    VEl "header" [
      VEl "h1" (name_nodes p);
      VEl "p" [t (js_or (pd_title p) "Professional Summary")];
      VEl "div" [
        VEl "div" [t "Email: "; t (js_or (pd_email p) "email@example.com")];
        VEl "div" [t "Phone: "; t (js_or (pd_phone p) "(04) 1234 5678")];
        VEl "div" [t "Location: "; t (js_or (pd_location p) "City, State")];
        VEl "div" [t "LinkedIn: "; t (js_or (pd_linkedin p) "linkedin.com/in/yourname")]]]].

Definition PortugalTemplate (fd : FormData) : VNode :=
  VEl "div" [
    VEl "header" [VEl "h1" [t "Curriculum Vitae"]; VEl "h2" (name_nodes (fd_profile fd))]].

Definition USATemplate (fd : FormData) : VNode :=
  let p := fd_profile fd in
  VEl "div" [
    VEl "header" ([
      VEl "h1" (name_nodes p);
      VEl "div" [VEl "span" [t (js_or (pd_email p) "email@example.com")]; VEl "span" [t "|"];
                 VEl "span" [t (js_or (pd_phone p) "(555) 123-4567")]; VEl "span" [t "|"];
                 VEl "span" [t (js_or (pd_location p) "City, State")]]] ++
      when_truthy (pd_linkedin p) (fun s => VEl "div" [VEl "span" [t s]]))].

Definition EUTemplate (fd : FormData) : VNode :=
  VEl "div" [
    VEl "header" [
      VEl "div" [VEl "h1" [t "Europass"; VEl "br" []; t "Curriculum Vitae"]];
      VEl "div" [VEl "div" [VEl "span" [t "Personal Information"]];
                 VEl "h2" (name_nodes (fd_profile fd))]]].

(** ** Dispatch and the card *)

(** [generatePreview], lines 24-48: a switch on the country string; the
    [templateId] prop is passed to every template and read by none. *)
Definition generatePreview (country : string) (templateId : string) (fd : FormData) : VNode :=
  if bool_decide (country = "canada") then CanadaTemplate fd
  else if bool_decide (country = "germany") then GermanyTemplate fd
  else if bool_decide (country = "australia") then AustraliaTemplate fd
  else if bool_decide (country = "portugal") then PortugalTemplate fd
  else if bool_decide (country = "usa") then USATemplate fd
  else if bool_decide (country = "eu") then EUTemplate fd
  else DefaultTemplate fd.

(** [toUpperCase] on one code unit of the Latin-1 range that has an upper
    case in it: a-z and 224-254 except the division sign 247. *)
Definition upper_char (c : Ascii.ascii) : Ascii.ascii :=
  let n := Ascii.nat_of_ascii c in
  if ((97 <=? n) && (n <=? 122)) || ((224 <=? n) && (n <=? 254) && negb (n =? 247))
  then Ascii.ascii_of_nat (n - 32) else c.

(** [country.charAt(0).toUpperCase() + country.slice(1)] *)
Definition capitalize (s : string) : string :=
  match s with
  | EmptyString => EmptyString
  | String c s' => String (upper_char c) s'
  end.

(** The card, lines 50-74, once the effect has set [preview]: the header,
    the template badge and the element with id [resume-preview-content]
    that the export reads. *)
Definition ResumePreview (country templateId : string) (fd : FormData) : VNode :=
  VEl "card" [
    VEl "div" [VEl "div" [VEl "span" [t (capitalize country); t " Resume Preview"]];
               VEl "badge" [t "Template: "; t templateId]];
    VEl "content" [VEl "div" [VEl "div#resume-preview-content" [generatePreview country templateId fd]];
                   VEl "div" [t "Preview Mode"]]].

(** A form with nothing filled in, for the witnesses. *)
Definition blank_form : FormData := {|
  fd_profile := empty_profile_data; fd_experience := []; fd_education := [];
  fd_skills := {| sd_technical := []; sd_soft := []; sd_languages := [] |}
|}.

(** ** Theorems *)

Lemma texts_VEl tag ch : texts (VEl tag ch) = List.concat (List.map texts ch).
Proof. induction ch as [|c ch IH]; simpl in *; [done|]. by rewrite IH. Qed.

(** The text of a child is a part, in order, of the text of its parent. *)
Lemma texts_child tag k1 c k2 : texts c `sublist_of` texts (VEl tag (k1 ++ c :: k2)).
Proof.
  rewrite texts_VEl, List.map_app, concat_app. simpl.
  apply sublist_inserts_l, sublist_inserts_r. done.
Qed.

Lemma texts_children_tail tag k ch :
  List.concat (List.map texts ch) `sublist_of` texts (VEl tag (k ++ ch)).
Proof. rewrite texts_VEl, List.map_app, concat_app. by apply sublist_inserts_l. Qed.

Definition position_text (e : Experience) : string := js_or_s (position e) "Position Title".

Lemma positions_sublist (ex : list Experience) :
  List.map position_text ex `sublist_of` List.concat (List.map texts (List.map render_experience ex)).
Proof.
  induction ex as [|e ex IH]; simpl; [done|].
  apply sublist_skip. do 6 apply sublist_cons. exact IH.
Qed.

(** For each of the six countries the preview depends on the profile
    only: the experience, education and skills lists and the selected
    template id change nothing in it. *)
Theorem country_preview_profile_only (c : Country.CountryType) (id id' : string) (fd : FormData)
    (ex : list Experience) (ed : list Education) (sk : SkillsData) :
  generatePreview (Country.code c) id fd =
  generatePreview (Country.code c) id'
    {| fd_profile := fd_profile fd; fd_experience := ex; fd_education := ed; fd_skills := sk |}.
Proof. destruct c; reflexivity. Qed.

(** C38. The default template renders the experience list item by item,
    in the list's order and without filtering (the position titles appear
    in that order among the text of the preview), and an empty list as the
    message "Add work experience to see it here.". *)
Theorem default_experience_rendering (fd : FormData) :
  List.map position_text (fd_experience fd) `sublist_of` texts (DefaultTemplate fd) /\
  (fd_experience fd = [] -> "Add work experience to see it here." ∈ texts (DefaultTemplate fd)).
Proof.
  unfold DefaultTemplate. split.
  - destruct (fd_experience fd) as [|e ex]; [apply sublist_nil_l|].
    etrans; [|apply (texts_child "div" [_; _] _ [_; _])].
    etrans; [|apply (texts_children_tail "section" [_] _)].
    apply positions_sublist.
  - intros ->. eapply elem_of_sublist; [|apply (texts_child "div" [_; _] _ [_; _])].
    simpl. set_solver.
Qed.

(** The German template prints the birth date 01.01.1990 for every
    user: the form has no birth-date field and the template writes the
    date as a constant. *)
Theorem germany_fixed_birthdate (id : string) (fd : FormData) :
  "01.01.1990" ∈ texts (generatePreview "germany" id fd).
Proof. simpl. set_solver. Qed.

(** Every country template shows the name as
    [firstName || "Your"], a space, [lastName || "Name"], consecutively. *)
Theorem country_preview_name (c : Country.CountryType) (id : string) (fd : FormData) :
  exists k1 k2, texts (generatePreview (Country.code c) id fd) =
    k1 ++ [js_or (pd_firstName (fd_profile fd)) "Your"; " "; js_or (pd_lastName (fd_profile fd)) "Name"] ++ k2.
Proof.
  destruct c; simpl.
  - eexists [], _. reflexivity.
  - eexists [], _. reflexivity.
  - eexists [], _. reflexivity.
  - eexists ["Curriculum Vitae"], _. reflexivity.
  - eexists [], _. reflexivity.
  - eexists ["Europass"; "Curriculum Vitae"; "Personal Information"], _. reflexivity.
Qed.

Lemma default_experience_rendering_witness :
  fd_experience blank_form = [] /\
  "Add work experience to see it here." ∈ texts (DefaultTemplate blank_form).
Proof. split; [reflexivity|]. apply (default_experience_rendering blank_form). reflexivity. Defined.

End Preview.
