(* ===== verification/Tips.v ===== *)
(** * The country tips of the section editors

    Each editor of [src/src/components/builder/sections] holds a table of
    tips keyed by the country code and shows the entry of the page's
    country in a tooltip or under a field: [ResumeProfileForm.tsx] and
    [ResumeSkillsForm.tsx] a tip per field ([tips[country]?.[field] || ""]),
    [ResumeEducationForm.tsx] one tip ([tips[country] || ""]),
    [ResumeExperienceForm.tsx] a format and an example, the USA's when the
    country has none ([tips[country] || tips.usa]), and the line under the
    description field.  The tables are [gmap]s from the key to the
    entry; a lookup that misses is [undefined], and [|| ""] is
    [Prelude.js_or]. *)

From S2P Require Import Prelude JsString Country Preview.
From Stdlib Require Import Ascii.

Module Tips.
Local Open Scope resume_scope.
Import Country.

Definition nl : string := String "010" EmptyString.

Definition tip3 (k1 v1 k2 v2 k3 v3 : string) : gmap string string :=
  list_to_map [(k1, v1); (k2, v2); (k3, v3)].

(** ResumeProfileForm.tsx, lines 58-89. *)
Definition profile_tips : gmap string (gmap string string) := list_to_map [
  ("canada", tip3
     "title" "Keep titles straightforward and relevant to Canadian job market"
     "summary" "Focus on achievements and skills. Keep it under 3-4 sentences for Canadian employers."
     "location" "Include city and province (e.g., Toronto, ON)");
  ("germany", tip3
     "title" "Include 'Lebenslauf' as title for German applications"
     "summary" "German employers prefer a factual, modest summary without exaggeration"
     "location" "Include full address for German applications");
  ("australia", tip3
     "title" "Use 'Professional Summary' or 'Career Profile' for Australian resumes"
     "summary" "Use the STAR method (Situation, Task, Action, Result) for Australian employers"
     "location" "City and state/territory is sufficient (e.g., Sydney, NSW)");
  ("portugal", tip3
     "title" "Consider 'Curriculum Vitae' for Portuguese/EU applications"
     "summary" "Keep it brief and factual for EU employers"
     "location" "Include full address for EU/Portuguese applications");
  ("usa", tip3
     "title" "Use 'Resume' for US applications"
     "summary" "Be direct and highlight achievements with quantifiable results for US employers"
     "location" "City and state is sufficient (e.g., Boston, MA)");
  ("eu", tip3
     "title" "Use 'Europass CV' for standardized EU format"
     "summary" "Follow Europass guidelines for personal statements"
     "location" "Include full address for EU applications")].

(** [getCountryTip(field)], line 91. *)
Definition profileTip (country : CountryType) (field : string) : string :=
  (profile_tips !! code country ≫= lookup field) ?|| "".

(** ResumeSkillsForm.tsx, lines 81-112. *)
Definition skills_tips : gmap string (gmap string string) := list_to_map [
  ("canada", tip3
     "technical" "For Canadian employers, list technical skills that match the job description and include proficiency levels."
     "soft" "Canadian employers value communication and teamwork. Include contextual soft skills."
     "languages" "Specify language proficiency levels (e.g., English: Fluent, French: Intermediate).");
  ("germany", tip3
     "technical" "German employers prefer detailed technical skills with explicit proficiency levels."
     "soft" "List practical soft skills rather than personality traits. Be specific."
     "languages" "Include CEFR levels (A1-C2) for language proficiency. German language skills are highly valued.");
  ("australia", tip3
     "technical" "Australian employers focus on practical skills. Group them by category."
     "soft" "Include adaptability and problem-solving skills for Australian work culture."
     "languages" "Mention any language skills with proficiency levels.");
  ("portugal", tip3
     "technical" "Follow Europass format with self-assessment levels for technical skills."
     "soft" "Focus on collaboration and adaptability skills for Portuguese/EU employers."
     "languages" "Use CEFR levels (A1-C2) for all listed languages.");
  ("usa", tip3
     "technical" "US employers scan for keywords. Include all relevant technical skills that match the job description."
     "soft" "Include leadership and initiative-focused soft skills for US employers."
     "languages" "Only highlight fluent or business-level language skills.");
  ("eu", tip3
     "technical" "Follow Europass format with detailed skill categorization."
     "soft" "Include intercultural communication and adaptability skills."
     "languages" "Use CEFR levels (A1-C2) for all languages as per Europass standards.")].

(** [getCountryTip(skillType)], line 114. *)
Definition skillsTip (country : CountryType) (skillType : string) : string :=
  (skills_tips !! code country ≫= lookup skillType) ?|| "".

(** ResumeEducationForm.tsx, lines 81-88. *)
Definition education_tips : gmap string string := list_to_map [
  ("canada", "For Canadian employers, focus on the degree name and field of study. Include GPA if it's strong.");
  ("germany", "German employers value formal education. Include your overall grade and detailed course information.");
  ("australia", "For Australian employers, highlight relevant coursework and achievements. Use full degree names.");
  ("portugal", "For Portuguese/EU applications, follow Europass format and include detailed information about courses.");
  ("usa", "US employers focus on degree and institution prestige. Include GPA if 3.0+.");
  ("eu", "Follow Europass CV standards with complete details about qualifications and courses.")].

(** [getCountryTip()], line 90. *)
Definition educationTip (country : CountryType) : string :=
  (education_tips !! code country) ?|| "".

Record ExpTip := { format : string; example : string }.

(** ResumeExperienceForm.tsx, lines 75-100; ["\n"] is [nl]. *)
Definition experience_tips : gmap string ExpTip := list_to_map [
  ("canada", {| format := "Use bullet points with action verbs and quantifiable achievements";
                example := "• Increased website conversion rate by 25% through UI/UX improvements" +:+ nl +:+
                           "• Managed a team of 5 developers to deliver project on time and under budget" |});
  ("germany", {| format := "Be precise and factual. Focus on responsibilities and skills acquired";
                 example := "Verantwortlich für die Entwicklung und Wartung der Firmenwebsite. Erworbene Fähigkeiten: JavaScript, React, TypeScript." |});
  ("australia", {| format := "Use the STAR method (Situation, Task, Action, Result)";
                   example := "• Situation: Company faced declining online engagement" +:+ nl +:+
                              "• Task: Redesign user experience flow" +:+ nl +:+
                              "• Action: Implemented A/B testing and user feedback loops" +:+ nl +:+
                              "• Result: 40% increase in user retention" |});
  ("portugal", {| format := "Be concise and formal. List main responsibilities and achievements";
                  example := "Desenvolvimento de aplicações web utilizando React e TypeScript. Responsável pela implementação de novas funcionalidades e otimização de desempenho." |});
  ("usa", {| format := "Use strong action verbs and quantify results whenever possible";
             example := "• Spearheaded development of new CRM system resulting in 35% efficiency increase" +:+ nl +:+
                        "• Orchestrated migration to cloud infrastructure saving $50K annually" |});
  ("eu", {| format := "Follow Europass CV format with clear, concise descriptions";
            example := "Main activities and responsibilities:" +:+ nl +:+ "- Development of web applications" +:+ nl +:+
                       "- Project management" +:+ nl +:+ "- Client communication" |})].

(** [getCountryTip()], line 102: an object is truthy, so the USA's entry
    is taken only when the country has none. *)
Definition experienceTip (country : CountryType) : option ExpTip :=
  match experience_tips !! code country with
  | Some t => Some t
  | None => experience_tips !! "usa"
  end.

(** [String.prototype.toUpperCase], code unit by code unit. *)
Fixpoint toUpperCase (s : string) : string :=
  match s with
  | EmptyString => EmptyString
  | String c s' => String (Preview.upper_char c) (toUpperCase s')
  end.

(** The line under each description field, line 235. *)
Definition description_hint (country : CountryType) : string :=
  "Tip: Use bullet points (•) and follow the " +:+
  (if decide (country = australia) then "STAR" else "recommended") +:+
  " format for " +:+ toUpperCase (code country) +:+ " employers.".

(** * Theorems *)

(** Every table has an entry for each of the six countries and for each
    field the editors ask about, so no editor ever shows an empty tip and
    the experience editor never falls back to the USA's entry. *)
Theorem tips_complete (c : CountryType) :
  Forall (fun f => profileTip c f <> "") ["title"; "location"; "summary"] /\
  Forall (fun t => skillsTip c t <> "") ["technical"; "soft"; "languages"] /\
  educationTip c <> "" /\
  is_Some (experience_tips !! code c) /\ experienceTip c = experience_tips !! code c.
Proof.
  split; [|split; [|split; [|split]]];
    try (apply (bool_decide_unpack _); destruct c; vm_compute; reflexivity).
  destruct c; vm_compute; reflexivity.
Qed.

(** The line under the description field names the STAR format for
    Australia only, and the country code in capitals. *)
Lemma description_hints :
  List.map (fun c => (if decide (c = australia) then "STAR" else "recommended", toUpperCase (code c)))
           all_countries =
    [("recommended", "CANADA"); ("recommended", "GERMANY"); ("STAR", "AUSTRALIA");
     ("recommended", "PORTUGAL"); ("recommended", "USA"); ("recommended", "EU")].
Proof. vm_compute. reflexivity. Qed.

End Tips.
