(* ===== verification/Builder.v ===== *)
(** * The builder page: the orchestrator of the components

    [Module Builder] models [src/src/pages/ResumeBuilder.tsx] together
    with the part of each child's mounting that the page decides: the
    country tabs of [TemplateSelection] keep their own selected tab
    ([defaultValue], read once at mount), and the tab contents of the
    page are mounted only while their tab is active, so an editor's local
    state is initialised again from [formData] each time its tab is
    opened.  The state is explicit: the page's [useState] hooks, the URL
    parameters, the persistence slot, the mounted editor and the DOM the
    export reads.  [step] runs one user event, [enabled] says which events
    the rendered page offers, and [reachable] is the session from the
    mount. *)

From S2P Require Import Prelude JsString Country PdfExport Sections Forms Templates Preview.

Module Builder.
Import Country PdfExport Forms Preview.
#[local] Existing Instance SectionReorder.SectionType_eq_dec.

Inductive OuterTab := TabContent | TabSections.

#[export] Instance OuterTab_eq_dec : EqDecision OuterTab.
Proof. solve_decision. Defined.

(** The child mounted in the left panel, with its local state. *)
Inductive Mounted :=
  | MProfile (p : Profile)
  | MExperience (l : list Experience)
  | MEducation (l : list Education)
  | MSkills (s : SkillsState)
  | MSections (s : SectionReorder.State)
  | MNone.

(** The object [handleSave] writes to [localStorage['resumeData']]. *)
Record Saved := {
  sv_country : CountryType;
  sv_templateId : string;
  sv_formData : FormData;
  sv_sections : list SectionReorder.ResumeSection
}.

Inductive Toast := ToastSuccess (m : string) | ToastError (m : string).

Section BuilderState.
Context {Node : Type}.

Record State := {
  country : CountryType;
  templateId : string;
  activeSection : SectionReorder.SectionType;
  outerTab : OuterTab;
  selectorTab : CountryType;
  formData : FormData;
  sections : list SectionReorder.ResumeSection;
  isDirty : bool;
  searchParams : list (string * string);
  storage : option Saved;
  mounted : Mounted;
  dom : Dom Node
}.

End BuilderState.
Arguments State : clear implicits.

(** Lines 25-35: [{ profile: {}, experience: [], education: [], skills: {...} }]. *)
Definition initialFormData : FormData := {|
  fd_profile := empty_profile_data; fd_experience := []; fd_education := [];
  fd_skills := {| sd_technical := []; sd_soft := []; sd_languages := [] |}
|}.

(** The tab contents of lines 166-222: the outer tab [sections] mounts
    [SectionReorder] with its initial state; the outer tab [content]
    mounts the editor of the active inner tab with [data={formData.x}].
    An array is truthy in JavaScript, so [data || [blank]] keeps the
    parent's list, the empty one included. *)
Definition mount (outer : OuterTab) (active : SectionReorder.SectionType) (fd : FormData) : Mounted :=
  match outer with
  | TabSections => MSections SectionReorder.init
  | TabContent =>
      match active with
      | SectionReorder.profile => MProfile (profile_of_data (fd_profile fd))
      | SectionReorder.experience => MExperience (init_list (Some (fd_experience fd)))
      | SectionReorder.education => MEducation (init_list (Some (fd_education fd)))
      | SectionReorder.skills => MSkills (init_skills (Some (fd_skills fd)))
      | _ => MNone
      end
  end.

(** The second effect (lines 54-59): the query string follows the state. *)
Definition url_of (c : CountryType) (templateId : string) : list (string * string) :=
  [("country", Country.code c); ("template", templateId)].

(** The right panel, lines 239-243: the preview of the page's country,
    template id and form data. *)
Definition preview {Node} (st : State Node) : VNode :=
  ResumePreview (Country.code (country st)) (templateId st) (formData st).

(** How React turns the preview tree into the node of the document. *)
Class Render (Node : Type) := render : VNode -> Node.

Section Handlers.
Context {Node : Type} `{Render Node}.

(** React's commit after the page's state changes: the element
    [resume-preview-content] of the document shows the current preview
    (the preview's effect has run). *)
Definition commit (st : State Node) : State Node :=
  {| country := country st; templateId := templateId st; activeSection := activeSection st;
     outerTab := outerTab st; selectorTab := selectorTab st; formData := formData st;
     sections := sections st; isDirty := isDirty st; searchParams := searchParams st;
     storage := storage st; mounted := mounted st;
     dom := match getElementById (dom st) "resume-preview-content" with
            | Some l => {| dom_ids := dom_ids (dom st);
                           dom_heap := <[l := render (preview st)]> (dom_heap (dom st));
                           dom_next := dom_next (dom st) |}
            | None => dom st
            end |}.

Definition with_selection (c : CountryType) (tid : string) (st : State Node) : State Node :=
  {| country := c; templateId := tid; activeSection := activeSection st; outerTab := outerTab st;
     selectorTab := selectorTab st; formData := formData st; sections := sections st;
     isDirty := isDirty st; searchParams := url_of c tid; storage := storage st;
     mounted := mounted st; dom := dom st |}.

Definition with_content (fd : FormData) (secs : list SectionReorder.ResumeSection) (dirty : bool)
    (m : Mounted) (st : State Node) : State Node :=
  {| country := country st; templateId := templateId st; activeSection := activeSection st;
     outerTab := outerTab st; selectorTab := selectorTab st; formData := fd; sections := secs;
     isDirty := dirty; searchParams := searchParams st; storage := storage st; mounted := m;
     dom := dom st |}.

Definition with_tabs (outer : OuterTab) (active : SectionReorder.SectionType) (sel : CountryType)
    (m : Mounted) (st : State Node) : State Node :=
  {| country := country st; templateId := templateId st; activeSection := active;
     outerTab := outer; selectorTab := sel; formData := formData st; sections := sections st;
     isDirty := isDirty st; searchParams := searchParams st; storage := storage st; mounted := m;
     dom := dom st |}.

(** The mount (lines 22-59) on a page whose URL has [country] and
    [template] parameters [cp] and [tp], whose persistence slot holds
    [slot] and whose document is [d].  The first render mounts the
    country selector with [defaultValue="usa"]; then the first effect
    accepts [cp] when it is one of the six codes and [tp] when it is a
    non-empty string, and the second effect writes the URL. *)
Definition init (cp tp : option string) (slot : option Saved) (d : Dom Node) : State Node :=
  let c := default usa (cp ≫= Country.parse) in
  let tid := match tp with Some s => js_or_s s "usa-professional" | None => "usa-professional" end in
  commit {| country := c; templateId := tid; activeSection := SectionReorder.profile;
            outerTab := TabContent; selectorTab := usa; formData := initialFormData; sections := [];
            isDirty := false; searchParams := url_of c tid; storage := slot;
            mounted := mount TabContent SectionReorder.profile initialFormData; dom := d |}.

(** Lines 62-66. *)
Definition handleCountryChange (newCountry : CountryType) (st : State Node) : State Node :=
  with_selection newCountry (Country.code newCountry +:+ "-professional") st.

(** Lines 69-71. *)
Definition handleTemplateChange (newTemplateId : string) (st : State Node) : State Node :=
  with_selection (country st) newTemplateId st.

(** The slice of [formData] an editor reports (line 77: [[sectionType]: data]). *)
Inductive Slice :=
  | SProfile (p : ProfileData)
  | SExperience (l : list Experience)
  | SEducation (l : list Education)
  | SSkills (s : SkillsData).

Definition set_slice (s : Slice) (fd : FormData) : FormData :=
  match s with
  | SProfile p => {| fd_profile := p; fd_experience := fd_experience fd;
                     fd_education := fd_education fd; fd_skills := fd_skills fd |}
  | SExperience l => {| fd_profile := fd_profile fd; fd_experience := l;
                        fd_education := fd_education fd; fd_skills := fd_skills fd |}
  | SEducation l => {| fd_profile := fd_profile fd; fd_experience := fd_experience fd;
                       fd_education := l; fd_skills := fd_skills fd |}
  | SSkills k => {| fd_profile := fd_profile fd; fd_experience := fd_experience fd;
                    fd_education := fd_education fd; fd_skills := k |}
  end.

(** Lines 74-80, with the editor's new local state [m]. *)
Definition handleFormDataChange (s : Slice) (m : Mounted) (st : State Node) : State Node :=
  with_content (set_slice s (formData st)) (sections st) true m st.

(** Lines 83-86. *)
Definition handleSectionsChange (updated : list SectionReorder.ResumeSection) (m : Mounted)
    (st : State Node) : State Node :=
  with_content (formData st) updated true m st.

(** Lines 89-100. *)
Definition handleSave (st : State Node) : State Node * Toast :=
  ({| country := country st; templateId := templateId st; activeSection := activeSection st;
      outerTab := outerTab st; selectorTab := selectorTab st; formData := formData st;
      sections := sections st; isDirty := false; searchParams := searchParams st;
      storage := Some {| sv_country := country st; sv_templateId := templateId st;
                         sv_formData := formData st; sv_sections := sections st |};
      mounted := mounted st; dom := dom st |},
   ToastSuccess "Resume saved successfully").

End Handlers.

Section Export.
Context {Node : Type} `{Html2Pdf Node} `{Render Node}.

(** Lines 106-110: the name handed to the pipeline. *)
Definition export_filename (fd : FormData) : string :=
  let p := fd_profile fd in
  generateATSFilename (js_or (pd_firstName p) "Resume") (js_or (pd_lastName p) "")
                      (Some (js_or (pd_title p) "")).

Definition export_options (st : State Node) : ExportOptions := {|
  opt_filename := Some (export_filename (formData st));
  opt_pageSize := Some (getRecommendedPageSize (Country.code (country st)));
  opt_margin := Some (MarginAll 10);
  opt_includeDate := Some true
|}.

(** Lines 103-128: the pipeline runs to its end before the next event (it
    writes nothing of the page's state after its [await]); a rejection is
    caught by the [catch] of line 124. *)
Definition handleExport (iso : string) (st : State Node) : State Node * Toast :=
  let '(d', out) := exportResumeToPDF (dom st) iso "resume-preview-content" (export_options st) in
  let st' := {| country := country st; templateId := templateId st;
                activeSection := activeSection st; outerTab := outerTab st;
                selectorTab := selectorTab st; formData := formData st; sections := sections st;
                isDirty := isDirty st; searchParams := searchParams st; storage := storage st;
                mounted := mounted st; dom := d' |} in
  match out with
  | Resolved (ExportSuccess f) => (st', ToastSuccess ("PDF exported successfully as " +:+ f))
  | Resolved (ExportFailure e) => (st', ToastError ("Failed to export PDF: " +:+ e))
  | Rejected _ => (st', ToastError "An error occurred during PDF export")
  end.

(** ** Events *)

Inductive Event :=
  | SelectCountry (c : CountryType)
  | SelectTemplate (id : string)
  | OuterTabClick (o : OuterTab)
  | InnerTabClick (s : SectionReorder.SectionType)
  | ProfileInput (f : ProfileField) (v : string)
  | ExperienceInput (ev : ListEvent ExpChange)
  | EducationInput (ev : ListEvent EduChange)
  | SkillsInput (ev : SkillsEvent)
  | SectionsInput (ev : SectionReorder.Event)
  | SaveClick
  | ExportClick (iso : string).

Definition notify_or {A} (n : option A) (mk : A -> Slice) (m : Mounted) (st : State Node)
    : State Node :=
  match n with
  | Some x => handleFormDataChange (mk x) m st
  | None => with_content (formData st) (sections st) (isDirty st) m st
  end.

(** One event.  A tab click on the tab already shown changes nothing
    (Radix calls [onValueChange] only for a new value); a new outer or
    inner tab unmounts the old content and mounts the new one. *)
Definition dispatch (ev : Event) (st : State Node) : State Node * option Toast :=
  match ev, mounted st with
  | SelectCountry c, _ =>
      (handleCountryChange c (with_tabs (outerTab st) (activeSection st) c (mounted st) st), None)
  | SelectTemplate id, _ => (handleTemplateChange id st, None)
  | OuterTabClick o, _ =>
      (if decide (o = outerTab st) then st
       else with_tabs o (activeSection st) (selectorTab st) (mount o (activeSection st) (formData st)) st,
       None)
  | InnerTabClick s, _ =>
      (if decide (s = activeSection st) then st
       else with_tabs (outerTab st) s (selectorTab st) (mount (outerTab st) s (formData st)) st,
       None)
  | ProfileInput f v, MProfile p =>
      let '(p', n) := handleProfileChange f v p in
      (notify_or n (fun q => SProfile (data_of_profile q)) (MProfile p') st, None)
  | ExperienceInput e, MExperience l =>
      let '(l', n) := experience_handle e l in (notify_or n SExperience (MExperience l') st, None)
  | EducationInput e, MEducation l =>
      let '(l', n) := education_handle e l in (notify_or n SEducation (MEducation l') st, None)
  | SkillsInput e, MSkills k =>
      let '(k', n) := skills_handle e k in (notify_or n SSkills (MSkills k') st, None)
  | SectionsInput e, MSections s =>
      match SectionReorder.handle (country st) e s with
      | Some (s', Some l) => (handleSectionsChange l (MSections s') st, None)
      | Some (s', None) => (with_content (formData st) (sections st) (isDirty st) (MSections s') st, None)
      | None => (st, None)
      end
  | SaveClick, _ => let '(st', m) := handleSave st in (st', Some m)
  | ExportClick iso, _ => let '(st', m) := handleExport iso st in (st', Some m)
  | _, _ => (st, None)
  end.

(** The event, then the render it causes. *)
Definition step (ev : Event) (st : State Node) : State Node * option Toast :=
  let '(st', t) := dispatch ev st in (commit st', t).

Definition list_enabled {E C} `{Entry E} (ev : ListEvent C) (l : list E) : bool :=
  match ev with
  | LAdd _ => true
  | LRemove id => bool_decide (1 < length l) && bool_decide (id ∈ List.map entry_id l)
  | LChange id _ => bool_decide (id ∈ List.map entry_id l)
  end.

Definition skills_enabled (ev : SkillsEvent) (k : SkillsState) : bool :=
  match ev with
  | SetTab tab => bool_decide (tab ∈ ["technical"; "soft"; "languages"])
  | TypeSkill _ | AddSkill => true
  | RemoveSkill skill ty =>
      bool_decide (ty = activeTab k) &&
      bool_decide (skill ∈ default [] (tab_get ty (skills_of k)))
  end.

(** The events the rendered page offers: the selector's tabs (no [eu]) for
    a country other than its own tab, the cards of its own tab, the two
    outer tabs, the four inner tabs while the content tab is shown, the
    controls of the mounted editor, Save while [isDirty] (line 149:
    [disabled={!isDirty}]), and the two Export buttons. *)
Definition enabled (st : State Node) (ev : Event) : bool :=
  match ev, mounted st with
  | SelectCountry c, _ =>
      bool_decide (c ∈ List.map TemplateSelection.ci_code TemplateSelection.countries) &&
      bool_decide (c <> selectorTab st)
  | SelectTemplate id, _ => bool_decide (id ∈ TemplateSelection.template_ids (selectorTab st))
  | OuterTabClick _, _ => true
  | InnerTabClick s, _ =>
      bool_decide (outerTab st = TabContent) &&
      bool_decide (s ∈ [SectionReorder.profile; SectionReorder.experience;
                        SectionReorder.education; SectionReorder.skills])
  | ProfileInput _ _, MProfile _ => true
  | ExperienceInput e, MExperience l => list_enabled e l
  | EducationInput e, MEducation l => list_enabled e l
  | SkillsInput e, MSkills k => skills_enabled e k
  | SectionsInput e, MSections s => SectionReorder.enabled s e
  | SaveClick, _ => isDirty st
  | ExportClick _, _ => true
  | _, _ => false
  end.

Fixpoint run (evs : list Event) (st : State Node) : State Node :=
  match evs with
  | [] => st
  | ev :: evs => run evs (step ev st).1
  end.

(** Every event of the sequence is offered when it is run. *)
Fixpoint run_enabled (evs : list Event) (st : State Node) : bool :=
  match evs with
  | [] => true
  | ev :: evs => enabled st ev && run_enabled evs (step ev st).1
  end.

(** The state with its persistence slot replaced. *)
Definition set_storage (slot : option Saved) (st : State Node) : State Node :=
  {| country := country st; templateId := templateId st; activeSection := activeSection st;
     outerTab := outerTab st; selectorTab := selectorTab st; formData := formData st;
     sections := sections st; isDirty := isDirty st; searchParams := searchParams st;
     storage := slot; mounted := mounted st; dom := dom st |}.

(** A session: the mount on any URL, slot and well-formed document, then
    events the page offers. *)
Inductive reachable : State Node -> Prop :=
  | reach_init cp tp slot d : dom_wf d -> reachable (init cp tp slot d)
  | reach_step st ev : reachable st -> enabled st ev = true -> reachable (step ev st).1.

(** The stored snapshot agrees with the content of the page. *)
Definition saved_matches (st : State Node) : Prop :=
  match storage st with
  | Some sv => sv_formData sv = formData st /\ sv_sections sv = sections st
  | None => False
  end.

Definition pristine (st : State Node) : Prop :=
  formData st = initialFormData /\ sections st = [].

(** The mounted editor shows what the page holds, for the editors that
    report every change. *)
Definition editor_agrees (st : State Node) : Prop :=
  match mounted st with
  | MProfile p => profile_of_data (fd_profile (formData st)) = p
  | MEducation l => l = fd_education (formData st)
  | MSkills k => skills_of k = fd_skills (formData st)
  | _ => True
  end.

(** The preview element shows the page's current preview. *)
Definition synced (st : State Node) : Prop :=
  forall l, getElementById (dom st) "resume-preview-content" = Some l ->
            dom_heap (dom st) !! l = Some (render (preview st)).

(** ** The specification's session machine (spec section 4.5)

    [Idle -> Editing] on a mutation, [Editing -> Saved] on save,
    [Saved -> Editing] on the next mutation; export changes nothing.  The
    status of a session is tracked beside the page by [greachable]: it is
    [Editing] when the page's flag is set, [Saved] after a save, and
    otherwise stays what it was. *)
Inductive Status := SIdle | SEditing | SSaved.

Inductive spec_step : Status -> Status -> Prop :=
  | spec_stay s : spec_step s s
  | spec_edit s : spec_step s SEditing
  | spec_save : spec_step SEditing SSaved.

Definition next_status (s : Status) (ev : Event) (st' : State Node) : Status :=
  if isDirty st' then SEditing else match ev with SaveClick => SSaved | _ => s end.

Inductive greachable : Status -> State Node -> Prop :=
  | g_init cp tp slot d : dom_wf d -> greachable SIdle (init cp tp slot d)
  | g_step s st ev : greachable s st -> enabled st ev = true ->
      greachable (next_status s ev (step ev st).1) (step ev st).1.

End Export.


(** ** Fixtures: a document holding the preview element, a rasteriser
    that succeeds without touching its input, and a renderer into it. *)
#[local] Instance unit_h2p : Html2Pdf unit := {| h2p_save v _ := (v, None) |}.
#[local] Instance unit_render : Render unit := fun _ => tt.

Definition page_dom : Dom unit := {|
  dom_ids := {["resume-preview-content" := 1%positive]};
  dom_heap := {[1%positive := tt]};
  dom_next := 2%positive
|}.

Definition blank_dom : Dom unit := {| dom_ids := ∅; dom_heap := ∅; dom_next := 1%positive |}.

(** Type a first name, save, then pick Canada in the selector. *)
Definition save_then_select : list Event :=
  [ProfileInput PFirstName "Ada"; SaveClick; SelectCountry canada].

Definition fresh_page : State unit := init None None None page_dom.

(** Add a custom section, then open the content tab. *)
Definition custom_then_leave : list Event :=
  [OuterTabClick TabSections; SectionsInput SectionReorder.OpenAdd;
   SectionsInput (SectionReorder.TypeTitle "Volunteering");
   SectionsInput (SectionReorder.AddCustom 1700000000000%N);
   OuterTabClick TabContent].

(** ** Theorems *)

(** Unfold one step of the page down to its record of fields. *)
Ltac step_cases :=
  unfold step, dispatch, commit, handleExport, handleSave, notify_or, handleFormDataChange,
    handleSectionsChange, handleCountryChange, handleTemplateChange in *;
  repeat (case_match; simpl in *; simplify_eq); simpl; auto.

Section BuilderTheorems.
Context {Node : Type} `{Html2Pdf Node} `{Render Node}.

Lemma step_url (ev : Event) (st : State Node) :
  searchParams st = url_of (country st) (templateId st) ->
  searchParams (step ev st).1 = url_of (country (step ev st).1) (templateId (step ev st).1).
Proof. intros Hu. destruct ev; step_cases. Qed.

(** C11. The query string always shows the page's country and template
    id: the mount writes it and every change of either writes it again. *)
Theorem reachable_url (st : State Node) :
  reachable st -> searchParams st = url_of (country st) (templateId st).
Proof. induction 1; [done|]. by apply step_url. Qed.

Lemma step_content (ev : Event) (st : State Node) :
  let st' := (step ev st).1 in
  (formData st' = formData st /\ sections st' = sections st /\
   isDirty st' = isDirty st /\ storage st' = storage st) \/
  isDirty st' = true \/ (isDirty st' = false /\ saved_matches st').
Proof. destruct ev; step_cases; unfold saved_matches; simpl; auto. Qed.

(** C9. The dirty flag is cleared only when nothing is left to save: a
    page whose flag is clear shows either the content it was mounted with
    or the content of the last snapshot written to the slot. *)
Theorem reachable_clean (st : State Node) :
  reachable st -> isDirty st = false -> pristine st \/ saved_matches st.
Proof.
  induction 1 as [cp tp slot d _|st ev _ IH _]; [by left|].
  destruct (step_content ev st) as [(Hf & Hs & Hd & Hst)|[Hd|[_ Hm]]];
    [|intros Hc; congruence|by right].
  intros Hc. rewrite Hd in Hc. destruct (IH Hc) as [[Hf0 Hs0]|Hm]; [left|right].
  - unfold pristine. by rewrite Hf, Hs.
  - unfold saved_matches in *. by rewrite Hst, Hf, Hs.
Qed.

(** C15. Export leaves the page as it was, the document apart: the dirty
    flag, the slot, the content, the selection and the URL are unchanged. *)
Theorem export_keeps_status (iso : string) (st : State Node) :
  let st' := (step (ExportClick iso) st).1 in
  isDirty st' = isDirty st /\ storage st' = storage st /\ formData st' = formData st /\
  sections st' = sections st /\ country st' = country st /\ templateId st' = templateId st /\
  searchParams st' = searchParams st.
Proof. step_cases; repeat split. Qed.

Lemma step_fst (ev : Event) (st : State Node) : (step ev st).1 = commit (dispatch ev st).1.
Proof. unfold step. by destruct (dispatch ev st). Qed.

Lemma step_toast (ev : Event) (st : State Node) : (step ev st).2 = (dispatch ev st).2.
Proof. unfold step. by destruct (dispatch ev st). Qed.

(** Export from the page when the preview element holds [v]. *)
Lemma export_toast_of (iso : string) (st : State Node) l v :
  getElementById (dom st) "resume-preview-content" = Some l -> dom_heap (dom st) !! l = Some v ->
  let name := fullFilename (export_filename (formData st)) true iso in
  (step (ExportClick iso) st).2 =
    Some (match snd (h2p_save v (pdfOptions (MarginAll 10) name
                                  (getRecommendedPageSize (Country.code (country st))))) with
          | None => ToastSuccess ("PDF exported successfully as " +:+ name)
          | Some e => ToastError ("Failed to export PDF: " +:+ error_message e)
          end).
Proof.
  intros Hg Hv. rewrite step_toast. simpl. unfold handleExport, exportResumeToPDF. rewrite Hg.
  unfold cloneNode. rewrite Hv. simpl. unfold run_h2p. simpl.
  rewrite lookup_insert_eq. by destruct (h2p_save v _) as [v' [e|]].
Qed.

Lemma commit_synced (st : State Node) : synced (commit st).
Proof.
  unfold synced, commit. simpl. intros l Hl.
  destruct (getElementById (dom st) _) as [l0|] eqn:E; simpl in *; [|congruence].
  apply getElementById_Some in Hl as [Hid _]. apply getElementById_Some in E as [Hid0 _].
  simpl in Hid. rewrite Hid0 in Hid. injection Hid as ->. apply lookup_insert_eq.
Qed.

Lemma reachable_synced (st : State Node) : reachable st -> synced st.
Proof.
  destruct 1 as [cp tp slot d _|st ev _ _]; [apply commit_synced|].
  unfold step. destruct (dispatch ev st). apply commit_synced.
Qed.

(** C10. What you see is what you export: in every session, when the
    document holds the preview element, html2pdf is given a copy of the
    preview the page currently renders, with the page size of the page's
    country and the name built from the profile ([firstName || "Resume"],
    [lastName || ""], [title || ""]) and today's date, and the toast
    reports that name or the rasteriser's error. *)
Theorem export_renders_preview (iso : string) (st : State Node) l :
  reachable st -> getElementById (dom st) "resume-preview-content" = Some l ->
  let name := fullFilename (export_filename (formData st)) true iso in
  (step (ExportClick iso) st).2 =
    Some (match snd (h2p_save (render (preview st))
                       (pdfOptions (MarginAll 10) name
                          (getRecommendedPageSize (Country.code (country st))))) with
          | None => ToastSuccess ("PDF exported successfully as " +:+ name)
          | Some e => ToastError ("Failed to export PDF: " +:+ error_message e)
          end).
Proof. intros Hr Hg. apply (export_toast_of iso st l); [done|]. by apply reachable_synced. Qed.

(** C28. Without the preview element the pipeline rejects, and the page
    shows its generic message instead of the pipeline's "not found" text. *)
Theorem export_without_preview (iso : string) (st : State Node) :
  getElementById (dom st) "resume-preview-content" = None ->
  step (ExportClick iso) st = (st, Some (ToastError "An error occurred during PDF export")).
Proof.
  intros Hn. unfold step, dispatch, handleExport, exportResumeToPDF. rewrite Hn.
  unfold commit. simpl. rewrite Hn. by destruct st.
Qed.

(** C29. Choosing a country in the selector selects the template
    [<country>-professional], which is one of the country's cards only for
    Canada, Australia and the USA: for Germany and Portugal no card is
    highlighted and the badge shows an id of no template. *)
Theorem country_change_default_template (c : CountryType) (st : State Node) :
  templateId (handleCountryChange c st) ∈ TemplateSelection.template_ids c <->
  c ∈ [canada; australia; usa].
Proof. refine (bool_decide_iff _ _ _). by destruct c. Qed.

(** C30. An entry added in the experience editor is not reported to the
    page, so leaving the tab and coming back mounts the editor again from
    the page's list, without the entry. *)
Theorem tab_switch_drops_added_entry (st : State Node) (l : list Experience) (now : N) :
  outerTab st = TabContent -> activeSection st = SectionReorder.experience ->
  mounted st = MExperience l ->
  let st' := run [ExperienceInput (LAdd now); InnerTabClick SectionReorder.profile;
                  InnerTabClick SectionReorder.experience] st in
  mounted st' = MExperience (fd_experience (formData st)) /\ formData st' = formData st.
Proof.
  intros Ho Ha Hm. cbn [run]. rewrite !step_fst. cbn [dispatch]. rewrite Hm. simpl.
  rewrite Ha, Ho. done.
Qed.

Lemma handleExport_set_storage (iso : string) (st : State Node) (slot : option Saved) :
  handleExport iso (set_storage slot st) =
    (set_storage slot (handleExport iso st).1, (handleExport iso st).2).
Proof.
  unfold handleExport. change (dom (set_storage slot st)) with (dom st).
  change (export_options (set_storage slot st)) with (export_options st).
  by destruct (exportResumeToPDF _ _ _ _) as [d' [[f|e]|x]].
Qed.

Lemma step_set_storage (ev : Event) (st : State Node) (slot : option Saved) :
  (step ev (set_storage slot st)).2 = (step ev st).2 /\
  (step ev (set_storage slot st)).1 =
    set_storage (storage (step ev (set_storage slot st)).1) (step ev st).1.
Proof.
  destruct ev as [| | | | | | | | | |iso]; try (destruct st; step_cases; fail).
  unfold step, dispatch. rewrite handleExport_set_storage.
  by destruct (handleExport iso st).
Qed.

(** C36. The persistence slot is written and never read: two sessions that
    differ only in what the slot held at the mount go through the same
    events to states that differ in the slot only, so the content, the
    preview and what is exported are those of a fresh page whatever the
    user saved before. *)
Theorem slot_never_read (evs : list Event) (cp tp : option string) (slot : option Saved) (d : Dom Node) :
  run evs (init cp tp slot d) =
    set_storage (storage (run evs (init cp tp slot d))) (run evs (init cp tp None d)).
Proof.
  change (init cp tp slot d) with (set_storage slot (init cp tp None d)).
  generalize (init cp tp None d) slot. induction evs as [|ev evs IH]; intros st s; [done|].
  cbn [run]. destruct (step_set_storage ev st s) as [_ ->]. apply IH.
Qed.

(** Opened from the page, the experience editor starts with no
    entry at all: the page's [[]] is truthy, so the editor's default of one
    blank entry ([init_list None]) is never used. *)
Theorem experience_editor_starts_empty (cp tp : option string) (slot : option Saved) (d : Dom Node) :
  mounted (step (InnerTabClick SectionReorder.experience) (init cp tp slot d)).1 = MExperience [] /\
  init_list (E := Experience) None = [blank "1"].
Proof. done. Qed.

(** C32. A deep link with a valid [country] parameter sets the page's
    country, but the selector keeps the tab it was mounted with, USA: it
    shows the USA cards, and its USA tab cannot be chosen. *)
Theorem deep_link_selector_tab (p : string) (c : CountryType) tp slot (d : Dom Node) :
  Country.parse p = Some c ->
  let st := init (Some p) tp slot d in
  country st = c /\ selectorTab st = usa /\ enabled st (SelectCountry usa) = false.
Proof. intros Hp. simpl. by rewrite Hp. Qed.

(** Editing the section list marks the page dirty but changes
    neither the preview nor what is exported: neither reads [sections]. *)
Theorem sections_not_rendered (e : SectionReorder.Event) (st : State Node) :
  let st' := (step (SectionsInput e) st).1 in
  preview st' = preview st /\ export_options st' = export_options st.
Proof. step_cases. Qed.

Lemma mount_agrees o a sel (st : State Node) :
  editor_agrees (with_tabs o a sel (mount o a (formData st)) st).
Proof.
  unfold editor_agrees. destruct o, a; simpl; try done.
  by destruct (fd_skills (formData st)).
Qed.

Lemma skills_notify e (k k' : SkillsState) n :
  skills_handle e k = (k', n) -> default (skills_of k) n = skills_of k'.
Proof.
  destruct e as [tab|v| |skill ty]; simpl.
  - by intros [= <- <-].
  - by intros [= <- <-].
  - unfold handleAddSkill. repeat case_bool_decide; by intros [= <- <-].
  - unfold handleRemoveSkill. repeat case_bool_decide; by intros [= <- <-].
Qed.

Lemma step_agrees (ev : Event) (st : State Node) :
  editor_agrees st -> editor_agrees (step ev st).1.
Proof.
  intros Hag. rewrite step_fst. change (editor_agrees (dispatch ev st).1).
  destruct ev; simpl; try exact Hag.
  - case_decide; [exact Hag|apply mount_agrees].
  - case_decide; [exact Hag|apply mount_agrees].
  - destruct (mounted st); try exact Hag. unfold editor_agrees; simpl. apply profile_roundtrip.
  - destruct (mounted st); try exact Hag. by destruct (experience_handle _ _), o.
  - destruct (mounted st) eqn:Hm; try exact Hag.
    destruct (education_handle ev l) as [l' n] eqn:E. apply education_notify in E.
    unfold editor_agrees in *. rewrite Hm in Hag. destruct n; simpl in *; congruence.
  - destruct (mounted st) eqn:Hm; try exact Hag.
    destruct (skills_handle ev s) as [k' n] eqn:E. apply skills_notify in E.
    unfold editor_agrees in *. rewrite Hm in Hag. destruct n; simpl in *; congruence.
  - destruct (mounted st); try exact Hag. by repeat case_match.
  - destruct (handleExport iso st) as [st' m] eqn:E. unfold handleExport in E.
    repeat case_match; simplify_eq; exact Hag.
Qed.

(** C13. Along every session the mounted profile, education or skills
    editor holds exactly the page's copy of its slice: these editors
    report every change they make and are mounted from the page's data. *)
Theorem reachable_editor_agrees (st : State Node) : reachable st -> editor_agrees st.
Proof. induction 1; [done|]. by apply step_agrees. Qed.

(** C31. Opening the section tab mounts [SectionReorder] afresh on the
    default list, so the next change it reports replaces the page's list
    by one computed from the defaults: whatever the page held (custom
    sections, a new order) is gone. *)
Theorem section_tab_resets_list (st : State Node) (id : string) :
  outerTab st = TabContent ->
  sections (run [OuterTabClick TabSections; SectionsInput (SectionReorder.ToggleVisibility id)] st) =
    List.map (SectionReorder.toggle id) SectionReorder.defaultSections.
Proof. intros Ho. simpl. by rewrite Ho. Qed.

Lemma step_content_nosave (ev : Event) (st : State Node) :
  ev <> SaveClick ->
  let st' := (step ev st).1 in
  (formData st' = formData st /\ sections st' = sections st /\
   isDirty st' = isDirty st /\ storage st' = storage st) \/ isDirty st' = true.
Proof. intros Hne. destruct ev; try congruence; step_cases. Qed.

Lemma next_status_nosave (s : Status) (ev : Event) (st' : State Node) :
  ev <> SaveClick -> isDirty st' = false -> next_status s ev st' = s.
Proof. intros Hne Hd. unfold next_status. rewrite Hd. by destruct ev. Qed.

Lemma export_isDirty (iso : string) (st : State Node) :
  isDirty (step (ExportClick iso) st).1 = isDirty st.
Proof. step_cases. Qed.

Lemma greachable_inv (s : Status) (st : State Node) :
  greachable s st ->
  (isDirty st = true <-> s = SEditing) /\ (s = SIdle -> pristine st) /\
  (s = SSaved -> saved_matches st).
Proof.
  induction 1 as [cp tp slot d _|s st ev _ (Hd & Hi & Hs) _].
  { split; [split; discriminate|]. split; [done|discriminate]. }
  assert (ev = SaveClick \/ ev <> SaveClick) as [->|Hne] by (destruct ev; auto; right; discriminate).
  { simpl. unfold next_status; simpl. unfold saved_matches; simpl. naive_solver. }
  destruct (isDirty (step ev st).1) eqn:Hd'.
  { unfold next_status. rewrite Hd'. naive_solver. }
  rewrite next_status_nosave by done.
  destruct (step_content_nosave ev st Hne) as [(Hf & Hse & Hdd & Hst)|?]; [|congruence].
  unfold pristine, saved_matches in *. rewrite Hf, Hse, Hst. rewrite Hdd in Hd'.
  split; [|split; [exact Hi|exact Hs]].
  split; [discriminate|]. intros Hse'. apply Hd in Hse'. congruence.
Qed.

(** C12. The page refines the specification's session machine: along
    every session the dirty flag is set exactly in the state [Editing],
    [Idle] shows the content the page was mounted with and [Saved] the
    content of the slot; every event the page offers moves the status
    along a transition of the machine ([Idle -> Editing],
    [Saved -> Editing], [Editing -> Saved] or no change; never
    [Idle -> Saved] nor back to [Idle]); and export leaves it unchanged. *)
Theorem status_refines (s : Status) (st : State Node) :
  greachable s st ->
  (isDirty st = true <-> s = SEditing) /\ (s = SIdle -> pristine st) /\
  (s = SSaved -> saved_matches st) /\
  (forall ev, enabled st ev = true -> spec_step s (next_status s ev (step ev st).1)) /\
  (forall iso, next_status s (ExportClick iso) (step (ExportClick iso) st).1 = s).
Proof.
  intros Hg. pose proof (greachable_inv s st Hg) as (Hd & Hi & Hs).
  split; [done|]. split; [done|]. split; [done|]. split.
  - intros ev Hen. unfold next_status. case_match; [constructor|].
    destruct ev; try constructor. simpl in Hen. apply Hd in Hen as ->. constructor.
  - intros iso. unfold next_status. rewrite export_isDirty.
    destruct (isDirty st) eqn:E; [symmetry; by apply Hd|done].
Qed.

Lemma greachable_step s s' (st st' : State Node) ev :
  greachable s st -> enabled st ev = true -> (step ev st).1 = st' -> next_status s ev st' = s' ->
  greachable s' st'.
Proof. intros Hg He <- <-. by apply g_step. Qed.

Lemma reachable_run (evs : list Event) (st : State Node) :
  reachable st -> run_enabled evs st = true -> reachable (run evs st).
Proof.
  revert st. induction evs as [|ev evs IH]; intros st Hr He; simpl in *; [done|].
  apply andb_prop in He as [He1 He2]. apply IH; [by apply reach_step|done].
Qed.

Lemma run_app (evs1 evs2 : list Event) (st : State Node) :
  run (evs1 ++ evs2) st = run evs2 (run evs1 st).
Proof. revert st. induction evs1 as [|ev evs1 IH]; intros st; simpl; auto. Qed.

Lemma run_enabled_app (evs1 evs2 : list Event) (st : State Node) :
  run_enabled (evs1 ++ evs2) st = run_enabled evs1 st && run_enabled evs2 (run evs1 st).
Proof.
  revert st. induction evs1 as [|ev evs1 IH]; intros st; simpl; [done|].
  rewrite IH. apply andb_assoc.
Qed.

(** The executable session check agrees with the reachability
    relation: a page state is reachable exactly when it is the result of
    running, from the mount on some URL, slot and well-formed document, a
    sequence of events each of which the page offers when it comes. *)
Theorem reachable_iff_run (st : State Node) :
  reachable st <->
  exists cp tp slot d evs, dom_wf d /\ run_enabled evs (init cp tp slot d) = true /\
                           st = run evs (init cp tp slot d).
Proof.
  split.
  - induction 1 as [cp tp slot d Hd|st ev _ (cp & tp & slot & d & evs & Hd & He & ->) Hen].
    + by exists cp, tp, slot, d, [].
    + exists cp, tp, slot, d, (evs ++ [ev]). split; [done|].
      rewrite run_enabled_app, run_app, He. simpl. by rewrite Hen.
  - intros (cp & tp & slot & d & evs & Hd & He & ->). apply reachable_run; [by apply reach_init|done].
Qed.

Lemma commit_wf (st : State Node) : dom_wf (dom st) -> dom_wf (dom (commit st)).
Proof.
  unfold commit, dom_wf. simpl. destruct (getElementById (dom st) _) as [l|] eqn:E; [|done].
  intros Hwf. apply getElementById_Some in E as [_ [v Hv]]. simpl.
  apply map_Forall_insert_2; [|done]. exact (Hwf l v Hv).
Qed.

Lemma handleExport_dom (iso : string) (st : State Node) :
  dom (handleExport iso st).1 = (exportResumeToPDF (dom st) iso "resume-preview-content" (export_options st)).1.
Proof. unfold handleExport. by destruct (exportResumeToPDF _ _ _ _) as [d' [[f|e]|e]]. Qed.

Lemma dispatch_wf (ev : Event) (st : State Node) : dom_wf (dom st) -> dom_wf (dom (dispatch ev st).1).
Proof.
  intros Hwf. destruct ev as [| | | | | | | | | |iso];
    try (unfold dispatch, handleSave, notify_or, handleFormDataChange, handleSectionsChange,
           handleCountryChange, handleTemplateChange; repeat case_match; simpl; assumption).
  unfold dispatch. pose proof (handleExport_dom iso st) as Hd.
  destruct (handleExport iso st) as [st' m]. simpl in *. rewrite Hd. by apply export_wf.
Qed.

(** The document stays a well-formed store along every session: the
    commit after an event writes the preview at a location already in use,
    and an export adds its clone at the fresh location. *)
Theorem reachable_dom_wf (st : State Node) : reachable st -> dom_wf (dom st).
Proof.
  induction 1 as [cp tp slot d Hd|st ev _ IH _]; [by apply commit_wf|].
  rewrite step_fst. by apply commit_wf, dispatch_wf.
Qed.


End BuilderTheorems.

Lemma page_dom_wf : dom_wf page_dom.
Proof. apply (bool_decide_unpack _). vm_compute. exact I. Qed.

Lemma fresh_page_reachable : reachable fresh_page.
Proof. apply reach_init, page_dom_wf. Qed.

Lemma save_then_select_reachable : reachable (run save_then_select fresh_page).
Proof. apply reachable_run; [apply fresh_page_reachable|reflexivity]. Qed.

(** ** Witnesses *)


Lemma status_refines_witness :
  greachable SEditing (step (ProfileInput PFirstName "Ada") fresh_page).1 /\
  spec_step SEditing
    (next_status SEditing SaveClick (step SaveClick (step (ProfileInput PFirstName "Ada") fresh_page).1).1).
Proof.
  assert (G : greachable SEditing (step (ProfileInput PFirstName "Ada") fresh_page).1).
  { apply (greachable_step SIdle SEditing fresh_page _ (ProfileInput PFirstName "Ada"));
      [exact (g_init None None None page_dom page_dom_wf)|reflexivity|reflexivity|reflexivity]. }
  split; [exact G|].
  apply (proj1 (proj2 (proj2 (proj2 (status_refines _ _ G))))). reflexivity.
Defined.

Lemma reachable_editor_agrees_witness :
  reachable (run save_then_select fresh_page) /\ editor_agrees (run save_then_select fresh_page).
Proof.
  split; [apply save_then_select_reachable|].
  apply reachable_editor_agrees, save_then_select_reachable.
Defined.

Lemma section_tab_resets_list_witness :
  let st := run custom_then_leave fresh_page in
  "Volunteering" ∈ List.map SectionReorder.sec_title (sections st) /\
  outerTab st = TabContent /\
  sections (run [OuterTabClick TabSections; SectionsInput (SectionReorder.ToggleVisibility "profile")] st) =
    List.map (SectionReorder.toggle "profile") SectionReorder.defaultSections /\
  "Volunteering" ∉ List.map SectionReorder.sec_title (List.map (SectionReorder.toggle "profile") SectionReorder.defaultSections).
Proof.
  assert (Ho : outerTab (run custom_then_leave fresh_page) = TabContent) by (vm_compute; reflexivity).
  split; [apply (bool_decide_unpack _); vm_compute; exact I|].
  split; [exact Ho|]. split; [exact (section_tab_resets_list _ "profile" Ho)|].
  apply (bool_decide_unpack _). vm_compute. exact I.
Defined.

Lemma reachable_url_witness :
  reachable (run save_then_select fresh_page) /\
  searchParams (run save_then_select fresh_page) =
    url_of (country (run save_then_select fresh_page)) (templateId (run save_then_select fresh_page)).
Proof.
  split; [apply save_then_select_reachable|].
  apply reachable_url, save_then_select_reachable.
Defined.

Lemma reachable_clean_witness :
  isDirty (run save_then_select fresh_page) = false /\
  (pristine (run save_then_select fresh_page) \/ saved_matches (run save_then_select fresh_page)).
Proof.
  split; [reflexivity|].
  apply reachable_clean; [apply save_then_select_reachable|reflexivity].
Defined.

Lemma export_renders_preview_witness :
  reachable fresh_page /\
  getElementById (dom fresh_page) "resume-preview-content" = Some 1%positive /\
  (step (ExportClick "2026-11-09T10:00:00.000Z") fresh_page).2 =
    Some (ToastSuccess ("PDF exported successfully as " +:+
            fullFilename (export_filename (formData fresh_page)) true "2026-11-09T10:00:00.000Z")).
Proof.
  split; [apply fresh_page_reachable|]. split; [reflexivity|].
  exact (export_renders_preview "2026-11-09T10:00:00.000Z" fresh_page 1%positive
           fresh_page_reachable eq_refl).
Defined.

Lemma export_without_preview_witness :
  getElementById blank_dom "resume-preview-content" = None /\
  step (ExportClick "2026-11-09T10:00:00.000Z") (init None None None blank_dom) =
    (init None None None blank_dom, Some (ToastError "An error occurred during PDF export")).
Proof. split; [reflexivity|]. apply export_without_preview. reflexivity. Defined.

Lemma tab_switch_drops_added_entry_witness :
  let st := (step (InnerTabClick SectionReorder.experience) fresh_page).1 in
  mounted (run [ExperienceInput (LAdd 1700000000000%N); InnerTabClick SectionReorder.profile;
                InnerTabClick SectionReorder.experience] st) = MExperience [].
Proof.
  exact (proj1 (tab_switch_drops_added_entry
    (step (InnerTabClick SectionReorder.experience) fresh_page).1 [] 1700000000000%N
    eq_refl eq_refl eq_refl)).
Defined.

Lemma deep_link_selector_tab_witness :
  Country.parse "germany" = Some germany /\
  country (init (Some "germany") None None page_dom) = germany /\
  selectorTab (init (Some "germany") None None page_dom) = usa.
Proof.
  split; [reflexivity|].
  destruct (deep_link_selector_tab "germany" germany None None page_dom eq_refl) as (H1 & H2 & _).
  split; [exact H1|exact H2].
Defined.

End Builder.
