(* ===== verification/Site.v ===== *)
(** * The site around the builder: theme, pricing, contact form and header

    [Module Theme] models the dark-mode flag of
    [src/src/components/layout/Layout.tsx] with the [dark] class of the
    document element and the [theme] entry of [localStorage].
    [Module Pricing] models [src/src/pages/Pricing.tsx]: the plan table
    (prices in cents), the annual switch and the cards it renders, with
    the numbers printed as a template literal prints them.  [Module Contact] models [src/src/pages/Contact.tsx]:
    the form state, [handleInputChange], and [handleSubmit] cut at its
    [await] into the part that runs on the submit event and the part that
    runs when the two-second timer fires, so that other events can come
    in between.  [Module Header] models
    [src/src/components/layout/Header.tsx]: the menu and scroll flags, the
    viewport kind and the route, with the links the header renders.
    [Module ContactPage] holds the contact cards and the FAQ of
    [Contact.tsx]; [Module Layout] composes the theme with the header as
    [src/src/components/layout/Layout.tsx] does, with what the header
    shows of the pair. *)

From S2P Require Import Prelude JsString.
From Stdlib Require Import Ascii.
From stdpp Require Import pretty.
From Stdlib Require Import Floats.

Module Theme.

Record Theme := {
  isDarkMode : bool;
  dark_class : bool;
  saved : option string
}.

(** The mount effect, lines 10-23: a truthy saved theme decides ([=== "dark"]),
    otherwise the system preference. *)
Definition theme_init (savedTheme : option string) (prefersDark : bool) : Theme :=
  let dark := match savedTheme with
              | Some s => if bool_decide (s = "") then prefersDark else bool_decide (s = "dark")
              | None => prefersDark
              end in
  {| isDarkMode := dark; dark_class := dark; saved := savedTheme |}.

(** [toggleTheme], lines 25-30. *)
Definition toggleTheme (t : Theme) : Theme :=
  let newMode := negb (isDarkMode t) in
  {| isDarkMode := newMode; dark_class := newMode;
     saved := Some (if newMode then "dark" else "light") |}.

Inductive reachable : Theme -> Prop :=
  | theme_reach_init s p : reachable (theme_init s p)
  | theme_reach_toggle t : reachable t -> reachable (toggleTheme t).

(** The [dark] class of the document always follows the flag. *)
Lemma reachable_class (t : Theme) : reachable t -> dark_class t = isDarkMode t.
Proof. by destruct 1. Qed.

(** What a toggle stores is read back by the next visit as the mode it
    set, whatever the system preference. *)
Lemma toggle_persists (t : Theme) (prefersDark : bool) :
  isDarkMode (theme_init (saved (toggleTheme t)) prefersDark) = isDarkMode (toggleTheme t).
Proof. by destruct t as [[] ? ?]. Qed.

(** A saved value other than [dark], such as [Dark], reads as light. *)
Lemma saved_other_is_light (s : string) (p : bool) :
  s <> "" -> s <> "dark" -> isDarkMode (theme_init (Some s) p) = false.
Proof. intros H1 H2. simpl. by rewrite !bool_decide_eq_false_2. Qed.

End Theme.

Module Pricing.

Inductive ButtonVariant := Outline | DefaultVariant.

Record Feature := { f_name : string; included : bool }.

Definition feat (n : string) (b : bool) : Feature := {| f_name := n; included := b |}.

Record Plan := {
  plan_name : string;
  description : string;
  monthly : Z;
  annual : Z;
  badge : option string;
  features : list Feature;
  buttonText : string;
  buttonVariant : ButtonVariant;
  popular : bool
}.

(** Lines 12-76, prices in cents ([9.99] is [999]). *)
Definition plans : list Plan := [
  {| plan_name := "Free"; description := "Perfect for getting started";
     monthly := 0; annual := 0; badge := None;
     features := [feat "1 resume template" true; feat "Basic country formats" true;
                  feat "PDF download" true; feat "ATS optimization" true;
                  feat "Real-time preview" true; feat "Multiple templates" false;
                  feat "Premium support" false; feat "Cover letter builder" false;
                  feat "Advanced customization" false; feat "Priority processing" false];
     buttonText := "Get Started Free"; buttonVariant := Outline; popular := false |};
  {| plan_name := "Professional"; description := "For serious job seekers";
     monthly := 999; annual := 799; badge := Some "Most Popular";
     features := [feat "All free features" true; feat "10+ premium templates" true;
                  feat "All country formats" true; feat "Cover letter builder" true;
                  feat "Advanced customization" true; feat "Email support" true;
                  feat "Multiple resume versions" true; feat "LinkedIn optimization" true;
                  feat "Keyword suggestions" false; feat "Priority processing" false];
     buttonText := "Start Professional"; buttonVariant := DefaultVariant; popular := true |};
  {| plan_name := "Premium"; description := "For career professionals";
     monthly := 1999; annual := 1599; badge := Some "Best Value";
     features := [feat "All Professional features" true; feat "20+ premium templates" true;
                  feat "AI-powered suggestions" true; feat "Keyword optimization" true;
                  feat "Priority support" true; feat "Resume review service" true;
                  feat "Career coaching calls" true; feat "LinkedIn profile optimization" true;
                  feat "Job match recommendations" true; feat "Priority processing" true];
     buttonText := "Go Premium"; buttonVariant := DefaultVariant; popular := false |}
].

(** Line 120: the price a card shows for the billing switch position. *)
Definition shown_price (isAnnual : bool) (p : Plan) : Z :=
  if isAnnual then annual p else monthly p.

(** Line 129: the yearly amount under an annual price. *)
Definition billed_annually (p : Plan) : Z := 12 * annual p.

(** How a template literal prints the number [c / 100] for a whole number
    [c] of cents: the integer part, then the cents without their trailing
    zero, and no point for a whole amount ([7.99], [95.88], [19.9], [0]).
    This is JavaScript's shortest round-trip form of the double nearest to
    the decimal; that the code's products are those doubles is
    [PricingTheorems.billed_doubles]. *)
Definition dollars (c : Z) : string :=
  let w := pretty (Z.to_N (c / 100)) in
  let f := Z.to_N (c mod 100) in
  if decide (f = 0%N) then w
  else if decide (N.modulo f 10 = 0%N) then w +:+ "." +:+ pretty (N.div f 10)
  else if decide (f < 10)%N then w +:+ ".0" +:+ pretty f
  else w +:+ "." +:+ pretty f.

(** One plan card, lines 104-159. *)
Record Card := {
  card_class : string;
  card_badge : option (string * string);
  card_title : string;
  card_description : string;
  card_price : string;
  card_per : option string;
  card_billed : option string;
  card_button : string * ButtonVariant;
  card_features : list (bool * string * string)
}.

Definition card (isAnnual : bool) (p : Plan) : Card :=
  {| card_class := "relative " +:+ (if popular p then "border-primary shadow-lg scale-105" else "");
     card_badge := (fun b => ("absolute -top-3 left-1/2 transform -translate-x-1/2 " +:+
                              (if popular p then "bg-primary" else "bg-secondary"), b)) <$> badge p;
     card_title := plan_name p;
     card_description := description p;
     card_price := "$" +:+ dollars (shown_price isAnnual p);
     card_per := if bool_decide (0 < monthly p)%Z
                 then Some ("/" +:+ (if isAnnual then "month" else "month")) else None;
     card_billed := if isAnnual && bool_decide (0 < monthly p)%Z
                    then Some ("Billed annually ($" +:+ dollars (billed_annually p) +:+ "/year)")
                    else None;
     card_button := (buttonText p, buttonVariant p);
     card_features := List.map (fun f => (included f,
                                          "text-sm " +:+ (if included f then "" else "text-muted-foreground"),
                                          f_name f)) (features p) |}.

(** The switch labels, lines 88-97: the current period is in bold. *)
Definition switch_labels (isAnnual : bool) : string * string :=
  ("text-sm " +:+ (if negb isAnnual then "font-semibold" else "text-muted-foreground"),
   "text-sm " +:+ (if isAnnual then "font-semibold" else "text-muted-foreground")).

(** The page for a position of the switch ([isAnnual], line 9, set by
    [onCheckedChange], line 93). *)
Definition page (isAnnual : bool) : string * string * list Card :=
  (switch_labels isAnnual, List.map (card isAnnual) plans).

(** The questions and answers of lines 163-210. *)
Definition pricing_faq : list (string * string) := [
  ("Can I cancel anytime?",
   "Yes! You can cancel your subscription at any time. You'll continue to have access to premium features until the end of your billing period.");
  ("Do you offer refunds?",
   "We offer a 30-day money-back guarantee. If you're not satisfied with our service, contact us for a full refund.");
  ("Can I change plans later?",
   "Absolutely! You can upgrade or downgrade your plan at any time. Changes will be reflected in your next billing cycle.");
  ("What payment methods do you accept?",
   "We accept all major credit cards (Visa, Mastercard, American Express) and PayPal for your convenience.")].

(** The controls of the page: the billing switch (lines 91-94), a button
    per plan (lines 136-142) and the two buttons of the closing card
    (lines 226-231). *)
Inductive Control :=
  | Switch
  | PlanButton (text : string)
  | CtaButton (text : string).

Definition controls : list Control :=
  Switch :: List.map (fun p => PlanButton (buttonText p)) plans ++
  [CtaButton "Start Building Now"; CtaButton "View All Templates"].

(** What pressing a control does to [isAnnual]: the switch's
    [onCheckedChange] receives the flipped value; the buttons have no
    [onClick] and wrap no link. *)
Definition handler (c : Control) : option (bool -> bool) :=
  match c with
  | Switch => Some negb
  | PlanButton _ | CtaButton _ => None
  end.

(** The "Save 20%" badge (line 98): every paid plan's annual price is
    between 20% and 21% below its monthly price. *)
Lemma save_20_percent (p : Plan) :
  p ∈ plans -> (0 < monthly p)%Z ->
  (20 * monthly p <= 100 * (monthly p - annual p) < 21 * monthly p)%Z.
Proof. intros Hp. repeat (apply elem_of_cons in Hp as [->|Hp]; [simpl; lia|]). set_solver. Qed.

(** The yearly bill of a paid plan is below twelve monthly payments. *)
Lemma billed_annually_saves (p : Plan) :
  p ∈ plans -> (0 < monthly p)%Z -> (billed_annually p < 12 * monthly p)%Z.
Proof. intros Hp Hm. pose proof (save_20_percent p Hp Hm). unfold billed_annually. lia. Qed.

(** A whole number of dollars prints without a point. *)
Lemma dollars_whole (w : Z) : (0 <= w)%Z -> dollars (100 * w) = pretty (Z.to_N w).
Proof.
  intros Hw. unfold dollars.
  rewrite Z.mul_comm, Z.div_mul, Z.mod_mul by lia. reflexivity.
Qed.

(** Of the six controls of the page only the billing switch does
    anything: the three plan buttons and the two buttons of the closing
    card have no handler and lead nowhere. *)
Lemma pricing_buttons_inert :
  List.map (fun c => (c, bool_decide (is_Some (handler c)))) controls =
    [(Switch, true); (PlanButton "Get Started Free", false); (PlanButton "Start Professional", false);
     (PlanButton "Go Premium", false); (CtaButton "Start Building Now", false);
     (CtaButton "View All Templates", false)].
Proof. reflexivity. Qed.

#[local] Set Warnings "-inexact-float".

(** What the cards say at either position of the switch: the prices of
    the Free, Professional and Premium plans, the per-month suffix of the
    paid plans, the yearly bill of the paid plans on the annual page only;
    and the JavaScript products [7.99 * 12] and [15.99 * 12] are the
    doubles nearest to [95.88] and [191.88], which print as such, so the
    texts are those the browser shows. *)
Theorem pricing_page_text :
  List.map card_price (page false).2 = ["$0"; "$9.99"; "$19.99"] /\
  List.map card_price (page true).2 = ["$0"; "$7.99"; "$15.99"] /\
  List.map card_per (page true).2 = [None; Some "/month"; Some "/month"] /\
  List.map card_billed (page false).2 = [None; None; None] /\
  List.map card_billed (page true).2 =
    [None; Some "Billed annually ($95.88/year)"; Some "Billed annually ($191.88/year)"] /\
  (7.99 * 12 = 95.88)%float /\ (15.99 * 12 = 191.88)%float.
Proof. repeat split; vm_compute; reflexivity. Qed.

End Pricing.

Module Contact.

Record ContactForm := {
  name : string; email : string; subject : string; category : string; message : string
}.

Inductive ContactField := CName | CEmail | CSubject | CCategory | CMessage.

(** Lines 21-27 and 59-65. *)
Definition emptyForm : ContactForm :=
  {| name := ""; email := ""; subject := ""; category := ""; message := "" |}.

(** [{ ...prev, [field]: value }], line 31. *)
Definition set_field (f : ContactField) (v : string) (c : ContactForm) : ContactForm :=
  match f with
  | CName => {| name := v; email := email c; subject := subject c; category := category c; message := message c |}
  | CEmail => {| name := name c; email := v; subject := subject c; category := category c; message := message c |}
  | CSubject => {| name := name c; email := email c; subject := v; category := category c; message := message c |}
  | CCategory => {| name := name c; email := email c; subject := subject c; category := v; message := message c |}
  | CMessage => {| name := name c; email := email c; subject := subject c; category := category c; message := v |}
  end.

(** The state hooks and the timer the awaited promise waits for. *)
Record State := {
  formData : ContactForm;
  isSubmitting : bool;
  pending : bool
}.

Definition init : State := {| formData := emptyForm; isSubmitting := false; pending := false |}.

Inductive Toast := ValidationError | MessageSent.

(** [handleInputChange], lines 30-32. *)
Definition handleInputChange (f : ContactField) (v : string) (st : State) : State :=
  {| formData := set_field f v (formData st); isSubmitting := isSubmitting st; pending := pending st |}.

(** [handleSubmit] up to its [await], lines 34-51: [setIsSubmitting(true)],
    then the validation, whose failure sets it back and returns. *)
Definition handleSubmit (st : State) : State * option Toast :=
  let c := formData st in
  if bool_decide (name c = "") || bool_decide (email c = "") || bool_decide (message c = "")
  then ({| formData := c; isSubmitting := false; pending := false |}, Some ValidationError)
  else ({| formData := c; isSubmitting := true; pending := true |}, None).

(** The rest of [handleSubmit], lines 53-74, when the timer fires: the
    promise of line 51 only resolves, so the [catch] never runs. *)
Definition submit_resume (st : State) : State * option Toast :=
  ({| formData := emptyForm; isSubmitting := false; pending := false |}, Some MessageSent).

Inductive Event := Input (f : ContactField) (v : string) | Submit | TimerFires.

Definition step (ev : Event) (st : State) : State * option Toast :=
  match ev with
  | Input f v => (handleInputChange f v st, None)
  | Submit => handleSubmit st
  | TimerFires => submit_resume st
  end.

Section Browser.
(** The browser's check of an [type="email"] input. *)
Variable email_valid : string -> bool.

(** Which events the page offers (lines 165-238): the fields are never
    disabled; the form is submitted only while the button is enabled
    ([disabled={isSubmitting}]) and the browser's constraint validation
    passes ([required] on name, email and message, and the e-mail syntax);
    the timer fires only while one is pending. *)
Definition enabled (st : State) (ev : Event) : bool :=
  match ev with
  | Input _ _ => true
  | Submit =>
      negb (isSubmitting st) &&
      negb (bool_decide (name (formData st) = "")) &&
      negb (bool_decide (email (formData st) = "")) && email_valid (email (formData st)) &&
      negb (bool_decide (message (formData st) = ""))
  | TimerFires => pending st
  end.

Inductive reachable : State -> Prop :=
  | contact_reach_init : reachable init
  | contact_reach_step st ev : reachable st -> enabled st ev = true -> reachable (step ev st).1.

(** The submit button and the timer are never offered together. *)
Lemma reachable_submitting_pending (st : State) :
  reachable st -> isSubmitting st = pending st.
Proof.
  induction 1 as [|st ev _ IH _]; [done|].
  destruct ev; simpl; [done| |done]. unfold handleSubmit. by case_match.
Qed.

(** The validation branch of [handleSubmit] (lines 39-47) is dead: the
    browser submits the form only when the three required fields are
    non-empty, which is the condition it tests. *)
Lemma validation_unreachable (st : State) :
  enabled st Submit = true -> (step Submit st).2 = None.
Proof.
  simpl. intros He. repeat (apply andb_prop in He as [He ?]).
  unfold handleSubmit. repeat case_bool_decide; simpl in *; done.
Qed.

(** C33. Whatever the user types while the message is being sent is
    lost: after a submit the button is disabled ("Sending...") but every
    field still accepts input; the edit lands in the form while the send
    is pending, and the reset after the [await] clears it. *)
Theorem edits_during_send_lost (st : State) (f : ContactField) (v : string) :
  enabled st Submit = true ->
  let st1 := (step Submit st).1 in
  let st2 := (step (Input f v) st1).1 in
  isSubmitting st1 = true /\ enabled st1 Submit = false /\ enabled st1 (Input f v) = true /\
  pending st2 = true /\ formData st2 = set_field f v (formData st) /\
  step TimerFires st2 = (init, Some MessageSent).
Proof.
  simpl. intros He. repeat (apply andb_prop in He as [He ?]).
  unfold handleSubmit. repeat case_bool_decide; simpl in *; try done.
Qed.

(** C34. A send in progress always completes: in every reachable state
    where the button shows "Sending...", the timer is pending, and its
    firing re-enables the button and reports the message as sent. *)
Theorem send_completes (st : State) :
  reachable st -> isSubmitting st = true ->
  enabled st TimerFires = true /\ isSubmitting (step TimerFires st).1 = false /\
  (step TimerFires st).2 = Some MessageSent.
Proof.
  intros Hr Hs. rewrite (reachable_submitting_pending st Hr) in Hs. by split.
Qed.

End Browser.

(** A browser check of e-mail syntax for the witnesses: an [@] in the
    value. *)
Definition has_at (e : string) : bool := bool_decide ("@"%char ∈ String.list_ascii_of_string e).

Definition filled : State :=
  {| formData := {| name := "Ada"; email := "ada@example.org"; subject := ""; category := "";
                    message := "Hello" |};
     isSubmitting := false; pending := false |}.

Lemma edits_during_send_lost_witness :
  enabled has_at filled Submit = true /\
  step TimerFires (step (Input CMessage "Hello again") (step Submit filled).1).1 = (init, Some MessageSent).
Proof.
  split; [reflexivity|].
  exact (proj2 (proj2 (proj2 (proj2 (proj2 (edits_during_send_lost has_at filled CMessage "Hello again" eq_refl)))))).
Defined.

(** A session: fill in the three required fields, then submit. *)
Lemma sending_reachable :
  reachable has_at (step Submit filled).1.
Proof.
  apply (contact_reach_step _ _ Submit); [|reflexivity].
  change filled with (step (Input CMessage "Hello")
    (step (Input CEmail "ada@example.org") (step (Input CName "Ada") init).1).1).1.
  repeat (apply contact_reach_step; [|reflexivity]). constructor.
Qed.

Lemma send_completes_witness :
  isSubmitting (step Submit filled).1 = true /\
  isSubmitting (step TimerFires (step Submit filled).1).1 = false.
Proof.
  split; [reflexivity|].
  exact (proj1 (proj2 (send_completes has_at _ sending_reachable eq_refl))).
Defined.

End Contact.

Module ContactPage.

(** A contact card of the left column, lines 88-153: its title, its
    description, the main line and the note under it. *)
Record Method := { m_title : string; m_description : string; m_main : string; m_note : string }.

Definition contactMethods : list Method := [
  {| m_title := "Email Support"; m_description := "Get help with technical issues or general questions";
     m_main := "goutam.roy.421917@gmail.com"; m_note := "Response within 24 hours" |};
  {| m_title := "Live Chat"; m_description := "Chat with our team for immediate assistance";
     m_main := "Available Mon-Fri"; m_note := "9:00 AM - 6:00 PM EST" |};
  {| m_title := "Phone Support"; m_description := "Speak directly with our support team";
     m_main := "+880 174 759 3452"; m_note := "Premium users only" |};
  {| m_title := "Office Location"; m_description := "Visit Gazipur-Bangladesh at our headquarters";
     m_main := "Dhaka, Bangladesh"; m_note := "By appointment only" |}].

(** The questions and answers of lines 245-283. *)
Definition faq : list (string * string) := [
  ("How do I download my resume?",
   "After completing your resume, click the " +:+ String "034" "Export PDF" +:+ String "034" " button in the preview panel to download your ATS-optimized resume.");
  ("Can I edit my resume after creating it?",
   "Yes! Your resume data is automatically saved. You can return anytime to make changes and download updated versions.");
  ("Are the templates really ATS-friendly?",
   "Absolutely. All our templates are designed to be machine-readable and pass through Applicant Tracking Systems.");
  ("Can I switch between country formats?",
   "Yes! You can change the country and template at any time during the resume building process.")].

(** The office card places the headquarters in Gazipur and gives its
    address as Dhaka. *)
Lemma office_location_mismatch :
  exists m, List.nth_error contactMethods 3 = Some m /\ m_title m = "Office Location" /\
    JsString.includes (m_description m) "Gazipur" = true /\
    JsString.includes (m_main m) "Gazipur" = false.
Proof. eexists. split; [reflexivity|]. repeat split; vm_compute; reflexivity. Qed.

End ContactPage.

Module Header.

(** The header's state hooks, with the viewport kind [useIsMobile] reports
    and the route the router shows. *)
Record State := {
  isMenuOpen : bool;
  isScrolled : bool;
  isMobile : bool;
  path : string
}.

(** Lines 28-34. *)
Definition menuItems : list (string * string) :=
  [("Home", "/"); ("Templates", "/templates"); ("Builder", "/builder");
   ("Pricing", "/pricing"); ("Contact", "/contact")].

Definition paths : list string := List.map snd menuItems.

(** [handleScroll], lines 20-22. *)
Definition handleScroll (scrollY : Z) (st : State) : State :=
  {| isMenuOpen := isMenuOpen st; isScrolled := bool_decide (10 < scrollY)%Z;
     isMobile := isMobile st; path := path st |}.

Inductive Event :=
  | Scroll (scrollY : Z)
  | Resize (mobile : bool)
  | MenuButton
  | NavLink (to : string)
  | MobileLink (to : string).

(** Lines 50-112: a desktop link navigates; the menu button flips the
    menu (line 85); a link of the mobile menu navigates and closes it
    (lines 103 and 109). *)
Definition step (ev : Event) (st : State) : State :=
  match ev with
  | Scroll y => handleScroll y st
  | Resize m => {| isMenuOpen := isMenuOpen st; isScrolled := isScrolled st; isMobile := m; path := path st |}
  | MenuButton => {| isMenuOpen := negb (isMenuOpen st); isScrolled := isScrolled st;
                     isMobile := isMobile st; path := path st |}
  | NavLink p => {| isMenuOpen := isMenuOpen st; isScrolled := isScrolled st;
                    isMobile := isMobile st; path := p |}
  | MobileLink p => {| isMenuOpen := false; isScrolled := isScrolled st; isMobile := isMobile st;
                       path := p |}
  end.

(** The controls rendered: the desktop navigation and its "Create Resume"
    button without a mobile viewport (lines 51-62 and 75-79), the menu
    button with one (lines 81-90), the mobile menu while it is open on a
    mobile viewport (line 95). *)
Definition enabled (st : State) (ev : Event) : bool :=
  match ev with
  | Scroll _ | Resize _ => true
  | MenuButton => isMobile st
  | NavLink p => negb (isMobile st) && bool_decide (p ∈ paths)
  | MobileLink p => isMobile st && isMenuOpen st && bool_decide (p ∈ paths)
  end.

(** Whether the mobile menu is shown (line 95). *)
Definition menu_shown (st : State) : bool := isMobile st && isMenuOpen st.

Fixpoint run (evs : list Event) (st : State) : State :=
  match evs with [] => st | ev :: evs => run evs (step ev st) end.

Definition header_init (mobile : bool) (p : string) : State :=
  {| isMenuOpen := false; isScrolled := false; isMobile := mobile; path := p |}.

(** Every link of the header leads to one of the five pages, and the
    mobile links close the menu they are in. *)
Lemma links_close_menu (st : State) (p : string) :
  enabled st (MobileLink p) = true ->
  p ∈ paths /\ path (step (MobileLink p) st) = p /\ menu_shown (step (MobileLink p) st) = false.
Proof.
  simpl. intros [[_ _]%andb_prop Hp]%andb_prop. apply bool_decide_eq_true in Hp.
  split; [done|]. split; [done|]. unfold menu_shown. simpl. apply andb_false_r.
Qed.

(** Leaving the mobile layout does not close the menu: it is shown again
    when the viewport becomes narrow, on whatever page the user has
    navigated to meanwhile. *)
Lemma menu_reopens_after_resize :
  let st := run [MenuButton; Resize false; NavLink "/pricing"; Resize true] (header_init true "/") in
  menu_shown st = true /\ path st = "/pricing".
Proof. split; reflexivity. Qed.

End Header.

Module Layout.

(** [src/src/components/layout/Layout.tsx]: the layout owns the theme
    flag and renders the header with [toggleTheme] and [isDarkMode]
    (lines 32-40); the header owns its menu and scroll flags. *)
Record State := { theme : Theme.Theme; header : Header.State }.

Inductive Event :=
  | ThemeButton
  | HeaderEvent (ev : Header.Event).

(** The theme button of the header (Header.tsx, lines 66-73) calls the
    layout's [toggleTheme]; the other header events stay in the header. *)
Definition step (ev : Event) (st : State) : State :=
  match ev with
  | ThemeButton => {| theme := Theme.toggleTheme (theme st); header := header st |}
  | HeaderEvent e => {| theme := theme st; header := Header.step e (header st) |}
  end.

Definition enabled (st : State) (ev : Event) : bool :=
  match ev with
  | ThemeButton => true
  | HeaderEvent e => Header.enabled (header st) e
  end.

(** The mount: the theme effect of Layout.tsx has run, the header starts
    closed and unscrolled on the route it is mounted on. *)
Definition layout_init (savedTheme : option string) (prefersDark mobile : bool) (p : string) : State :=
  {| theme := Theme.theme_init savedTheme prefersDark; header := Header.header_init mobile p |}.

Inductive Icon := SunIcon | MoonIcon.

(** What the header shows of this state: its class (Header.tsx, lines
    37-40), the brand (line 46) and the theme button's label and icon
    (lines 70-72). *)
Record View := { header_class : string; brand : string; theme_label : string; theme_icon : Icon }.

Definition view (st : State) : View :=
  let d := Theme.isDarkMode (theme st) in
  {| header_class := "fixed top-0 left-0 right-0 z-50 bg-background border-b transition-all duration-200 " +:+
                     (if Header.isScrolled (header st) then "shadow-sm border-border" else "border-transparent");
     brand := "Global Craft";
     theme_label := if d then "Switch to light mode" else "Switch to dark mode";
     theme_icon := if d then SunIcon else MoonIcon |}.

Inductive reachable : State -> Prop :=
  | layout_reach_init s pd m p : reachable (layout_init s pd m p)
  | layout_reach_step st ev : reachable st -> enabled st ev = true -> reachable (step ev st).

Lemma reachable_theme (st : State) : reachable st -> Theme.reachable (theme st).
Proof.
  induction 1 as [|st [|e] _ IH _]; simpl; [constructor|by constructor|done].
Qed.

(** C39. The theme button always offers the mode the document is not in:
    its label and icon follow the [dark] class of the document element in
    every state the layout reaches; a click flips that class, and the
    choice it stores is the mode the next visit mounts with, whatever the
    system preference. *)
Theorem theme_button_matches_document (st : State) :
  reachable st ->
  theme_label (view st) = (if Theme.dark_class (theme st) then "Switch to light mode" else "Switch to dark mode") /\
  theme_icon (view st) = (if Theme.dark_class (theme st) then SunIcon else MoonIcon) /\
  Theme.dark_class (theme (step ThemeButton st)) = negb (Theme.dark_class (theme st)) /\
  forall prefersDark, Theme.isDarkMode (Theme.theme_init (Theme.saved (theme (step ThemeButton st))) prefersDark) =
                      Theme.dark_class (theme (step ThemeButton st)).
Proof.
  intros Hr. pose proof (Theme.reachable_class _ (reachable_theme st Hr)) as Hc.
  cbn [view theme step]. rewrite Hc. split_and!; [done|done|done|].
  intros p. apply Theme.toggle_persists.
Qed.

Lemma theme_button_witness :
  reachable (layout_init (Some "dark") false true "/") /\
  theme_label (view (layout_init (Some "dark") false true "/")) = "Switch to light mode" /\
  theme_icon (view (layout_init (Some "dark") false true "/")) = SunIcon.
Proof.
  split; [constructor|].
  destruct (theme_button_matches_document _ (layout_reach_init (Some "dark") false true "/"))
    as (Hl & Hi & _). split; [exact Hl|exact Hi].
Defined.

End Layout.
