(* ===== verification/Marketing.v ===== *)
(** * The home page, its sections and the footer

    [Module Links] gathers the links of the footer
    ([src/src/components/layout/Footer.tsx]) and of the home page sections
    ([HeroSection.tsx], [FeaturesSection.tsx], [CallToActionSection.tsx])
    and compares them with the five pages of [src/src/pages], whose paths
    are the header's menu.  [Module Testimonials] models the testimonial
    cards, their star rows, delays and the summary band
    ([TestimonialsSection.tsx]);
    [Module LoadingState] the skeleton placeholder of
    [src/src/components/ui/loading-state.tsx]; [Module Index] the home
    page ([src/src/pages/Index.tsx]) with its two lazily loaded sections,
    shown as placeholders until their code has arrived.  [Array.from] is
    [array_from_length], with ECMAScript's [ToLength]. *)

From S2P Require Import Prelude JsString Country Button Site.
From Stdlib Require Import Floats Ascii.
From stdpp Require Import pretty.

#[local] Set Warnings "-inexact-float".

(** [index * k] in JavaScript for an array index and a double [k]: the
    index is a double too, and the product is rounded to the nearest
    double. *)
Definition index_times (index : nat) (k : float) : float :=
  (PrimFloat.of_uint63 (Uint63.of_Z (Z.of_nat index)) * k)%float.

Module Links.

Record Link := { label : string; to : string }.

Definition lk (l t : string) : Link := {| label := l; to := t |}.

(** Footer.tsx, lines 9-37: the three link columns. *)
Definition footerLinks : list (string * list Link) := [
  ("Product", [lk "Templates" "/templates"; lk "Resume Builder" "/builder";
               lk "Pricing" "/pricing"; lk "Features" "/features"]);
  ("Resources", [lk "Resume Tips" "/tips"; lk "Country Guides" "/guides";
                 lk "FAQ" "/faq"; lk "Blog" "/blog"]);
  ("Company", [lk "About Us" "/about"; lk "Contact" "/contact";
               lk "Privacy Policy" "/privacy"; lk "Terms of Service" "/terms"])].

(** The rendered columns, lines 66-80 (and the brand link of line 45). *)
Definition footer_links : list Link :=
  lk "GlobeCraft" "/" :: List.concat (List.map snd footerLinks).

(** The bottom bar, lines 7 and 88: the source file holds the two
    characters U+00C2 U+00A9 (the UTF-8 bytes of the copyright sign read
    as Latin-1) before the year of [new Date().getFullYear()]. *)
Definition copyright (currentYear : Z) : string :=
  String (ascii_of_nat 194) (String (ascii_of_nat 169)
    (" " +:+ pretty (Z.to_N currentYear) +:+ " GlobeCraft Resume. All rights reserved.")).

(** CallToActionSection.tsx, lines 26-35. *)
Definition ctaLinks : list Link :=
  [lk "Start Building Now" "/builder"; lk "Browse Templates" "/templates"].

(** CallToActionSection.tsx, lines 38-51: the three figures. *)
Definition cta_stats : list (string * string) :=
  [("50,000+", "Resumes Created"); ("95%", "Success Rate"); ("60+", "Countries Supported")].

(** The paths of the five pages of [src/pages], as the header links them. *)
Definition page_paths : list string := Header.paths.

(** The targets of the links that lead to none of those pages. *)
Definition off_site (l : list Link) : list string :=
  List.map to (List.filter (fun k => negb (bool_decide (to k ∈ page_paths))) l).

End Links.

Module Hero.
Import Links.

(** A country pill of the hero, lines 26-60: its button variant, its
    [animationDelay], the icon's country, the label and the link target. *)
Record Pill := {
  pill_variant : string; pill_delay : string; pill_icon : Country.CountryType;
  pill_label : string; pill_to : string
}.

Definition pills : list Pill := [
  {| pill_variant := "canada"; pill_delay := "0.1s"; pill_icon := Country.canada;
     pill_label := "Canada"; pill_to := "/templates/canada" |};
  {| pill_variant := "germany"; pill_delay := "0.2s"; pill_icon := Country.germany;
     pill_label := "Germany"; pill_to := "/templates/germany" |};
  {| pill_variant := "australia"; pill_delay := "0.3s"; pill_icon := Country.australia;
     pill_label := "Australia"; pill_to := "/templates/australia" |};
  {| pill_variant := "portugal"; pill_delay := "0.4s"; pill_icon := Country.portugal;
     pill_label := "Portugal/EU"; pill_to := "/templates/portugal" |};
  {| pill_variant := "usa"; pill_delay := "0.5s"; pill_icon := Country.usa;
     pill_label := "USA"; pill_to := "/templates/usa" |}].

(** A pill's class before [tailwind-merge] (lines 26, 34, 41, 48, 55):
    its country's variant, the [pill] size and the slide-in animation. *)
Definition pill_class (p : Pill) : string :=
  Button.buttonVariants (Some (pill_variant p)) (Some "pill") (Some "animate-slide-in-bottom").

(** The links of the hero: the pills, then the two calls to action of
    lines 63-70. *)
Definition heroLinks : list Link :=
  List.map (fun p => lk (pill_label p) (pill_to p)) pills ++
  [lk "Start Building Your Resume" "/builder"; lk "Browse Templates" "/templates"].

End Hero.

Module Features.
Import Links.

Record FeatureCard := { title : string; fdescription : string }.

(** Lines 7-38 (the icons apart). *)
Definition features : list FeatureCard := [
  {| title := "Country-Specific Templates";
     fdescription := "Tailored resume formats for Canada, Germany, Australia, Portugal/EU, and USA." |};
  {| title := "ATS-Optimized";
     fdescription := "Machine-readable formats that pass through Applicant Tracking Systems." |};
  {| title := "Real-Time Preview";
     fdescription := "See changes instantly as you build and customize your resume." |};
  {| title := "Keyword Optimization";
     fdescription := "Match your skills and experience to job descriptions." |};
  {| title := "PDF Export";
     fdescription := "Download high-quality, print-ready PDF files in A4 and Letter sizes." |};
  {| title := "Multi-language Support";
     fdescription := "Create resumes in multiple languages for international applications." |}].

(** Line 56: the card's [animationDelay] is [index * 0.1] seconds, a
    product of doubles. *)
Definition animationDelay (index : nat) : float := index_times index 0.1.

(** Lines 52-73: each card with its delay. *)
Definition feature_cards : list (FeatureCard * float) :=
  imap (fun i f => (f, animationDelay i)) features.

(** Lines 84-90. *)
Definition featureLinks : list Link :=
  [lk "Create Your Resume Now" "/builder"; lk "Explore Templates" "/templates"].

End Features.

Module Testimonials.
Import JsString.

(** Lines 6-34; the [image] URL of each card is not modelled and the flag
    emoji is written as the country it stands for. *)
Record Testimonial := {
  t_name : string; t_role : string; t_company : string; t_country : Country.CountryType;
  t_content : string; t_rating : Z
}.

Definition testimonials : list Testimonial := [
  {| t_name := "Sarah Chen"; t_role := "Software Engineer"; t_company := "Microsoft Canada";
     t_country := Country.canada;
     t_content := "GlobeCraft helped me land my dream job at Microsoft! The Canadian template was exactly what I needed, and the ATS optimization worked perfectly.";
     t_rating := 5 |};
  {| t_name := "Marcus Weber"; t_role := "Data Scientist"; t_company := "SAP Germany";
     t_country := Country.germany;
     t_content := "The German Lebenslauf format was spot-on. I received 3 job offers within 2 weeks of applying with my new resume.";
     t_rating := 5 |};
  {| t_name := "Emily Rodriguez"; t_role := "Marketing Manager"; t_company := "Atlassian Australia";
     t_country := Country.australia;
     t_content := "The STAR method formatting helped me showcase my achievements perfectly. Highly recommend for anyone applying to Australian companies!";
     t_rating := 5 |}].

(** Lines 84-88: [Array.from({ length: testimonial.rating })], a star each. *)
Definition stars (t : Testimonial) : list unit := array_from_length (t_rating t) (fun _ => tt).

(** Lines 96-102: the summary row, five stars and the text [4.9/5]. *)
Definition summary_stars : list unit := array_from_length 5 (fun _ => tt).

Definition summary_score : string := "4.9/5".

(** A rendered card, lines 49-90: its [animationDelay] ([index * 0.2]
    seconds, line 53), the quoted content, the portrait's alt text, the
    name with the flag, the role, the company and the stars. *)
Record TCard := {
  tc_delay : float; tc_quote : string; tc_alt : string; tc_name : string;
  tc_flag : Country.CountryType; tc_role : string; tc_company : string; tc_stars : list unit
}.

Definition quote (s : string) : string := String "034" (s +:+ String "034" EmptyString).

Definition testimonial_cards : list TCard :=
  imap (fun i t => {| tc_delay := index_times i 0.2; tc_quote := quote (t_content t);
                      tc_alt := t_name t; tc_name := t_name t; tc_flag := t_country t;
                      tc_role := t_role t; tc_company := t_company t; tc_stars := stars t |})
       testimonials.

(** The points under the summary, lines 110-121. *)
Definition summary_points : list string := ["95% Success Rate"; "60+ Countries Supported"; "24/7 Support"].

End Testimonials.

Module LoadingState.
Import JsString.

Inductive Variant := VCard | VButton | VText | VImage | VForm.

(** One placeholder: the classes of its wrapping element, if it has one,
    and of its [Skeleton]s. *)
Record Block := { wrapper : option string; skeletons : list string }.

(** [renderSkeleton], lines 10-52. *)
Definition renderSkeleton (v : Variant) (className : string) : Block :=
  match v with
  | VCard => {| wrapper := Some ("space-y-4 p-4 " +:+ className);
                skeletons := ["h-6 w-3/4"; "h-4 w-full"; "h-4 w-2/3"; "h-9 w-20"; "h-9 w-24"] |}
  | VButton => {| wrapper := None; skeletons := ["h-10 w-32 " +:+ className] |}
  | VImage => {| wrapper := None; skeletons := ["aspect-video w-full " +:+ className] |}
  | VForm => {| wrapper := Some ("space-y-4 " +:+ className);
                skeletons := ["h-4 w-20"; "h-10 w-full"; "h-4 w-24"; "h-10 w-full";
                              "h-4 w-28"; "h-20 w-full"] |}
  | VText => {| wrapper := None; skeletons := ["h-4 w-full " +:+ className] |}
  end.

(** [LoadingState], lines 9 and 54-62: the defaults [variant = "text"],
    [count = 1], [className = ""], and [count] copies of the placeholder. *)
Definition LoadingState (variant : option Variant) (count : option Z) (className : option string)
    : list Block :=
  array_from_length (default 1%Z count)
    (fun _ => renderSkeleton (default VText variant) (default "" className)).

End LoadingState.

Module Index.
Import LoadingState.

Inductive Part := Hero | Features | TestimonialsSection | CallToAction | Loading (l : list Block).

(** Index.tsx, lines 10-25: the two lazy sections show their [Suspense]
    fallbacks until their code has loaded. *)
Definition Index (testimonialsLoaded ctaLoaded : bool) : list Part :=
  [Hero; Features;
   if testimonialsLoaded then TestimonialsSection
   else Loading (LoadingState (Some VCard) (Some 3%Z) (Some "container mx-auto px-4 py-16"));
   if ctaLoaded then CallToAction
   else Loading (LoadingState (Some VText) (Some 2%Z) (Some "container mx-auto px-4 py-8"))].

End Index.

(** * Theorems *)

Module MarketingTheorems.
Import JsString Links Hero Features Testimonials LoadingState Index.

Lemma off_site_nil (l : list Link) :
  off_site l = [] <-> Forall (fun k => to k ∈ page_paths) l.
Proof.
  unfold off_site. induction l as [|k l IH]; simpl; [split; auto|].
  rewrite Forall_cons, <-IH. case_bool_decide; simpl; [tauto|].
  split; [discriminate|intros [? _]; contradiction].
Qed.

(** The footer links to eight paths that none of the five pages of
    [src/pages] serves, and the hero's five country pills link to paths
    below [/templates] that none serves either; the section buttons all
    lead to pages that exist. *)
Lemma off_site_links :
  off_site footer_links = ["/features"; "/tips"; "/guides"; "/faq"; "/blog"; "/about"; "/privacy"; "/terms"] /\
  off_site heroLinks = ["/templates/canada"; "/templates/germany"; "/templates/australia";
                        "/templates/portugal"; "/templates/usa"] /\
  off_site ctaLinks = [] /\ off_site featureLinks = [].
Proof. vm_compute. repeat split. Qed.

(** Whatever the year, the copyright line starts with a stray U+00C2
    before the copyright sign. *)
Lemma copyright_mojibake (y : Z) :
  String.get 0 (copyright y) = Some (ascii_of_nat 194) /\
  String.get 1 (copyright y) = Some (ascii_of_nat 169).
Proof. split; reflexivity. Qed.

(** The header calls the site Global Craft on every page, the footer's
    brand link calls it GlobeCraft. *)
Lemma brand_mismatch (st : Layout.State) :
  Layout.brand (Layout.view st) = "Global Craft" /\
  List.head footer_links = Some (lk "GlobeCraft" "/").
Proof. split; done. Qed.

(** Each country pill names one country three times over: its button
    variant and its link target are built from the code of the country
    whose icon it shows. *)
Lemma hero_pills_country :
  Forall (fun p => pill_variant p = Country.code (pill_icon p) /\
                   pill_to p = "/templates/" +:+ Country.code (pill_icon p)) pills.
Proof. repeat constructor. Qed.

(** Each pill's variant and size are entries of the button's tables, so
    the pill is coloured with its own country's background; the table has
    no [eu] variant, which no pill asks for. *)
Lemma hero_pill_buttons :
  Forall (fun p => is_Some (Button.variants !! pill_variant p) /\ is_Some (Button.sizes !! "pill") /\
                   includes (pill_class p) ("bg-" +:+ Country.code (pill_icon p)) = true) pills /\
  Button.variants !! "eu" = None.
Proof. split; [apply (bool_decide_unpack _)|]; vm_compute; reflexivity. Qed.

(** The fourth feature card's delay is the double [3 * 0.1], which is not
    the double [0.3]: it prints as [0.30000000000000004s] in the style,
    while the others are the decimals they look like. *)
Lemma feature_delays :
  List.map snd feature_cards = [0; 0.1; 0.2; 0.30000000000000004; 0.4; 0.5]%float /\
  PrimFloat.eqb (animationDelay 3) 0.3 = false.
Proof. split; vm_compute; reflexivity. Qed.

(** Each card shows as many stars as its rating, five for each of the
    three, fades in 0.2 s after the previous one, and quotes its text;
    the summary row shows five stars beside the text 4.9/5. *)
Lemma testimonial_stars :
  Forall (fun t => length (stars t) = Z.to_nat (t_rating t) /\ t_rating t = 5%Z) testimonials /\
  List.map tc_delay testimonial_cards = [0; 0.2; 0.4]%float /\
  List.map tc_quote testimonial_cards = List.map (fun t => quote (t_content t)) testimonials /\
  length summary_stars = 5.
Proof. split; [repeat constructor|]. split; [vm_compute; reflexivity|]. split; reflexivity. Qed.

(** The home page claims 60+ supported countries, twice; the program
    knows six country codes, and every country it accepts is one of
    them. *)
Lemma countries_claim :
  ("60+", "Countries Supported") ∈ cta_stats /\ "60+ Countries Supported" ∈ summary_points /\
  length Country.all_countries = 6 /\ (forall c, c ∈ Country.all_countries).
Proof. split; [set_solver|]. split; [set_solver|]. split; [done|]. exact Country.all_countries_complete. Qed.

(** The testimonials band promises 24/7 support; the contact page offers
    live chat on weekdays from 9 to 6 and e-mail answers within a day. *)
Lemma support_hours_mismatch :
  "24/7 Support" ∈ summary_points /\
  List.map (fun m => (ContactPage.m_title m, ContactPage.m_main m, ContactPage.m_note m))
           (List.firstn 2 ContactPage.contactMethods) =
    [("Email Support", "goutam.roy.421917@gmail.com", "Response within 24 hours");
     ("Live Chat", "Available Mon-Fri", "9:00 AM - 6:00 PM EST")].
Proof. split; [set_solver|reflexivity]. Qed.

(** The placeholder is repeated [count] times, none for a count of zero
    or below. *)
Lemma loading_state_count (v : option Variant) (n : Z) (c : option string) :
  (0 <= n <= 2 ^ 53 - 1)%Z ->
  Z.of_nat (length (LoadingState v (Some n) c)) = n /\
  Forall (fun b => b = renderSkeleton (default VText v) (default "" c)) (LoadingState v (Some n) c).
Proof.
  intros Hn. split.
  - unfold LoadingState. by rewrite array_from_length_length, to_length_in_range.
  - unfold LoadingState, array_from_length. apply Forall_map, Forall_forall. done.
Qed.

(** A count of zero or below renders no placeholder at all. *)
Lemma loading_state_nonpos (v : option Variant) (n : Z) (c : option string) :
  (n <= 0)%Z -> LoadingState v (Some n) c = [].
Proof. intros Hn. exact (array_from_length_nonpos _ _ Hn). Qed.

(** The three cards are rated 5, so their average is 5 out of 5, while
    the summary under them reads 4.9/5. *)
Lemma testimonial_average :
  (List.fold_right Z.add 0 (List.map t_rating testimonials) = 5 * Z.of_nat (length testimonials))%Z /\
  summary_score <> "5/5".
Proof. split; [reflexivity|discriminate]. Qed.

(** Until the testimonials have loaded, the home page shows three card
    placeholders of five skeletons each in their place. *)
Lemma index_loading_testimonials (cta : bool) :
  exists blocks, List.nth 2 (Index false cta) Hero = Loading blocks /\
  length blocks = 3 /\ Forall (fun b => length (skeletons b) = 5) blocks.
Proof. eexists. split; [reflexivity|]. split; [reflexivity|]. repeat constructor. Qed.

End MarketingTheorems.
