(* ===== verification/Navigation.v ===== *)
(** * Moving between the pages through URLs

    The pages meet through URLs only.  The Templates page's cards link to
    [/builder?template=<id>&country=<code>] ([src/src/pages/Templates.tsx],
    line 190); the builder mounts on the parameters it reads with
    [searchParams.get] and writes its selection back with
    [setSearchParams] ([src/src/pages/ResumeBuilder.tsx], lines 40-59).
    [open_builder] composes the two ends: the link is split into its path
    and search string, the search string parsed as [URLSearchParams] does
    ([Url.v]), and the builder mounted ([Builder.init]) on the two values.

    The theorems follow a link through this composition: every card of the
    Templates page opens the builder on its tab's country and its
    template id, a reload of the builder restores its selection, and the
    selector shows the chosen card as selected for one card only. *)

From S2P Require Import Prelude JsString Country Url PdfExport Templates Builder.
From Stdlib Require Import Ascii.

Module Navigation.
Import JsString Country Url PdfExport TemplateSelection TemplatesPage Builder.

Section Nav.
Context {Node : Type} `{Html2Pdf Node} `{Render Node}.

(** The builder page mounted on a link, if the link leads to it. *)
Definition open_builder (url : string) (slot : option Saved) (d : Dom Node) : option (State Node) :=
  let '(path, search) := split_link url in
  if bool_decide (path = "/builder") then
    let ps := of_search search in Some (init (get "country" ps) (get "template" ps) slot d)
  else None.

(** The builder's own URL, as [setSearchParams] writes it (lines 55-59). *)
Definition builder_url (st : State Node) : string := "/builder?" +:+ serialize (searchParams st).

(** The ids of the cards the selector shows as selected: the cards of its
    tab (TemplateSelection.tsx, lines 237-272) whose id is the page's. *)
Definition highlighted (st : State Node) : list string :=
  List.map tpl_id (List.filter (is_selected (templateId st)) (templates (selectorTab st))).

End Nav.

(** ** Lemmas *)

Lemma template_ids_nonempty (c : CountryType) : Forall (fun id => id <> "") (template_ids c).
Proof. apply (bool_decide_unpack _). destruct c; vm_compute; reflexivity. Qed.

Section NavTheorems.
Context {Node : Type} `{Html2Pdf Node} `{Render Node}.

Lemma step_templateId_nonempty (ev : Event) (st : State Node) :
  enabled st ev = true -> templateId st <> "" -> templateId (step ev st).1 <> "".
Proof.
  intros Hen Ht. destruct ev as [c|id| | | | | | | | |];
    [|pose proof (proj1 (Forall_forall _ _) (template_ids_nonempty (selectorTab st)) id
                    (bool_decide_eq_true_1 _ Hen))|..];
    step_cases; by destruct c.
Qed.

(** The builder never holds an empty template id: the mount falls back
    to [usa-professional] for an empty parameter, and every change sets
    a card's id or [<country>-professional]. *)
Lemma reachable_templateId (st : State Node) : reachable st -> templateId st <> "".
Proof.
  induction 1 as [cp tp slot d _|st ev _ IH Hen].
  - cbn. destruct tp as [s|]; [|discriminate].
    unfold js_or_s. case_bool_decide; [discriminate|done].
  - by apply step_templateId_nonempty.
Qed.

Lemma join_no_char (c sep : ascii) (xs : list string) :
  c <> sep -> Forall (fun x => no_char c x = true) xs -> no_char c (join sep xs) = true.
Proof.
  intros Hc. induction xs as [|x [|x' xs] IH]; intros Hall; [done|by inversion Hall|].
  apply Forall_cons in Hall as [Hx Hxs]. cbn [join]. unfold no_char in *.
  rewrite all_chars_app, Hx. cbn. rewrite bool_decide_false by congruence. by apply IH.
Qed.

Lemma serialize_no_hash (l : list (string * string)) : no_char "#"%char (serialize l) = true.
Proof.
  apply join_no_char; [discriminate|]. apply Forall_map, Forall_forall. intros [n v] _.
  destruct (encode_no_char n) as (_ & _ & Hn), (encode_no_char v) as (_ & _ & Hv).
  unfold no_char in *. cbn [fst snd]. rewrite all_chars_app, Hn. cbn [all_chars].
  by rewrite Hv, bool_decide_false.
Qed.

Lemma split_link_builder (q : string) :
  no_char "#"%char q = true -> split_link ("/builder?" +:+ q) = ("/builder", String "?"%char q).
Proof.
  intros Hq. change ("/builder?" +:+ q) with ("/builder" +:+ String "?"%char q).
  unfold split_link. rewrite split_first_no_char by reflexivity. by rewrite split_first_none.
Qed.

(** C23. Reloading the builder mounts it again on its own URL, and the mount
    reads back the country and the template id the page had: the
    selection survives a reload, whatever the template id's bytes. *)
Theorem reload_restores_selection (st : State Node) (slot : option Saved) (d : Dom Node) :
  reachable st ->
  exists st', open_builder (builder_url st) slot d = Some st' /\
              country st' = country st /\ templateId st' = templateId st.
Proof.
  intros Hr. pose proof (reachable_templateId st Hr) as Ht.
  unfold open_builder, builder_url. rewrite split_link_builder by apply serialize_no_hash.
  rewrite bool_decide_true by done. cbn [of_search].
  rewrite (reachable_url st Hr), parse_serialize. eexists. split; [reflexivity|].
  cbn. rewrite bool_decide_true by done. rewrite (bool_decide_false ("country" = "template")) by done.
  rewrite bool_decide_true by done. split; [by destruct (country st)|].
  by apply js_or_s_nonempty.
Qed.

(** C40. Following a card of the Templates page opens the builder on the
    card's tab and template id; but the builder's selector opens on its
    USA tab, so the followed card is shown as selected for the Modern
    American card only: for every other card no card of the selector is
    marked. *)
Theorem card_link_opens_builder (s : CountryType) (t : PageTemplate) (slot : option Saved) (d : Dom Node) :
  s ∈ page_countries -> t ∈ page_templates s ->
  exists st', match page_step (CardLink (builder_link s t)) s with
              | inr url => open_builder url slot d
              | inl _ => None
              end = Some st' /\
    country st' = s /\ templateId st' = pt_id t /\
    highlighted st' = if bool_decide (pt_id t = "usa-modern") then ["usa-modern"] else [].
Proof.
  intros Hs Ht.
  repeat (apply elem_of_cons in Hs as [->|Hs];
    [cbn in Ht; repeat (apply elem_of_cons in Ht as [->|Ht];
                          [eexists; split; [reflexivity|repeat split; reflexivity]|]);
     by apply elem_of_nil in Ht|]).
  by apply elem_of_nil in Hs.
Qed.

End NavTheorems.

(** The builder's fixtures: a rasteriser and a renderer on [unit]. *)
#[local] Existing Instances unit_h2p unit_render.

Lemma card_link_opens_builder_witness :
  exists st', match page_step (CardLink (builder_link Country.usa
                  (pt "usa-modern" "Modern American" "Contemporary design with subtle styling" true
                      ["Modern typography"; "Color accents"; "Professional sections"]))) Country.usa with
              | inr url => open_builder url None page_dom
              | inl _ => None
              end = Some st' /\
    country st' = Country.usa /\ templateId st' = "usa-modern" /\ highlighted st' = ["usa-modern"].
Proof.
  exact (@card_link_opens_builder unit unit_render Country.usa
           (pt "usa-modern" "Modern American" "Contemporary design with subtle styling" true
               ["Modern typography"; "Color accents"; "Professional sections"]) None page_dom
           ltac:(set_solver) ltac:(cbn; apply elem_of_cons; right; apply elem_of_cons; left; reflexivity)).
Defined.

Lemma reload_restores_selection_witness :
  reachable fresh_page /\
  exists st', open_builder (builder_url fresh_page) None page_dom = Some st' /\
              country st' = country fresh_page /\ templateId st' = templateId fresh_page.
Proof.
  split; [exact fresh_page_reachable|].
  exact (@reload_restores_selection _ _ _ fresh_page None page_dom fresh_page_reachable).
Defined.

End Navigation.
